(** * transport.py: the WiFi (TCP socket) and Bluetooth LE transports

    A shallow embedding of [src/transport.py].  Each method of the two
    transport classes is a function in a small state-and-exception monad over
    the instance's fields; what the operating system, the socket, the bleak
    library and the peer answer is an explicit environment argument, and what
    the method asks of them is appended to a trace.  Coroutines that run on the
    BLE event loop produce a timeline of suspensions, which [future.result]
    consumes under its time bound.  The factory that builds the transports
    comes last. *)

From Stdlib Require Import List String Ascii ZArith NArith Bool Lia DecimalString.
Import ListNotations.
Local Open Scope string_scope.
Local Open Scope list_scope.

(** ** Python values *)

Module Py.

(** [bytes] *)
Definition bytes := list Byte.byte.

(** Truthiness, as [if x:] and [not x] test it. *)
Definition truthy_str (s : string) : bool := negb (String.eqb s "").

Definition truthy_opt_str (o : option string) : bool :=
  match o with Some s => truthy_str s | None => false end.

Definition truthy_opt_int (o : option Z) : bool :=
  match o with Some z => negb (z =? 0)%Z | None => false end.

Definition truthy_bytes (b : bytes) : bool :=
  match b with [] => false | _ :: _ => true end.

(** An [Optional] object of a class with neither [__bool__] nor [__len__]
    (a socket, a thread, an event loop, a client, a function). *)
Definition is_some {A : Type} (o : option A) : bool :=
  match o with Some _ => true | None => false end.

(** [a or b] on optional strings: the first truthy operand, else the last. *)
Definition or_str (a : option string) (b : option string) : option string :=
  if truthy_opt_str a then a else b.

(** [a or b] where [b] is a string. *)
Definition or_default (a : option string) (b : string) : string :=
  match a with
  | Some v => if truthy_str v then v else b
  | None => b
  end.

(** [str(n)] of an [int]. *)
Definition str_int (z : Z) : string := NilZero.string_of_int (Z.to_int z).

(** [str.lower] of a string of ASCII characters: the letters A to Z are made
    small and every other character is kept.  On a character outside ASCII
    [str.lower] can do otherwise. *)
Definition lower_ascii (c : ascii) : ascii :=
  let n := nat_of_ascii c in
  if (65 <=? n)%nat && (n <=? 90)%nat then ascii_of_nat (n + 32) else c.

Fixpoint lower (s : string) : string :=
  match s with
  | EmptyString => EmptyString
  | String c r => String (lower_ascii c) (lower r)
  end.

(** [x in l] for a list of strings. *)
Definition str_in (x : string) (l : list string) : bool :=
  existsb (String.eqb x) l.

End Py.

(** ** Exceptions, log records and the trace of operations *)

(** The exceptions the code distinguishes.  [CancelledError] is
    [asyncio.CancelledError], a [BaseException]; the others are subclasses of
    [Exception]. *)
Inductive exn : Type :=
| ImportError
| TimeoutError
| CancelledError
| FutureCancelledError
| Error (msg : string).

Definition is_Exception (e : exn) : bool :=
  match e with CancelledError => false | _ => true end.

(** A bare [except:]. *)
Definition any_exception (e : exn) : bool := true.

Definition fd := Z.
Definition thread_id := nat.
Definition loop_id := nat.
Definition callback := nat.

(** Durations and time bounds are whole milliseconds. *)
Definition millis := N.

Inductive level : Type := DEBUG | INFO | ERROR.

(** The records written to [self.logger], one constructor per message of the
    source. *)
Inductive log_msg : Type :=
| WiFi_Connecting (host : string) (port : Z)   (* 'WiFi: Connecting to {host}:{port}' *)
| WiFi_Socket_connected                        (* 'WiFi: Socket connected' *)
| WiFi_Connection_failed (e : exn)             (* 'WiFi: Connection failed: {e}' *)
| WiFi_Disconnecting                           (* 'WiFi: Disconnecting' *)
| WiFi_Send_failed (e : exn)                   (* 'WiFi: Send failed: {e}' *)
| WiFi_Receive_error (e : exn)                 (* 'WiFi: Receive error: {e}' *)
| BLE_not_installed                            (* 'BLE: bleak library not installed. ...' *)
| BLE_Connection_failed (e : exn)              (* 'BLE: Connection failed: {e}' *)
| BLE_Traceback (e : exn)                      (* 'BLE: Traceback: ...' *)
| BLE_Send_timeout_or_error                    (* 'BLE: Send timeout or error' *)
| BLE_Send_failed (e : exn)                    (* 'BLE: Send failed: {e}' *)
| BLE_Scanning_no_timeout                      (* 'BLE: Scanning ... (no timeout - ...)' *)
| BLE_Scanning (timeout : millis)              (* 'BLE: Scanning ... (timeout={scan_timeout}s)' *)
| BLE_No_camera_found                          (* 'BLE: No Insta360 camera found' *)
| BLE_Connecting (address : string)            (* 'BLE: Connecting to {device_address}' *)
| BLE_Calling_connect                          (* 'BLE: Calling connect()...' *)
| BLE_connect_returned (connected : bool)      (* 'BLE: connect() returned: {connected}' *)
| BLE_Connected_enabling                       (* 'BLE: Connected to device, enabling notifications' *)
| BLE_Successfully_connected (name : string)   (* 'BLE: Successfully connected to {name or address}' *)
| BLE_connect_returned_False                   (* 'BLE: connect() returned False' *)
| BLE_Found (name : option string) (address : string)  (* 'BLE: Found {name} ({address})' *)
| BLE_Still_scanning (attempt : nat).          (* 'BLE: Still scanning... (attempt {n})' *)

Definition log_record : Type := level * log_msg.

(** The coroutines the BLE transport submits to its event loop. *)
Inductive coroutine : Type :=
| Async_connect
| Async_disconnect
| Async_send (data : Py.bytes).

(** What a method asks of the operating system, the medium and the caller's
    callback, in the order it asks. *)
Inductive event : Type :=
| Socket_new
| Socket_settimeout (sock : fd) (t : millis)
| Socket_connect (sock : fd) (host : string) (port : Z)
| Socket_shutdown (sock : fd)
| Socket_close (sock : fd)
| Socket_sendall (sock : fd) (data : Py.bytes)
| Socket_poll (sock : fd) (t : millis)
| Socket_recv (sock : fd) (bufsize : N)
| Thread_start (t : thread_id)
| Thread_join (t : thread_id) (timeout : millis)
| Sleep (t : millis)
| Callback (cb : callback) (data : Py.bytes)
| Import_bleak
| Run_coroutine_threadsafe (c : coroutine) (loop : loop_id)
| Future_result (timeout : option millis)
| Call_soon_cancel_tasks (loop : loop_id)
| Call_soon_stop (loop : loop_id)
| Task_cancel (task : nat)
| Scanner_discover (timeout : millis)
| Scanner_start
| Scanner_stop
| Scanner_stop_task
| Asyncio_sleep (t : millis)
| Client_new (address : string) (timeout : millis)
| Client_connect
| Client_start_notify (uuid : string)
| Client_stop_notify (uuid : string)
| Client_disconnect
| Client_write_gatt_char (uuid : string) (data : Py.bytes).

(** ** The monad of method bodies

    A method runs on the instance's state and either returns, raises (the
    state keeps what was written before the exception, as in Python), never
    returns, or exhausts the fuel of the model. *)

Section Monad.

Context {S : Type}.

Inductive result (A : Type) : Type :=
| Returned (a : A) (s : S)
| Raised (e : exn) (s : S)
| Blocked (s : S)
| Out_of_fuel (s : S).

Arguments Returned {A}.
Arguments Raised {A}.
Arguments Blocked {A}.
Arguments Out_of_fuel {A}.

Definition M (A : Type) : Type := S -> result A.

Definition ret {A : Type} (a : A) : M A := fun s => Returned a s.

Definition raise {A : Type} (e : exn) : M A := fun s => Raised e s.

Definition bind {A B : Type} (m : M A) (k : A -> M B) : M B :=
  fun s =>
    match m s with
    | Returned a s' => k a s'
    | Raised e s' => Raised e s'
    | Blocked s' => Blocked s'
    | Out_of_fuel s' => Out_of_fuel s'
    end.

Definition get : M S := fun s => Returned s s.

Definition modify (f : S -> S) : M unit := fun s => Returned tt (f s).

(** [try: m  except <handles> as e: h e] *)
Definition try_except {A : Type} (m : M A) (handles : exn -> bool) (h : exn -> M A) : M A :=
  fun s =>
    match m s with
    | Raised e s' => if handles e then h e s' else Raised e s'
    | r => r
    end.

(** The state in which a run ends. *)
Definition final_state {A : Type} (r : result A) : S :=
  match r with
  | Returned _ s | Raised _ s | Blocked s | Out_of_fuel s => s
  end.

(** The value a run returns, if it returns. *)
Definition returned {A : Type} (r : result A) : option A :=
  match r with Returned a _ => Some a | _ => None end.

End Monad.

Arguments Returned {S A}.
Arguments Raised {S A}.
Arguments Blocked {S A}.
Arguments Out_of_fuel {S A}.
Arguments M : clear implicits.
Arguments result : clear implicits.

Declare Scope py_scope.
Delimit Scope py_scope with py.
Notation "x <- m ;; k" := (bind m (fun x => k))
  (at level 61, m at next level, right associativity) : py_scope.
Notation "m ;; k" := (bind m (fun _ => k))
  (at level 61, right associativity) : py_scope.
Local Open Scope py_scope.

(** ** class WiFiTransport(TransportBase) *)

Module WiFiTransport.

(** The class constants, in milliseconds. *)
Definition SOCKET_TIMEOUT_SEC : millis := 5000%N.
Definition PKT_COMPLETE_TIMEOUT_SEC : millis := 4000%N.
Definition DEFAULT_HOST : string := "192.168.42.1".
Definition DEFAULT_PORT : Z := 6666%Z.
Definition POLLIN : Z := 1%Z.

(** The fields [__init__] creates ([socket_lock] apart: the model runs one
    method at a time), followed by the ghost fields of the model. *)
Record t : Type := mk {
  (* TransportBase *)
  logger : list log_record;
  is_connected : bool;
  receive_callback : option callback;
  (* WiFiTransport *)
  host : option string;
  port : option Z;
  socket : option fd;
  rcv_thread : option thread_id;
  rcv_buffer : Py.bytes;
  stop_receiving_flag : bool;
  (* ghost: operations issued so far, time the caller spent blocked, threads
     that have been started and have not returned, number of threads created *)
  trace : list event;
  clock : millis;
  alive : list thread_id;
  threads_created : nat
}.

(** [WiFiTransport(logger)] *)
Definition init : t :=
  {| logger := []; is_connected := false; receive_callback := None;
     host := None; port := None; socket := None; rcv_thread := None;
     rcv_buffer := []; stop_receiving_flag := false;
     trace := []; clock := 0%N; alive := []; threads_created := 0 |}.

Definition set_logger (v : list log_record) (s : t) : t :=
  mk v (is_connected s) (receive_callback s) (host s) (port s) (socket s) (rcv_thread s)
     (rcv_buffer s) (stop_receiving_flag s) (trace s) (clock s) (alive s) (threads_created s).

Definition set_is_connected (v : bool) (s : t) : t :=
  mk (logger s) v (receive_callback s) (host s) (port s) (socket s) (rcv_thread s)
     (rcv_buffer s) (stop_receiving_flag s) (trace s) (clock s) (alive s) (threads_created s).

Definition set_receive_callback (v : option callback) (s : t) : t :=
  mk (logger s) (is_connected s) v (host s) (port s) (socket s) (rcv_thread s)
     (rcv_buffer s) (stop_receiving_flag s) (trace s) (clock s) (alive s) (threads_created s).

Definition set_host (v : option string) (s : t) : t :=
  mk (logger s) (is_connected s) (receive_callback s) v (port s) (socket s) (rcv_thread s)
     (rcv_buffer s) (stop_receiving_flag s) (trace s) (clock s) (alive s) (threads_created s).

Definition set_port (v : option Z) (s : t) : t :=
  mk (logger s) (is_connected s) (receive_callback s) (host s) v (socket s) (rcv_thread s)
     (rcv_buffer s) (stop_receiving_flag s) (trace s) (clock s) (alive s) (threads_created s).

Definition set_socket (v : option fd) (s : t) : t :=
  mk (logger s) (is_connected s) (receive_callback s) (host s) (port s) v (rcv_thread s)
     (rcv_buffer s) (stop_receiving_flag s) (trace s) (clock s) (alive s) (threads_created s).

Definition set_rcv_thread (v : option thread_id) (s : t) : t :=
  mk (logger s) (is_connected s) (receive_callback s) (host s) (port s) (socket s) v
     (rcv_buffer s) (stop_receiving_flag s) (trace s) (clock s) (alive s) (threads_created s).

Definition set_rcv_buffer (v : Py.bytes) (s : t) : t :=
  mk (logger s) (is_connected s) (receive_callback s) (host s) (port s) (socket s) (rcv_thread s)
     v (stop_receiving_flag s) (trace s) (clock s) (alive s) (threads_created s).

Definition set_stop_receiving_flag (v : bool) (s : t) : t :=
  mk (logger s) (is_connected s) (receive_callback s) (host s) (port s) (socket s) (rcv_thread s)
     (rcv_buffer s) v (trace s) (clock s) (alive s) (threads_created s).

Definition set_trace (v : list event) (s : t) : t :=
  mk (logger s) (is_connected s) (receive_callback s) (host s) (port s) (socket s) (rcv_thread s)
     (rcv_buffer s) (stop_receiving_flag s) v (clock s) (alive s) (threads_created s).

Definition set_clock (v : millis) (s : t) : t :=
  mk (logger s) (is_connected s) (receive_callback s) (host s) (port s) (socket s) (rcv_thread s)
     (rcv_buffer s) (stop_receiving_flag s) (trace s) v (alive s) (threads_created s).

Definition set_alive (v : list thread_id) (s : t) : t :=
  mk (logger s) (is_connected s) (receive_callback s) (host s) (port s) (socket s) (rcv_thread s)
     (rcv_buffer s) (stop_receiving_flag s) (trace s) (clock s) v (threads_created s).

Definition set_threads_created (v : nat) (s : t) : t :=
  mk (logger s) (is_connected s) (receive_callback s) (host s) (port s) (socket s) (rcv_thread s)
     (rcv_buffer s) (stop_receiving_flag s) (trace s) (clock s) (alive s) v.

(** *** Logging and the operations on the outside world *)

Definition log (l : level) (m : log_msg) : M t unit :=
  modify (fun s => set_logger (logger s ++ [(l, m)]) s).

Definition emit (e : event) : M t unit :=
  modify (fun s => set_trace (trace s ++ [e]) s).

Definition blocked_for (d : millis) : M t unit :=
  modify (fun s => set_clock (clock s + d)%N s).

(** An operation that returns nothing: it is attempted, then it raises or not. *)
Definition attempt (e : event) (outcome : option string) : M t unit :=
  emit e ;;
  match outcome with
  | None => ret tt
  | Some msg => raise (Error msg)
  end.

(** What the operating system answers during [connect]. *)
Record connect_env : Type := {
  socket_socket : fd + string;          (* the new socket, or the error raised *)
  socket_settimeout : option string;
  socket_connect : option string
}.

(** [socket.socket(socket.AF_INET, socket.SOCK_STREAM)] *)
Definition new_socket (env : connect_env) : M t fd :=
  emit Socket_new ;;
  match socket_socket env with
  | inl sock => ret sock
  | inr msg => raise (Error msg)
  end.

(** [threading.Thread(target=self._receive_loop, daemon=True)] *)
Definition new_thread : M t thread_id :=
  s <- get ;;
  modify (set_threads_created (S (threads_created s))) ;;
  ret (threads_created s).

(** [thread.start()] *)
Definition thread_start (th : thread_id) : M t unit :=
  emit (Thread_start th) ;;
  modify (fun s => set_alive (th :: alive s) s).

(** [thread.is_alive()] *)
Definition is_alive (th : thread_id) (s : t) : bool :=
  existsb (Nat.eqb th) (alive s).

(** What [thread.join(timeout)] observes of a thread that is still alive:
    the thread returns after [d] milliseconds, or the bound expires first. *)
Inductive join_outcome : Type :=
| Thread_exits (d : millis)
| Thread_keeps_running.

(** [thread.join(timeout=bound)] *)
Definition thread_join (th : thread_id) (bound : millis) (o : join_outcome) : M t unit :=
  emit (Thread_join th bound) ;;
  s <- get ;;
  if is_alive th s then
    match o with
    | Thread_exits d =>
        if (d <=? bound)%N then
          modify (fun s => set_alive (filter (fun x => negb (Nat.eqb th x)) (alive s)) s) ;;
          blocked_for d
        else blocked_for bound
    | Thread_keeps_running => blocked_for bound
    end
  else ret tt.

(** *** The methods *)

(** [def connect(self, host='192.168.42.1', port=6666, **kwargs) -> bool] *)
Definition connect (host : string) (port : Z) (env : connect_env) : M t bool :=
  try_except
    (modify (set_host (Some host)) ;;
     modify (set_port (Some port)) ;;
     log INFO (WiFi_Connecting host port) ;;
     sock <- new_socket env ;;
     modify (set_socket (Some sock)) ;;
     attempt (Socket_settimeout sock SOCKET_TIMEOUT_SEC) (socket_settimeout env) ;;
     attempt (Socket_connect sock host port) (socket_connect env) ;;
     modify (set_is_connected true) ;;
     log DEBUG WiFi_Socket_connected ;;
     ret true)
    is_Exception
    (fun e =>
       log ERROR (WiFi_Connection_failed e) ;;
       modify (set_socket None) ;;
       modify (set_is_connected false) ;;
       ret false).

(** [def stop_receiving(self) -> None] *)
Definition stop_receiving (join : join_outcome) : M t unit :=
  modify (set_stop_receiving_flag true) ;;
  s <- get ;;
  match rcv_thread s with
  | Some th =>
      thread_join th 2000%N join ;;
      modify (set_rcv_thread None)
  | None => ret tt
  end.

(** What the operating system answers during [disconnect]. *)
Record disconnect_env : Type := {
  join : join_outcome;
  socket_shutdown : option string;
  socket_close : option string
}.

(** [def disconnect(self) -> None] *)
Definition disconnect (env : disconnect_env) : M t unit :=
  log DEBUG WiFi_Disconnecting ;;
  stop_receiving (join env) ;;
  s <- get ;;
  match socket s with
  | Some sock =>
      try_except
        (attempt (Socket_shutdown sock) (socket_shutdown env) ;;
         attempt (Socket_close sock) (socket_close env))
        any_exception
        (fun _ => ret tt) ;;
      modify (set_socket None)
  | None => ret tt
  end ;;
  modify (set_is_connected false) ;;
  modify (set_rcv_buffer []).

(** [def send(self, data: bytes) -> bool]; the argument is what
    [socket.sendall] does: [None] when it writes the whole buffer, the error
    it raises otherwise. *)
Definition send (data : Py.bytes) (sendall : option string) : M t bool :=
  s <- get ;;
  match socket s, is_connected s with
  | Some sock, true =>
      try_except
        (attempt (Socket_sendall sock data) sendall ;;
         ret true)
        is_Exception
        (fun e =>
           log ERROR (WiFi_Send_failed e) ;;
           ret false)
  | _, _ => ret false
  end.

(** [def start_receiving(self, callback) -> None] *)
Definition start_receiving (cb : callback) : M t unit :=
  s <- get ;;
  if match rcv_thread s with Some th => is_alive th s | None => false end
  then ret tt
  else
    modify (set_receive_callback (Some cb)) ;;
    modify (set_stop_receiving_flag false) ;;
    th <- new_thread ;;
    modify (set_rcv_thread (Some th)) ;;
    thread_start th.

(** What one call of [_poll_and_receive] meets: the events [poller.poll(100)]
    reports (a list of descriptor and event mask, empty on time-out), what
    [recv] returns, and whether the caller's callback raises. *)
Record poll_env : Type := {
  poll : list (fd * Z) + string;
  recv : Py.bytes + string;
  callback_raises : option string
}.

(** [event & select.POLLIN and sock == self.socket.fileno()] *)
Definition readable (sock : fd) (ev : fd * Z) : bool :=
  negb (Z.land (snd ev) POLLIN =? 0)%Z && (fst ev =? sock)%Z.

(** [def _poll_and_receive(self) -> bool] *)
Definition _poll_and_receive (env : poll_env) : M t bool :=
  s <- get ;;
  match socket s with
  | None => ret false
  | Some sock =>
      try_except
        (emit (Socket_poll sock 100%N) ;;
         events <- match poll env with
                   | inl evs => ret evs
                   | inr msg => raise (Error msg)
                   end ;;
         if existsb (readable sock) events then
           emit (Socket_recv sock 4096%N) ;;
           data <- match recv env with
                   | inl d => ret d
                   | inr msg => raise (Error msg)
                   end ;;
           s' <- get ;;
           match receive_callback s' with
           | Some cb =>
               if Py.truthy_bytes data
               then attempt (Callback cb data) (callback_raises env)
               else ret tt
           | None => ret tt
           end ;;
           ret true
         else ret false)
        is_Exception
        (fun e =>
           log ERROR (WiFi_Receive_error e) ;;
           ret false)
  end.

(** [def _receive_loop(self) -> None]: one environment for each call of
    [_poll_and_receive]; the run is out of fuel when the loop would go on
    after the last of them. *)
Fixpoint _receive_loop (envs : list poll_env) : M t unit :=
  s <- get ;;
  if negb (stop_receiving_flag s) && Py.is_some (socket s) then
    match envs with
    | [] => fun s' => Out_of_fuel s'
    | env :: rest =>
        got <- _poll_and_receive env ;;
        (if negb got then emit (Sleep 100%N) else ret tt) ;;
        _receive_loop rest
    end
  else ret tt.

(** The body of the receive thread [th]: the loop, after which the thread is
    no longer alive.  The thread is followed pass by pass: what the other
    threads write to the instance takes effect between two passes, and a
    thread that outlives a join is one that has not come back to the test of
    the loop. *)
Definition receive_thread (th : thread_id) (envs : list poll_env) : M t unit :=
  _receive_loop envs ;;
  modify (fun s => set_alive (filter (fun x => negb (Nat.eqb th x)) (alive s)) s).

(** *** A callback that raises any exception

    [callback_raises] of a [poll_env] is the message of an [Exception].  The
    caller's callback is free to raise an exception that is not one, a
    [BaseException] such as [asyncio.CancelledError], and [except Exception]
    does not handle it.  A [pass_env] says which exception the callback
    raises, of either kind; [_poll_and_receive_pass] and
    [_receive_loop_passes] are [_poll_and_receive] and [_receive_loop] read
    with it. *)
Record pass_env : Type := {
  events : list (fd * Z) + string;        (* poller.poll(100), or the error it raises *)
  received : Py.bytes + string;           (* sock.recv(4096), or the error it raises *)
  callback_exn : option exn               (* what self.receive_callback(data) raises *)
}.

(** A [poll_env] as a [pass_env]. *)
Definition pass_of (env : poll_env) : pass_env :=
  {| events := poll env;
     received := recv env;
     callback_exn := match callback_raises env with
                     | Some msg => Some (Error msg)
                     | None => None
                     end |}.

(** [self.receive_callback(data)] *)
Definition call (cb : callback) (data : Py.bytes) (outcome : option exn) : M t unit :=
  emit (Callback cb data) ;;
  match outcome with
  | None => ret tt
  | Some e => raise e
  end.

(** [def _poll_and_receive(self) -> bool] *)
Definition _poll_and_receive_pass (env : pass_env) : M t bool :=
  s <- get ;;
  match socket s with
  | None => ret false
  | Some sock =>
      try_except
        (emit (Socket_poll sock 100%N) ;;
         events <- match events env with
                   | inl evs => ret evs
                   | inr msg => raise (Error msg)
                   end ;;
         if existsb (readable sock) events then
           emit (Socket_recv sock 4096%N) ;;
           data <- match received env with
                   | inl d => ret d
                   | inr msg => raise (Error msg)
                   end ;;
           s' <- get ;;
           match receive_callback s' with
           | Some cb =>
               if Py.truthy_bytes data
               then call cb data (callback_exn env)
               else ret tt
           | None => ret tt
           end ;;
           ret true
         else ret false)
        is_Exception
        (fun e =>
           log ERROR (WiFi_Receive_error e) ;;
           ret false)
  end.

(** [def _receive_loop(self) -> None] *)
Fixpoint _receive_loop_passes (envs : list pass_env) : M t unit :=
  s <- get ;;
  if negb (stop_receiving_flag s) && Py.is_some (socket s) then
    match envs with
    | [] => fun s' => Out_of_fuel s'
    | env :: rest =>
        got <- _poll_and_receive_pass env ;;
        (if negb got then emit (Sleep 100%N) else ret tt) ;;
        _receive_loop_passes rest
    end
  else ret tt.

(** [f"{x}"] of an optional field. *)
Definition fmt_str (o : option string) : string :=
  match o with Some v => v | None => "None" end.

Definition fmt_int (o : option Z) : string :=
  match o with Some v => Py.str_int v | None => "None" end.

(** [def connection_info(self) -> str] (a property) *)
Definition connection_info (s : t) : string :=
  if is_connected s && Py.truthy_opt_str (host s) && Py.truthy_opt_int (port s)
  then ("WiFi " ++ fmt_str (host s) ++ ":" ++ fmt_int (port s))%string
  else "WiFi (disconnected)".

End WiFiTransport.

(** ** class BLETransport(TransportBase) *)

Module BLETransport.

Definition SERVICE_UUID : string := "0000be80-0000-1000-8000-00805f9b34fb".
Definition WRITE_CHAR_UUID : string := "0000be81-0000-1000-8000-00805f9b34fb".
Definition READ_CHAR_UUID : string := "0000be82-0000-1000-8000-00805f9b34fb".

(** A [BLEDevice] and the [AdvertisementData] it was seen with. *)
Record device : Type := { name : option string; address : string }.
Record adv_data : Type := { service_uuids : list string }.

(** A [BleakClient(address, timeout=...)]. *)
Record bleak_client : Type := { client_address : string; client_timeout : millis }.

(** The fields [__init__] creates, followed by the ghost fields of the model. *)
Record t : Type := mk {
  (* TransportBase *)
  logger : list log_record;
  is_connected : bool;
  receive_callback : option callback;
  (* BLETransport *)
  device_address : option string;
  device_name : option string;
  client : option bleak_client;
  event_loop : option loop_id;
  ble_thread : option thread_id;
  _connect_future : option nat;
  _disconnect_future : option nat;
  _pending_tasks : list nat;
  _disconnecting : bool;
  (* ghost: operations issued so far, the time of the thread that runs, the
     event loops that are running, the numbers of threads and loops created,
     the number of tasks still running when the wait for them was given up *)
  trace : list event;
  clock : millis;
  running_loops : list loop_id;
  threads_created : nat;
  loops_created : nat;
  tasks_abandoned : nat
}.

(** [BLETransport(logger)] *)
Definition init : t :=
  {| logger := []; is_connected := false; receive_callback := None;
     device_address := None; device_name := None; client := None;
     event_loop := None; ble_thread := None;
     _connect_future := None; _disconnect_future := None;
     _pending_tasks := []; _disconnecting := false;
     trace := []; clock := 0%N; running_loops := [];
     threads_created := 0; loops_created := 0; tasks_abandoned := 0 |}.

Definition set_logger (v : list log_record) (s : t) : t :=
  mk v (is_connected s) (receive_callback s) (device_address s) (device_name s) (client s)
     (event_loop s) (ble_thread s) (_connect_future s) (_disconnect_future s) (_pending_tasks s) (_disconnecting s)
     (trace s) (clock s) (running_loops s) (threads_created s) (loops_created s) (tasks_abandoned s).

Definition set_is_connected (v : bool) (s : t) : t :=
  mk (logger s) v (receive_callback s) (device_address s) (device_name s) (client s)
     (event_loop s) (ble_thread s) (_connect_future s) (_disconnect_future s) (_pending_tasks s) (_disconnecting s)
     (trace s) (clock s) (running_loops s) (threads_created s) (loops_created s) (tasks_abandoned s).

Definition set_receive_callback (v : option callback) (s : t) : t :=
  mk (logger s) (is_connected s) v (device_address s) (device_name s) (client s)
     (event_loop s) (ble_thread s) (_connect_future s) (_disconnect_future s) (_pending_tasks s) (_disconnecting s)
     (trace s) (clock s) (running_loops s) (threads_created s) (loops_created s) (tasks_abandoned s).

Definition set_device_address (v : option string) (s : t) : t :=
  mk (logger s) (is_connected s) (receive_callback s) v (device_name s) (client s)
     (event_loop s) (ble_thread s) (_connect_future s) (_disconnect_future s) (_pending_tasks s) (_disconnecting s)
     (trace s) (clock s) (running_loops s) (threads_created s) (loops_created s) (tasks_abandoned s).

Definition set_device_name (v : option string) (s : t) : t :=
  mk (logger s) (is_connected s) (receive_callback s) (device_address s) v (client s)
     (event_loop s) (ble_thread s) (_connect_future s) (_disconnect_future s) (_pending_tasks s) (_disconnecting s)
     (trace s) (clock s) (running_loops s) (threads_created s) (loops_created s) (tasks_abandoned s).

Definition set_client (v : option bleak_client) (s : t) : t :=
  mk (logger s) (is_connected s) (receive_callback s) (device_address s) (device_name s) v
     (event_loop s) (ble_thread s) (_connect_future s) (_disconnect_future s) (_pending_tasks s) (_disconnecting s)
     (trace s) (clock s) (running_loops s) (threads_created s) (loops_created s) (tasks_abandoned s).

Definition set_event_loop (v : option loop_id) (s : t) : t :=
  mk (logger s) (is_connected s) (receive_callback s) (device_address s) (device_name s) (client s)
     v (ble_thread s) (_connect_future s) (_disconnect_future s) (_pending_tasks s) (_disconnecting s)
     (trace s) (clock s) (running_loops s) (threads_created s) (loops_created s) (tasks_abandoned s).

Definition set_ble_thread (v : option thread_id) (s : t) : t :=
  mk (logger s) (is_connected s) (receive_callback s) (device_address s) (device_name s) (client s)
     (event_loop s) v (_connect_future s) (_disconnect_future s) (_pending_tasks s) (_disconnecting s)
     (trace s) (clock s) (running_loops s) (threads_created s) (loops_created s) (tasks_abandoned s).

Definition set__pending_tasks (v : list nat) (s : t) : t :=
  mk (logger s) (is_connected s) (receive_callback s) (device_address s) (device_name s) (client s)
     (event_loop s) (ble_thread s) (_connect_future s) (_disconnect_future s) v (_disconnecting s)
     (trace s) (clock s) (running_loops s) (threads_created s) (loops_created s) (tasks_abandoned s).

Definition set__disconnecting (v : bool) (s : t) : t :=
  mk (logger s) (is_connected s) (receive_callback s) (device_address s) (device_name s) (client s)
     (event_loop s) (ble_thread s) (_connect_future s) (_disconnect_future s) (_pending_tasks s) v
     (trace s) (clock s) (running_loops s) (threads_created s) (loops_created s) (tasks_abandoned s).

Definition set_trace (v : list event) (s : t) : t :=
  mk (logger s) (is_connected s) (receive_callback s) (device_address s) (device_name s) (client s)
     (event_loop s) (ble_thread s) (_connect_future s) (_disconnect_future s) (_pending_tasks s) (_disconnecting s)
     v (clock s) (running_loops s) (threads_created s) (loops_created s) (tasks_abandoned s).

Definition set_clock (v : millis) (s : t) : t :=
  mk (logger s) (is_connected s) (receive_callback s) (device_address s) (device_name s) (client s)
     (event_loop s) (ble_thread s) (_connect_future s) (_disconnect_future s) (_pending_tasks s) (_disconnecting s)
     (trace s) v (running_loops s) (threads_created s) (loops_created s) (tasks_abandoned s).

Definition set_running_loops (v : list loop_id) (s : t) : t :=
  mk (logger s) (is_connected s) (receive_callback s) (device_address s) (device_name s) (client s)
     (event_loop s) (ble_thread s) (_connect_future s) (_disconnect_future s) (_pending_tasks s) (_disconnecting s)
     (trace s) (clock s) v (threads_created s) (loops_created s) (tasks_abandoned s).

Definition set_threads_created (v : nat) (s : t) : t :=
  mk (logger s) (is_connected s) (receive_callback s) (device_address s) (device_name s) (client s)
     (event_loop s) (ble_thread s) (_connect_future s) (_disconnect_future s) (_pending_tasks s) (_disconnecting s)
     (trace s) (clock s) (running_loops s) v (loops_created s) (tasks_abandoned s).

Definition set_loops_created (v : nat) (s : t) : t :=
  mk (logger s) (is_connected s) (receive_callback s) (device_address s) (device_name s) (client s)
     (event_loop s) (ble_thread s) (_connect_future s) (_disconnect_future s) (_pending_tasks s) (_disconnecting s)
     (trace s) (clock s) (running_loops s) (threads_created s) v (tasks_abandoned s).

Definition set_tasks_abandoned (v : nat) (s : t) : t :=
  mk (logger s) (is_connected s) (receive_callback s) (device_address s) (device_name s) (client s)
     (event_loop s) (ble_thread s) (_connect_future s) (_disconnect_future s) (_pending_tasks s) (_disconnecting s)
     (trace s) (clock s) (running_loops s) (threads_created s) (loops_created s) v.

Definition log (l : level) (m : log_msg) : M t unit :=
  modify (fun s => set_logger (logger s ++ [(l, m)]) s).

Definition emit (e : event) : M t unit :=
  modify (fun s => set_trace (trace s ++ [e]) s).

(** The running thread lets [d] milliseconds pass. *)
Definition tick (d : millis) (s : t) : t := set_clock (clock s + d)%N s.

(** *** Coroutines

    A coroutine started in a state unfolds into its timeline: the states in
    which it is suspended, how long each suspension lasts, and how it ends. *)

Inductive timeline (A : Type) : Type :=
| End (r : result t A)
| Await (s : t) (d : millis) (rest : timeline A).

Arguments End {A}.
Arguments Await {A}.

Definition Co (A : Type) : Type := t -> timeline A.

(** Synchronous code inside a coroutine. *)
Definition lift {A : Type} (m : M t A) : Co A := fun s => End (m s).

Fixpoint graft {A B : Type} (tl : timeline A) (k : A -> Co B) : timeline B :=
  match tl with
  | End (Returned a s) => k a s
  | End (Raised e s) => End (Raised e s)
  | End (Blocked s) => End (Blocked s)
  | End (Out_of_fuel s) => End (Out_of_fuel s)
  | Await s d rest => Await s d (graft rest k)
  end.

Definition co_bind {A B : Type} (m : Co A) (k : A -> Co B) : Co B :=
  fun s => graft (m s) k.

Fixpoint rescue {A : Type} (tl : timeline A) (handles : exn -> bool) (h : exn -> Co A)
  : timeline A :=
  match tl with
  | End (Raised e s) => if handles e then h e s else End (Raised e s)
  | End r => End r
  | Await s d rest => Await s d (rescue rest handles h)
  end.

(** [try: m  except <handles> as e: h e], inside a coroutine. *)
Definition co_try_except {A : Type} (m : Co A) (handles : exn -> bool) (h : exn -> Co A)
  : Co A :=
  fun s => rescue (m s) handles h.

(** What an awaited operation of the outside world does: it completes after
    [d] milliseconds, with a value or an exception, or it never completes. *)
Inductive timed (A : Type) : Type :=
| After (d : millis) (r : A + exn)
| Never.

Arguments After {A}.
Arguments Never {A}.

(** [await op]: the operation is issued, the coroutine is suspended while it
    lasts. *)
Definition await {A : Type} (e : event) (o : timed A) : Co A :=
  fun s =>
    let s1 := set_trace (trace s ++ [e]) s in
    match o with
    | After d (inl a) => Await s1 d (End (Returned a (tick d s1)))
    | After d (inr x) => Await s1 d (End (Raised x (tick d s1)))
    | Never => End (Blocked s1)
    end.

(** An operation with a time bound of its own raises [TimeoutError] when the
    bound expires first. *)
Definition bounded {A : Type} (bound : millis) (o : timed A) : timed A :=
  match o with
  | After d r => if (d <=? bound)%N then After d r else After bound (inr TimeoutError)
  | Never => After bound (inr TimeoutError)
  end.

(** The exception a [concurrent.futures.Future] re-raises for its task. *)
Definition future_exception (e : exn) : exn :=
  match e with CancelledError => FutureCancelledError | _ => e end.

(** The caller gives up its wait for a task: the task is left running. *)
Definition abandon (s : t) : t := set_tasks_abandoned (S (tasks_abandoned s)) s.

(** The caller blocks on the future of a task: the task runs for as long as
    the budget allows; when the budget expires the caller gets
    [TimeoutError], in the state the task had reached, and the task is left
    running.  The state returned is the instance at the moment the wait
    ends: what an abandoned task does to the instance after that moment is
    not in it, [outcome] follows the task to its end. *)
Fixpoint run_until {A : Type} (budget : option millis) (tl : timeline A) : result t A :=
  match tl with
  | End (Returned a s) => Returned a s
  | End (Raised e s) => Raised (future_exception e) s
  | End (Blocked s) =>
      match budget with
      | None => Blocked s
      | Some b => Raised TimeoutError (abandon (tick b s))
      end
  | End (Out_of_fuel s) => Out_of_fuel s
  | Await s d rest =>
      match budget with
      | None => run_until None rest
      | Some b =>
          if (d <=? b)%N then run_until (Some (b - d)%N) rest
          else Raised TimeoutError (abandon (tick b s))
      end
  end.

(** How a task left to itself ends. *)
Fixpoint outcome {A : Type} (tl : timeline A) : result t A :=
  match tl with
  | End r => r
  | Await _ _ rest => outcome rest
  end.

Declare Scope co_scope.
Delimit Scope co_scope with co.
Notation "x <- m ;; k" := (co_bind m (fun x => k))
  (at level 61, m at next level, right associativity) : co_scope.
Notation "m ;; k" := (co_bind m (fun _ => k))
  (at level 61, right associativity) : co_scope.

Definition co_ret {A : Type} (a : A) : Co A := fun s => End (Returned a s).

(** *** Threads, the event loop and futures *)

(** [threading.Thread(target=..., daemon=True)] *)
Definition new_thread : M t thread_id :=
  s <- get ;;
  modify (set_threads_created (S (threads_created s))) ;;
  ret (threads_created s).

(** [time.sleep(d)] in the calling thread. *)
Definition sleep (d : millis) : M t unit :=
  emit (Sleep d) ;;
  modify (tick d).

(** [def _run_event_loop(self) -> None], up to [run_forever()], which returns
    only when the loop is stopped. *)
Definition _run_event_loop : M t unit :=
  s <- get ;;
  modify (set_loops_created (S (loops_created s))) ;;
  modify (set_event_loop (Some (loops_created s))) ;;
  modify (fun s' => set_running_loops (loops_created s :: running_loops s') s').

Definition is_running (l : loop_id) (s : t) : bool :=
  existsb (Nat.eqb l) (running_loops s).

(** A coroutine that is never run. *)
Definition never_run {A : Type} : Co A := fun s => End (Blocked s).

(** [asyncio.run_coroutine_threadsafe(co, self.event_loop)]: the future of the
    task, which runs if the loop does. *)
Definition run_coroutine_threadsafe {A : Type} (c : coroutine) (co : Co A) : M t (Co A) :=
  s <- get ;;
  match event_loop s with
  | None => raise (Error "AttributeError: 'NoneType' object has no attribute 'call_soon_threadsafe'")
  | Some l =>
      emit (Run_coroutine_threadsafe c l) ;;
      ret (if is_running l s then co else never_run)
  end.

(** [future.result(timeout)] *)
Definition future_result {A : Type} (timeout : option millis) (future : Co A) : M t A :=
  emit (Future_result timeout) ;;
  fun s => run_until timeout (future s).

(** What [thread.join(timeout)] observes: the thread returns after [d]
    milliseconds, or the bound expires first. *)
Inductive join_outcome : Type :=
| Thread_exits (d : millis)
| Thread_keeps_running.

(** [thread.join(timeout=bound)] *)
Definition thread_join (th : thread_id) (bound : millis) (o : join_outcome) : M t unit :=
  emit (Thread_join th bound) ;;
  match o with
  | Thread_exits d => modify (tick (N.min d bound))
  | Thread_keeps_running => modify (tick bound)
  end.

(** *** Discovery *)

(** When, within scan attempt [n], the scanner hands advertisements to the
    detection callback: while [scanner.start()] is awaited, during the [k]-th
    [asyncio.sleep(0.1)] of the attempt, or while [scanner.stop()] is
    awaited. *)
Inductive scan_phase : Type :=
| Starting
| Polling (k : nat)
| Stopping.

(** What the bleak library and the radio answer during [connect]. *)
Record connect_env : Type := {
  bleak_installed : bool;
  loop_ready : bool;                      (* the loop thread has published its loop after 0.1 s *)
  discover : list (device * adv_data) + millis * exn;
                                          (* BleakScanner.discover(...).values(), returned when
                                             the timeout has passed, or the exception it raises
                                             and how long after the call it raises it *)
  adverts : nat -> scan_phase -> list (device * adv_data);
  scanner_start : nat -> timed unit;
  scanner_stop : nat -> timed unit;
  client_connect : timed bool;
  client_is_connected : bool;
  client_start_notify : timed unit
}.

(** [self.SERVICE_UUID.lower() in [uuid.lower() for uuid in adv_data.service_uuids]] *)
Definition advertises_service (adv : adv_data) : bool :=
  Py.str_in (Py.lower SERVICE_UUID) (map Py.lower (service_uuids adv)).

(** The [for device, adv_data in devices.values()] loop of the timed scan. *)
Fixpoint first_camera (devices : list (device * adv_data)) : M t (option device) :=
  match devices with
  | [] => ret None
  | (d, adv) :: rest =>
      if advertises_service adv then
        log INFO (BLE_Found (name d) (address d)) ;;
        ret (Some d)
      else first_camera rest
  end.

(** [def detection_callback(device, adv_data)], with the closure variables
    [found_device] and [scanner] passed in and the new [found_device]
    returned. *)
Definition detection_callback (found_device : option device) (scanner : bool)
  (d : device) (adv : adv_data) : M t (option device) :=
  match found_device with
  | None =>
      if advertises_service adv then
        log INFO (BLE_Found (name d) (address d)) ;;
        (if scanner then emit Scanner_stop_task else ret tt) ;;
        ret (Some d)
      else ret None
  | Some _ => ret found_device
  end.

(** The scanner calls the detection callback on each advertisement in turn. *)
Fixpoint deliver (found_device : option device) (scanner : bool)
  (ads : list (device * adv_data)) : M t (option device) :=
  match ads with
  | [] => ret found_device
  | (d, adv) :: rest =>
      found <- detection_callback found_device scanner d adv ;;
      deliver found scanner rest
  end.

Definition scan_duration : millis := 5000%N.

(** The inner loop of the indefinite scan,
    [while found_device is None and (time() - start_time) < scan_duration:
       await asyncio.sleep(0.1)];
    [k] counts the sleeps of the attempt.  Every pass lasts 100 ms, so the
    [passes] given by [_find_camera] are never used up. *)
Fixpoint poll_window (passes : nat) (env : connect_env) (attempt k : nat)
  (start_time : millis) (found_device : option device) : Co (option device) :=
  fun s =>
    if negb (Py.is_some found_device) && (clock s - start_time <? scan_duration)%N then
      match passes with
      | O => End (Out_of_fuel s)
      | S p =>
          (await (Asyncio_sleep 100%N) (After 100%N (inl tt)) ;;
           found <- lift (deliver found_device true (adverts env attempt (Polling k))) ;;
           poll_window p env attempt (S k) start_time found)%co s
      end
    else End (Returned found_device s).

(** The outer loop of the indefinite scan, [while found_device is None: ...],
    followed by the final [return None]. *)
Fixpoint scan_attempts (fuel : nat) (env : connect_env) (scan_count : nat)
  (found_device : option device) : Co (option device) :=
  match found_device with
  | Some _ => co_ret None
  | None =>
      match fuel with
      | O => fun s => End (Out_of_fuel s)
      | S f =>
          let scan_count := S scan_count in
          (lift (if (1 <? scan_count)%nat
                 then log INFO (BLE_Still_scanning scan_count)
                 else ret tt) ;;
           await Scanner_start (scanner_start env scan_count) ;;
           found <- lift (deliver None true (adverts env scan_count Starting)) ;;
           start_time <- lift (s <- get ;; ret (clock s))%py ;;
           found <- poll_window 51 env scan_count 0 start_time found ;;
           await Scanner_stop (scanner_stop env scan_count) ;;
           found <- lift (deliver found true (adverts env scan_count Stopping)) ;;
           match found with
           | Some d => co_ret (Some d)
           | None => scan_attempts f env scan_count None
           end)%co
      end
  end.

(** [async def _find_camera(self, timeout)] *)
Definition _find_camera (fuel : nat) (timeout : option millis) (env : connect_env)
  : Co (option device) :=
  match timeout with
  | Some t =>
      (devices <- await (Scanner_discover t)
                    match discover env with
                    | inl devices => After t (inl devices)
                    | inr (d, e) => After d (inr e)
                    end ;;
       lift (first_camera devices))%co
  | None => scan_attempts fuel env 0 None
  end.

(** *** Connecting *)

(** [_async_connect] from [self.device_address = device_address] on. *)
Definition establish (device_address : string) (scan_timeout : option millis)
  (env : connect_env) : Co bool :=
  let timeout := match scan_timeout with None => 3600000%N | Some _ => 20000%N end in
  (lift (modify (set_device_address (Some device_address))) ;;
   lift (log INFO (BLE_Connecting device_address)) ;;
   lift (emit (Client_new device_address timeout)) ;;
   lift (modify (set_client
           (Some {| client_address := device_address; client_timeout := timeout |}))) ;;
   co_try_except
     (lift (log DEBUG BLE_Calling_connect) ;;
      connected <- await Client_connect (bounded timeout (client_connect env)) ;;
      lift (log DEBUG (BLE_connect_returned connected)) ;;
      if connected || client_is_connected env then
        lift (log INFO BLE_Connected_enabling) ;;
        await (Client_start_notify READ_CHAR_UUID) (client_start_notify env) ;;
        lift (modify (set_is_connected true)) ;;
        s <- lift get ;;
        lift (log INFO (BLE_Successfully_connected
                          (Py.or_default (device_name s) device_address))) ;;
        co_ret true
      else
        lift (log ERROR BLE_connect_returned_False) ;;
        co_ret false)
     is_Exception
     (fun e =>
        lift (log ERROR (BLE_Connection_failed e)) ;;
        lift (log ERROR (BLE_Traceback e)) ;;
        co_ret false))%co.

(** [async def _async_connect(self, device_address, scan_timeout) -> bool] *)
Definition _async_connect (fuel : nat) (device_address : option string)
  (scan_timeout : option millis) (env : connect_env) : Co bool :=
  if negb (Py.truthy_opt_str device_address) then
    (lift (match scan_timeout with
           | None => log INFO BLE_Scanning_no_timeout
           | Some t => log INFO (BLE_Scanning t)
           end) ;;
     found <- _find_camera fuel scan_timeout env ;;
     match found with
     | None => lift (log ERROR BLE_No_camera_found) ;; co_ret false
     | Some d =>
         lift (modify (set_device_name (name d))) ;;
         establish (address d) scan_timeout env
     end)%co
  else
    (* [device_address] is a non-empty string here *)
    establish (match device_address with Some a => a | None => "" end) scan_timeout env.

(** [def connect(self, device_address=None, scan_timeout=None, **kwargs) -> bool];
    [fuel] bounds the scan attempts the model follows. *)
Definition connect (fuel : nat) (device_address : option string)
  (scan_timeout : option millis) (env : connect_env) : M t bool :=
  try_except
    (emit Import_bleak ;;
     (if bleak_installed env then ret tt else raise ImportError) ;;
     th <- new_thread ;;
     modify (set_ble_thread (Some th)) ;;
     emit (Thread_start th) ;;
     (if loop_ready env then _run_event_loop else ret tt) ;;
     sleep 100%N ;;
     future <- run_coroutine_threadsafe Async_connect
                 (_async_connect fuel device_address scan_timeout env) ;;
     match scan_timeout with
     | None => future_result None future
     | Some t =>
         let connection_timeout := (t + 20000)%N in
         future_result (Some connection_timeout) future
     end)
    is_Exception
    (fun e =>
       match e with
       | ImportError => log ERROR BLE_not_installed ;; ret false
       | _ => log ERROR (BLE_Connection_failed e) ;; ret false
       end).

(** *** Disconnecting *)

(** What the bleak library and the loop thread answer during [disconnect]. *)
Record disconnect_env : Type := {
  link_is_connected : bool;               (* self.client.is_connected *)
  client_stop_notify : timed unit;
  client_disconnect : timed unit;
  join : join_outcome
}.

(** [async def _async_disconnect(self) -> None] *)
Definition _async_disconnect (env : disconnect_env) : Co unit :=
  (s <- lift get ;;
   if Py.is_some (client s) && link_is_connected env then
     co_try_except
       (await (Client_stop_notify READ_CHAR_UUID) (client_stop_notify env) ;;
        await Client_disconnect (client_disconnect env))
       any_exception
       (fun _ => co_ret tt)
   else co_ret tt)%co.

(** [def cancel_tasks()] of [disconnect]; every tracked task is taken as not
    done. *)
Definition cancel_tasks : M t unit :=
  s <- get ;;
  modify (fun s' => set_trace (trace s' ++ map Task_cancel (_pending_tasks s)) s') ;;
  modify (set__pending_tasks []).

(** [self.event_loop.stop()], run by the loop. *)
Definition loop_stop (l : loop_id) : M t unit :=
  modify (fun s => set_running_loops (filter (fun x => negb (Nat.eqb l x)) (running_loops s)) s).

(** [loop.call_soon_threadsafe(f)]: a running loop calls [f].  The loop is
    taken as idle: it calls [f] before the caller goes on, where the source
    only hands [f] over and the loop calls it at its next iteration. *)
Definition call_soon_threadsafe (l : loop_id) (e : event) (f : M t unit) : M t unit :=
  emit e ;;
  s <- get ;;
  if is_running l s then f else ret tt.

(** [def disconnect(self) -> None] *)
Definition disconnect (env : disconnect_env) : M t unit :=
  modify (set__disconnecting true) ;;
  modify (set_is_connected false) ;;
  s <- get ;;
  (if Py.is_some (event_loop s) && Py.is_some (client s) then
     future <- run_coroutine_threadsafe Async_disconnect (_async_disconnect env) ;;
     try_except
       (future_result (Some 5000%N) future)
       any_exception
       (fun _ => ret tt)
   else ret tt) ;;
  (match event_loop s with
   | Some l =>
       call_soon_threadsafe l (Call_soon_cancel_tasks l) cancel_tasks ;;
       sleep 100%N ;;
       call_soon_threadsafe l (Call_soon_stop l) (loop_stop l)
   | None => ret tt
   end) ;;
  s' <- get ;;
  (match ble_thread s' with
   | Some th =>
       thread_join th 2000%N (join env) ;;
       modify (set_ble_thread None)
   | None => ret tt
   end) ;;
  modify (set__disconnecting false).

(** *** Sending *)

(** What the bleak library answers during [send]. *)
Record send_env : Type := {
  link_up : bool;                         (* self.client.is_connected, before the write *)
  write_gatt_char : timed unit;
  link_up_after : bool                    (* self.client.is_connected, in the handler *)
}.

(** [async def _async_send(self, data: bytes) -> bool] *)
Definition _async_send (data : Py.bytes) (env : send_env) : Co bool :=
  co_try_except
    (s <- lift get ;;
     if _disconnecting s || negb (Py.is_some (client s)) || negb (link_up env) then
       co_ret false
     else
       await (Client_write_gatt_char WRITE_CHAR_UUID data) (write_gatt_char env) ;;
       co_ret true)%co
    (fun e => match e with CancelledError => true | _ => is_Exception e end)
    (fun e =>
       match e with
       | CancelledError => co_ret false
       | _ =>
           (s <- lift get ;;
            lift (if negb (_disconnecting s) && Py.is_some (client s) && link_up_after env
                  then log ERROR (BLE_Send_failed e)
                  else ret tt) ;;
            co_ret false)%co
       end).

(** [def send(self, data: bytes) -> bool] *)
Definition send (data : Py.bytes) (env : send_env) : M t bool :=
  s <- get ;;
  if negb (Py.is_some (client s)) || negb (is_connected s)
     || negb (Py.is_some (event_loop s)) || _disconnecting s
  then ret false
  else
    try_except
      (future <- run_coroutine_threadsafe (Async_send data) (_async_send data env) ;;
       future_result (Some 2000%N) future)
      is_Exception
      (fun _ =>
         s' <- get ;;
         (if negb (_disconnecting s') then log ERROR BLE_Send_timeout_or_error else ret tt) ;;
         ret false).

(** *** Receiving *)

(** [def start_receiving(self, callback) -> None] *)
Definition start_receiving (cb : callback) : M t unit :=
  modify (set_receive_callback (Some cb)).

(** [def stop_receiving(self) -> None] *)
Definition stop_receiving : M t unit :=
  modify (set_receive_callback None).

(** [def _notification_handler(self, sender, data: bytes) -> None];
    [callback_raises] is what the caller's callback does. *)
Definition _notification_handler (sender : nat) (data : Py.bytes)
  (callback_raises : option string) : M t unit :=
  s <- get ;;
  match receive_callback s with
  | Some cb =>
      emit (Callback cb data) ;;
      match callback_raises with
      | None => ret tt
      | Some msg => raise (Error msg)
      end
  | None => ret tt
  end.

(** [def connection_info(self) -> str] (a property) *)
Definition connection_info (s : t) : string :=
  if is_connected s then
    let name := Py.or_default (Py.or_str (device_name s) (device_address s)) "Unknown" in
    ("BLE " ++ name)%string
  else "BLE (disconnected)".

End BLETransport.

(** ** class TransportFactory *)

Module TransportFactory.

(** A [TransportBase]: an instance of one of its two subclasses. *)
Inductive transport : Type :=
| WiFi (w : WiFiTransport.t)
| BLE (b : BLETransport.t).

(** [ValueError(msg)] *)
Inductive value_error : Type :=
| ValueError (msg : string).

(** [def create_transport(transport_type: str, logger=None) -> TransportBase]
    (a static method); the new instance has logged nothing yet. *)
Definition create_transport (transport_type : string) : transport + value_error :=
  let transport_type := Py.lower transport_type in
  if String.eqb transport_type "wifi" then inl (WiFi WiFiTransport.init)
  else if String.eqb transport_type "ble" then inl (BLE BLETransport.init)
  else inr (ValueError ("Unsupported transport type: " ++ transport_type)%string).

End TransportFactory.

(** ** Reading a trace *)

Definition is_callback (e : event) : bool :=
  match e with Callback _ _ => true | _ => false end.

Definition is_task_cancel (e : event) : bool :=
  match e with Task_cancel _ => true | _ => false end.

Definition is_asyncio_sleep (e : event) : bool :=
  match e with Asyncio_sleep _ => true | _ => false end.

Module W := WiFiTransport.
Module B := BLETransport.
Module F := TransportFactory.

(** ** Reading a transport type *)

(** A capital letter A-Z, a small letter a-z. *)
Definition is_capital (c : ascii) : bool :=
  let n := nat_of_ascii c in (65 <=? n)%nat && (n <=? 90)%nat.

Definition is_small (c : ascii) : bool :=
  let n := nat_of_ascii c in (97 <=? n)%nat && (n <=? 122)%nat.

Definition capital_of (k : ascii) : ascii := ascii_of_nat (nat_of_ascii k - 32).

(** [c] is the character [k], or its capital when [k] is a small letter. *)
Definition same_letter (c k : ascii) : bool :=
  Ascii.eqb c k || (is_small k && Ascii.eqb c (capital_of k)).

(** [t] is [word] up to the case of its letters, character by character. *)
Fixpoint spells (t word : string) : bool :=
  match t, word with
  | EmptyString, EmptyString => true
  | String c t', String k word' => same_letter c k && spells t' word'
  | _, _ => false
  end.

Fixpoint no_capital (t : string) : bool :=
  match t with
  | EmptyString => true
  | String c t' => negb (is_capital c) && no_capital t'
  end.

(** The 256 characters. *)
Definition all_ascii : list ascii := map ascii_of_nat (seq 0 256).

(** [str.isascii]: on such a string [Py.lower] is [str.lower]. *)
Fixpoint isascii (t : string) : bool :=
  match t with
  | EmptyString => true
  | String c t' => (nat_of_ascii c <? 128)%nat && isascii t'
  end.

(** ** Reading a timeline *)

(** Between [s0] and [s] no wait for a task was given up and no task was
    cancelled. *)
Definition quiet_trace (s0 s : B.t) : Prop :=
  B.tasks_abandoned s = B.tasks_abandoned s0
  /\ filter is_task_cancel (B.trace s) = filter is_task_cancel (B.trace s0).

(** ... and the connection flag is what it was. *)
Definition undisturbed (s0 s : B.t) : Prop :=
  B.is_connected s = B.is_connected s0 /\ quiet_trace s0 s.

(** [tl_ok strict c s0 Q tl]: the timeline starts at time [c] and each
    suspension ends when its duration has passed; while the task is
    suspended, and if it ends without returning, the instance is
    [undisturbed] since [s0]; if it returns [a] in state [s] then [Q a s];
    when [strict], the timeline does not run out of fuel. *)
Fixpoint tl_ok {A : Type} (strict : bool) (c : millis) (s0 : B.t) (Q : A -> B.t -> Prop)
  (tl : B.timeline A) : Prop :=
  match tl with
  | B.End (Returned a s) => B.clock s = c /\ Q a s
  | B.End (Raised _ s) | B.End (Blocked s) => B.clock s = c /\ undisturbed s0 s
  | B.End (Out_of_fuel s) => B.clock s = c /\ undisturbed s0 s /\ strict = false
  | B.Await s d rest =>
      B.clock s = c /\ undisturbed s0 s /\ tl_ok strict (c + d)%N s0 Q rest
  end.

(** The camera accepted the connection and the request for notifications. *)
Definition link_ok (env : B.connect_env) : Prop :=
  (exists d b, B.client_connect env = B.After d (inl b))
  /\ (exists d, B.client_start_notify env = B.After d (inl tt)).

(** What [_async_connect] has done when it returns, from
    [self.device_address = device_address] on: on [True] the flag is set and
    the address of the device is stored, on [False] the flag is as it
    was. *)
Definition establish_post (s0 : B.t) (a : string) (n : option string)
  (env : B.connect_env) (b : bool) (s : B.t) : Prop :=
  quiet_trace s0 s /\
  if b then
    B.is_connected s = true /\ B.device_address s = Some a /\ B.device_name s = n
    /\ link_ok env
  else B.is_connected s = B.is_connected s0.

(** ** Reading the radio environment of a scan *)

(** The device of the first advertisement of a batch that lists the service. *)
Definition matching (ads : list (B.device * B.adv_data)) : option B.device :=
  match find (fun da => B.advertises_service (snd da)) ads with
  | Some (d, _) => Some d
  | None => None
  end.

(** Some service identifier of the advertisement equals [SERVICE_UUID] up to
    the case of its letters. *)
Definition service_listed (adv : B.adv_data) : Prop :=
  exists u, In u (B.service_uuids adv) /\ Py.lower u = Py.lower B.SERVICE_UUID.

(** The scanner hands [d] to the detection callback at some time, in an
    advertisement that lists the service. *)
Definition advertised (env : B.connect_env) (d : B.device) : Prop :=
  exists i ph adv, In (d, adv) (B.adverts env i ph) /\ service_listed adv.

(** A device the scan holds is one that was advertised so. *)
Definition genuine (env : B.connect_env) (r : option B.device) : Prop :=
  match r with Some d => advertised env d | None => True end.

(** The scan of [connect] can have found [d]: with a time bound, [d] is the
    device of the first advertisement discovered that lists the service;
    without one, the scanner handed [d] to the detection callback in an
    advertisement that lists the service. *)
Definition found_by (env : B.connect_env) (scan_timeout : option millis) (d : B.device)
  : Prop :=
  match scan_timeout with
  | Some _ => exists devices, B.discover env = inl devices /\ matching devices = Some d
  | None => advertised env d
  end.

(** The instance is connected: the flag is set, and the address stored is
    the one given, or that of a device found by the scan, whose name is
    stored with it. *)
Definition connected_to (s0 : B.t) (device_address : option string)
  (scan_timeout : option millis) (env : B.connect_env) (s : B.t) : Prop :=
  B.is_connected s = true /\ link_ok env /\
  if Py.truthy_opt_str device_address
  then B.device_address s = device_address /\ B.device_name s = B.device_name s0
  else exists d,
         found_by env scan_timeout d
         /\ B.device_address s = Some (B.address d) /\ B.device_name s = B.name d.

(** What the whole of [_async_connect] has done when it returns. *)
Definition connect_post (s0 : B.t) (device_address : option string)
  (scan_timeout : option millis) (env : B.connect_env) (b : bool) (s : B.t) : Prop :=
  quiet_trace s0 s /\
  if b then connected_to s0 device_address scan_timeout env s
  else B.is_connected s = B.is_connected s0.

(** In attempt [i] the scanner starts and stops without an error. *)
Definition calm (env : B.connect_env) (i : nat) : Prop :=
  (exists d, B.scanner_start env i = B.After d (inl tt)) /\
  (exists d, B.scanner_stop env i = B.After d (inl tt)).

(** In attempt [i] no advertisement lists the service. *)
Definition quiet (env : B.connect_env) (i : nat) : Prop :=
  forall ph, matching (B.adverts env i ph) = None.

(** Attempt [n] meets its first advertisement of the service during its
    [k]-th sleep, from device [d]. *)
Definition first_seen (env : B.connect_env) (n k : nat) (d : B.device) : Prop :=
  matching (B.adverts env n B.Starting) = None /\
  (forall j, (j < k)%nat -> matching (B.adverts env n (B.Polling j)) = None) /\
  matching (B.adverts env n (B.Polling k)) = Some d.

Definition duration {A : Type} (o : B.timed A) : millis :=
  match o with B.After d _ => d | B.Never => 0%N end.

(** The time the first [n] attempts spend in [scanner.start()] and
    [scanner.stop()]. *)
Fixpoint overhead (env : B.connect_env) (n : nat) : millis :=
  match n with
  | O => 0%N
  | S m => (overhead env m + duration (B.scanner_start env n)
            + duration (B.scanner_stop env n))%N
  end.

(** The "still scanning" notices of attempts [2..n]. *)
Definition notices (n : nat) : list log_record :=
  map (fun i => (INFO, BLE_Still_scanning i)) (seq 2 (n - 1)).

(** The state after the detection callback has accepted [d]. *)
Definition noted (d : B.device) (s : B.t) : B.t :=
  let s1 := B.set_logger (B.logger s ++ [(INFO, BLE_Found (B.name d) (B.address d))]) s in
  B.set_trace (B.trace s1 ++ [Scanner_stop_task]) s1.

(** The state after [m] sleeps of the polling loop. *)
Definition slept (m : nat) (s : B.t) : B.t :=
  B.set_clock (B.clock s + 100 * N.of_nat m)%N
    (B.set_trace (B.trace s ++ repeat (Asyncio_sleep 100%N) m) s).

Definition notice (i : nat) (s : B.t) : B.t :=
  if (1 <? i)%nat
  then B.set_logger (B.logger s ++ [(INFO, BLE_Still_scanning i)]) s
  else s.

Definition notice_of (i : nat) : list log_record :=
  if (1 <? i)%nat then [(INFO, BLE_Still_scanning i)] else [].

(** The state in which attempt [i] begins to poll, and the state in which an
    attempt ends once its scanner has stopped. *)
Definition begin_attempt (env : B.connect_env) (i : nat) (s : B.t) : B.t :=
  B.tick (duration (B.scanner_start env i))
    (B.set_trace (B.trace (notice i s) ++ [Scanner_start]) (notice i s)).

Definition end_attempt (env : B.connect_env) (i : nat) (s : B.t) : B.t :=
  B.tick (duration (B.scanner_stop env i)) (B.set_trace (B.trace s ++ [Scanner_stop]) s).

(** The state after attempt [i] when it meets no match: 50 sleeps of 100 ms
    between the start and the stop of its scanner. *)
Definition quiet_attempt (env : B.connect_env) (i : nat) (s : B.t) : B.t :=
  end_attempt env i (slept 50 (begin_attempt env i s)).

(** The state after the attempts [1 .. n], all of them without a match. *)
Fixpoint after_quiet (env : B.connect_env) (n : nat) (s : B.t) : B.t :=
  match n with
  | O => s
  | S m => quiet_attempt env (S m) (after_quiet env m s)
  end.

(** The state after attempt [i] when it meets its first match, from [d],
    during its [k]-th sleep. *)
Definition found_attempt (env : B.connect_env) (i k : nat) (d : B.device) (s : B.t) : B.t :=
  end_attempt env i (noted d (slept (S k) (begin_attempt env i s))).

Definition sleeps (tr : list event) : nat := List.length (filter is_asyncio_sleep tr).

(** ** Reading a run of the socket transport *)

Definition is_socket_release (e : event) : bool :=
  match e with Socket_shutdown _ | Socket_close _ => true | _ => false end.

Definition is_socket_poll (e : event) : bool :=
  match e with Socket_poll _ _ => true | _ => false end.

Definition is_thread_start (e : event) : bool :=
  match e with Thread_start _ => true | _ => false end.

(** [w'] differs from [w] in what was logged and in the operations issued
    only. *)
Definition same_fields (w w' : W.t) : Prop :=
  W.set_logger [] (W.set_trace [] w') = W.set_logger [] (W.set_trace [] w).

(** The operations [connect] asks of the operating system: each one is
    asked only when the one before it did not raise. *)
Definition connect_ops (host : string) (port : Z) (env : W.connect_env) : list event :=
  match W.socket_socket env with
  | inr _ => [Socket_new]
  | inl sock =>
      Socket_new :: Socket_settimeout sock 5000%N ::
      match W.socket_settimeout env with
      | Some _ => []
      | None => [Socket_connect sock host port]
      end
  end.

(** The operating system lets [connect] through. *)
Definition reachable (env : W.connect_env) : Prop :=
  (exists sock, W.socket_socket env = inl sock)
  /\ W.socket_settimeout env = None /\ W.socket_connect env = None.

(** The operations [disconnect] asks for socket [sock]. *)
Definition release_ops (sock : fd) (env : W.disconnect_env) : list event :=
  Socket_shutdown sock ::
  match W.socket_shutdown env with
  | Some _ => []
  | None => [Socket_close sock]
  end.

(** The bytes, if there are any, that one pass of the receive loop reads from
    socket [sock]. *)
Definition chunk (sock : fd) (env : W.poll_env) : option Py.bytes :=
  match W.poll env, W.recv env with
  | inl evs, inl d =>
      if existsb (W.readable sock) evs && Py.truthy_bytes d then Some d else None
  | _, _ => None
  end.

Definition chunks (sock : fd) (envs : list W.poll_env) : list Py.bytes :=
  flat_map (fun env => match chunk sock env with Some d => [d] | None => [] end) envs.

(** The same for a pass whose callback raises any exception. *)
Definition pass_chunk (sock : fd) (env : W.pass_env) : option Py.bytes :=
  match W.events env, W.received env with
  | inl evs, inl d =>
      if existsb (W.readable sock) evs && Py.truthy_bytes d then Some d else None
  | _, _ => None
  end.

(** What the callback raises, if it raises, is an [Exception]. *)
Definition raises_exceptions_only (env : W.pass_env) : bool :=
  match W.callback_exn env with
  | Some e => is_Exception e
  | None => true
  end.

(** The peer has closed the connection: the socket is readable and [recv]
    returns no bytes. *)
Definition peer_closed (sock : fd) (env : W.poll_env) : Prop :=
  exists evs,
    W.poll env = inl evs /\ existsb (W.readable sock) evs = true /\ W.recv env = inl [].

(** What a pass that meets a closed peer asks of the socket. *)
Definition closed_pass (sock : fd) : list event :=
  [Socket_poll sock 100%N; Socket_recv sock 4096%N].

(** The join gives up on a thread that is still running after 2 s. *)
Definition outlives_join (j : W.join_outcome) : bool :=
  match j with
  | W.Thread_exits d => (2000 <? d)%N
  | W.Thread_keeps_running => true
  end.

(** ** Reading a run of the BLE transport *)

(** [send] is let through and the event loop of the instance is running. *)
Definition can_send (s : B.t) : bool :=
  Py.is_some (B.client s) && B.is_connected s && negb (B._disconnecting s)
  && match B.event_loop s with
     | Some l => B.is_running l s
     | None => false
     end.

(** The link is up and the camera acknowledges the write within the 2 s
    [send] waits. *)
Definition write_in_time (env : B.send_env) : Prop :=
  B.link_up env = true
  /\ exists d, B.write_gatt_char env = B.After d (inl tt) /\ (d <= 2000)%N.

(** What a [send] that goes through asks for. *)
Definition send_ops (data : Py.bytes) (s : B.t) : list event :=
  match B.event_loop s with
  | Some l =>
      [Run_coroutine_threadsafe (Async_send data) l; Future_result (Some 2000%N);
       Client_write_gatt_char B.WRITE_CHAR_UUID data]
  | None => []
  end.

(** What [disconnect] asks for on an instance whose event loop has
    stopped. *)
Definition second_disconnect_ops (l : loop_id) : list event :=
  [Run_coroutine_threadsafe Async_disconnect l; Future_result (Some 5000%N);
   Call_soon_cancel_tasks l; Sleep 100%N; Call_soon_stop l].

(** The record logged for the device a scan settles on. *)
Definition found (d : option B.device) : list log_record :=
  match d with
  | Some d => [(INFO, BLE_Found (B.name d) (B.address d))]
  | None => []
  end.

(** What [connect] asks for before its task runs, and what the task asks
    for to set up the link with the device at address [a]. *)
Definition connect_prefix (st : option millis) (s : B.t) : list event :=
  [Import_bleak; Thread_start (B.threads_created s); Sleep 100%N;
   Run_coroutine_threadsafe Async_connect (B.loops_created s);
   Future_result (match st with Some t => Some (t + 20000)%N | None => None end)].

Definition client_for (a : string) (st : option millis) : B.bleak_client :=
  {| B.client_address := a;
     B.client_timeout := match st with Some _ => 20000%N | None => 3600000%N end |}.

Definition link_ops (a : string) (st : option millis) : list event :=
  [Client_new a (B.client_timeout (client_for a st)); Client_connect;
   Client_start_notify B.READ_CHAR_UUID].

(** bleak is installed, the event loop is up after the 0.1 s [connect]
    sleeps, the camera accepts the connection after [d1] ms and enables
    notifications after [d2] ms more. *)
Definition accepts (env : B.connect_env) (d1 d2 : millis) : Prop :=
  B.bleak_installed env = true /\ B.loop_ready env = true
  /\ (exists c, B.client_connect env = B.After d1 (inl c)
                /\ c || B.client_is_connected env = true)
  /\ B.client_start_notify env = B.After d2 (inl tt).

(** The camera answers within the time bound of the client and, when there
    is one, within the bound of [connect]'s wait. *)
Definition in_time (st : option millis) (d1 d2 : millis) : Prop :=
  match st with
  | Some t => (d1 <= 20000)%N /\ (d1 + d2 <= t + 20000)%N
  | None => (d1 <= 3600000)%N
  end.

(** What a [disconnect] task asks of the client when it runs: the
    disconnection is asked for only when the notifications could be
    stopped. *)
Definition unlink_ops (env : B.disconnect_env) : list event :=
  Client_stop_notify B.READ_CHAR_UUID ::
  match B.client_stop_notify env with
  | B.After _ (inl _) => [Client_disconnect]
  | _ => []
  end.

(** What a [send] that is let through on a running loop has logged when it
    returns. *)
Definition send_log (env : B.send_env) : list log_record :=
  if B.link_up env then
    match B.write_gatt_char env with
    | B.After d r =>
        if (d <=? 2000)%N then
          match r with
          | inl _ => []
          | inr CancelledError => []
          | inr e => if B.link_up_after env then [(ERROR, BLE_Send_failed e)] else []
          end
        else [(ERROR, BLE_Send_timeout_or_error)]
    | B.Never => [(ERROR, BLE_Send_timeout_or_error)]
    end
  else [].

(** The instance at the moment [connect] starts to wait for the result of
    coroutine [c], which it has handed to the event loop it has just
    started: bleak is installed, the thread and its loop are up and the
    0.1 s sleep is over. *)
Definition waiting_for_task (c : coroutine) (timeout : option millis) (s : B.t) : B.t :=
  final_state
    ((B.emit Import_bleak ;;
      th <- B.new_thread ;;
      modify (B.set_ble_thread (Some th)) ;;
      B.emit (Thread_start th) ;;
      B._run_event_loop ;;
      B.sleep 100%N ;;
      s' <- get ;;
      B.emit (Run_coroutine_threadsafe c
                (match B.event_loop s' with Some l => l | None => 0 end)) ;;
      B.emit (Future_result timeout)) s).

(** ** The fields the tasks leave alone *)

(** An instance with everything erased but the callback, the two futures,
    the set of pending tasks and the disconnecting guard. *)
Definition untouched (s : B.t) : B.t :=
  B.mk [] false (B.receive_callback s) None None None None None
    (B._connect_future s) (B._disconnect_future s) (B._pending_tasks s) (B._disconnecting s)
    [] 0%N [] 0 0 0.

(** [s] has these five fields as [s0] has them. *)
Definition kept (s0 s : B.t) : Prop := untouched s = untouched s0.

(** [R] holds of every state in which the task is suspended or ends. *)
Fixpoint tl_all {A : Type} (R : B.t -> Prop) (tl : B.timeline A) : Prop :=
  match tl with
  | B.End r => R (final_state r)
  | B.Await s _ rest => R s /\ tl_all R rest
  end.

(** The states of an instance that [__init__] built and that has gone
    through calls of its methods, each of which returned. *)
Inductive reached : B.t -> Prop :=
| reach_init : reached B.init
| reach_connect fuel addr st env s b s' :
    reached s -> B.connect fuel addr st env s = Returned b s' -> reached s'
| reach_disconnect env s s' :
    reached s -> B.disconnect env s = Returned tt s' -> reached s'
| reach_send data env s b s' :
    reached s -> B.send data env s = Returned b s' -> reached s'
| reach_start_receiving cb s s' :
    reached s -> B.start_receiving cb s = Returned tt s' -> reached s'
| reach_stop_receiving s s' :
    reached s -> B.stop_receiving s = Returned tt s' -> reached s'
| reach_notification sender data raises s :
    reached s -> reached (final_state (B._notification_handler sender data raises s)).

Definition no_task_tracked (s : B.t) : Prop :=
  B._pending_tasks s = []
  /\ B._connect_future s = None /\ B._disconnect_future s = None
  /\ filter is_task_cancel (B.trace s) = [].

(** ** Scenarios *)

Definition wifi_reachable : W.connect_env :=
  {| W.socket_socket := inl 7%Z; W.socket_settimeout := None; W.socket_connect := None |}.

(** The peer refuses the connection. *)
Definition wifi_refused : W.connect_env :=
  {| W.socket_socket := inl 8%Z; W.socket_settimeout := None;
     W.socket_connect := Some "ConnectionRefusedError: [Errno 111] Connection refused" |}.

Definition wifi_connected : W.t :=
  final_state (W.connect W.DEFAULT_HOST W.DEFAULT_PORT wifi_reachable W.init).

Definition wifi_receiving : W.t :=
  final_state (W.start_receiving 1 wifi_connected).

Definition camera : B.device := {| B.name := Some "X3 1A2B3C"; B.address := "AA:BB:CC:DD:EE:FF" |}.

Definition camera_adv : B.adv_data :=
  {| B.service_uuids := ["0000BE80-0000-1000-8000-00805F9B34FB"] |}.

(** A camera that is seen in the 5th sleep of the third scan attempt (and by
    a timed scan), accepts the connection after 1.5 s and enables
    notifications after 10 ms. *)
Definition camera_nearby : B.connect_env :=
  {| B.bleak_installed := true;
     B.loop_ready := true;
     B.discover := inl [(camera, camera_adv)];
     B.adverts := fun n ph =>
                    match n, ph with
                    | 3, B.Polling 4 => [(camera, camera_adv)]
                    | _, _ => []
                    end;
     B.scanner_start := fun _ => B.After 0%N (inl tt);
     B.scanner_stop := fun _ => B.After 0%N (inl tt);
     B.client_connect := B.After 1500%N (inl true);
     B.client_is_connected := true;
     B.client_start_notify := B.After 10%N (inl tt) |}.

(** The same camera when it refuses the connection. *)
Definition camera_refuses : B.connect_env :=
  {| B.bleak_installed := true;
     B.loop_ready := true;
     B.discover := inl [(camera, camera_adv)];
     B.adverts := fun _ _ => [];
     B.scanner_start := fun _ => B.After 0%N (inl tt);
     B.scanner_stop := fun _ => B.After 0%N (inl tt);
     B.client_connect := B.After 300%N (inr (Error "Device disconnected"));
     B.client_is_connected := false;
     B.client_start_notify := B.After 10%N (inl tt) |}.

(** The same camera when it never answers the request for notifications. *)
Definition camera_silent : B.connect_env :=
  {| B.bleak_installed := true;
     B.loop_ready := true;
     B.discover := inl [(camera, camera_adv)];
     B.adverts := fun _ _ => [];
     B.scanner_start := fun _ => B.After 0%N (inl tt);
     B.scanner_stop := fun _ => B.After 0%N (inl tt);
     B.client_connect := B.After 1500%N (inl true);
     B.client_is_connected := true;
     B.client_start_notify := B.Never |}.

(** The camera answers the request for notifications after [d] ms. *)
Definition camera_slow (d : millis) : B.connect_env :=
  {| B.bleak_installed := true;
     B.loop_ready := true;
     B.discover := inl [(camera, camera_adv)];
     B.adverts := fun _ _ => [];
     B.scanner_start := fun _ => B.After 0%N (inl tt);
     B.scanner_stop := fun _ => B.After 0%N (inl tt);
     B.client_connect := B.After 1500%N (inl true);
     B.client_is_connected := true;
     B.client_start_notify := B.After d (inl tt) |}.

Definition ble_connected : B.t :=
  final_state (B.connect 0 (Some "AA:BB:CC:DD:EE:FF") (Some 3000%N) camera_nearby B.init).

(** A write that the camera acknowledges after 30 ms. *)
Definition gatt_ready : B.send_env :=
  {| B.link_up := true; B.write_gatt_char := B.After 30%N (inl tt); B.link_up_after := true |}.

(** The camera lets the link go: notifications stop after 20 ms, the link
    is closed after 200 ms more, the loop thread ends 5 ms after the loop is
    stopped. *)
Definition link_closes : B.disconnect_env :=
  {| B.link_is_connected := true;
     B.client_stop_notify := B.After 20%N (inl tt);
     B.client_disconnect := B.After 200%N (inl tt);
     B.join := B.Thread_exits 5%N |}.

Definition ble_disconnected : B.t :=
  final_state (B.disconnect link_closes ble_connected).

(** Only a headset is in range. *)
Definition headset : B.device :=
  {| B.name := Some "Headset"; B.address := "11:22:33:44:55:66" |}.

Definition headset_adv : B.adv_data :=
  {| B.service_uuids := ["0000110b-0000-1000-8000-00805f9b34fb"] |}.

Definition no_camera : B.connect_env :=
  {| B.bleak_installed := true;
     B.loop_ready := true;
     B.discover := inl [(headset, headset_adv)];
     B.adverts := fun _ _ => [(headset, headset_adv)];
     B.scanner_start := fun _ => B.After 0%N (inl tt);
     B.scanner_stop := fun _ => B.After 0%N (inl tt);
     B.client_connect := B.After 1500%N (inl true);
     B.client_is_connected := true;
     B.client_start_notify := B.After 10%N (inl tt) |}.

(** bleak is not installed; the loop thread is not up after 0.1 s. *)
Definition bleak_missing : B.connect_env :=
  {| B.bleak_installed := false;
     B.loop_ready := true;
     B.discover := inl [(camera, camera_adv)];
     B.adverts := fun _ _ => [];
     B.scanner_start := fun _ => B.After 0%N (inl tt);
     B.scanner_stop := fun _ => B.After 0%N (inl tt);
     B.client_connect := B.After 1500%N (inl true);
     B.client_is_connected := true;
     B.client_start_notify := B.After 10%N (inl tt) |}.

Definition loop_late : B.connect_env :=
  {| B.bleak_installed := true;
     B.loop_ready := false;
     B.discover := inl [(camera, camera_adv)];
     B.adverts := fun _ _ => [];
     B.scanner_start := fun _ => B.After 0%N (inl tt);
     B.scanner_stop := fun _ => B.After 0%N (inl tt);
     B.client_connect := B.After 1500%N (inl true);
     B.client_is_connected := true;
     B.client_start_notify := B.After 10%N (inl tt) |}.

(** What the receive loop meets on socket 7: a poll that times out, bytes
    that are ready, a read that fails. *)
Definition nothing_to_read : W.poll_env :=
  {| W.poll := inl []; W.recv := inl []; W.callback_raises := None |}.

Definition data_ready (d : Py.bytes) : W.poll_env :=
  {| W.poll := inl [(7%Z, 1%Z)]; W.recv := inl d; W.callback_raises := None |}.

(** The socket has bytes [d] and the callback is interrupted by an exception
    that is no [Exception]. *)
Definition callback_interrupted (d : Py.bytes) : W.pass_env :=
  {| W.events := inl [(7%Z, 1%Z)]; W.received := inl d; W.callback_exn := Some CancelledError |}.

Definition read_fails : W.poll_env :=
  {| W.poll := inl [(7%Z, 1%Z)]; W.recv := inr "Connection reset by peer";
     W.callback_raises := None |}.

(** The test [start_receiving] makes: a receive thread is tracked and alive. *)
Definition receive_loop_running (w : W.t) : bool :=
  match W.rcv_thread w with
  | Some th => W.is_alive th w
  | None => false
  end.

(** Notifications arriving one after the other: the sender, the bytes, and
    what the caller's callback does with them. *)
Fixpoint notifications (ns : list (nat * Py.bytes * option string)) : M B.t unit :=
  match ns with
  | [] => ret tt
  | (sender, data, raises) :: rest =>
      B._notification_handler sender data raises ;;
      notifications rest
  end.

(** ** The socket transport: sending and receiving *)

(** Runs a method body on an explicit state. *)
Ltac run_wifi :=
  unfold W._poll_and_receive, W.attempt, W.emit, W.log, W.blocked_for,
    try_except, bind, ret, raise, get, modify;
  cbn.

Lemma wifi_connect_outcome (host : string) (port : Z) (env : W.connect_env) (w : W.t) :
  match W.connect host port env w with
  | Returned true w' =>
      W.is_connected w' = true /\ W.host w' = Some host /\ W.port w' = Some port
      /\ (exists sock, W.socket_socket env = inl sock /\ W.socket w' = Some sock)
      /\ W.socket_settimeout env = None /\ W.socket_connect env = None
  | Returned false w' => W.is_connected w' = false /\ W.socket w' = None
  | _ => False
  end.
Proof.
  destruct env as [[sock | msg] [m1 | ] [m2 | ]]; cbn; repeat split; eauto.
Qed.

Lemma wifi_send_disconnected (data : Py.bytes) (sendall : option string) (w : W.t) :
  W.is_connected w = false \/ W.socket w = None ->
  W.send data sendall w = Returned false w.
Proof.
  intros [H | H]; unfold W.send, bind, get; rewrite H.
  - now destruct (W.socket w).
  - reflexivity.
Qed.

Lemma wifi_send_failure (data : Py.bytes) (msg : string) (w : W.t) :
  exists w',
    W.send data (Some msg) w = Returned false w'
    /\ W.is_connected w' = W.is_connected w
    /\ W.socket w' = W.socket w.
Proof.
  unfold W.send, bind, get.
  destruct (W.socket w) as [sock | ] eqn:Hs; [destruct (W.is_connected w) eqn:Hc |].
  - eexists. cbn. repeat split; cbn; auto.
  - exists w. auto.
  - exists w. auto.
Qed.

Lemma wifi_poll_keeps_state (env : W.poll_env) (w : W.t) :
  exists r w',
    W._poll_and_receive env w = Returned r w'
    /\ W.is_connected w' = W.is_connected w
    /\ W.socket w' = W.socket w.
Proof.
  destruct w as [lg ic [cb | ] h p [sock | ] rt rb fl tr ck al tc];
    destruct env as [[evs | msg] [data | msg'] [craise | ]];
    run_wifi;
    try destruct (existsb (W.readable sock) evs);
    run_wifi;
    try destruct (Py.truthy_bytes data);
    run_wifi; eexists; eexists; repeat split.
Qed.

Lemma wifi_stop_receiving (j : W.join_outcome) (w : W.t) :
  exists w',
    W.stop_receiving j w = Returned tt w'
    /\ W.stop_receiving_flag w' = true
    /\ W.rcv_thread w' = None
    /\ W.trace w' = W.trace w ++ match W.rcv_thread w with
                                 | Some th => [Thread_join th 2000%N]
                                 | None => []
                                 end
    /\ (W.clock w <= W.clock w' <= W.clock w + 2000)%N
    /\ W.is_connected w' = W.is_connected w
    /\ W.socket w' = W.socket w
    /\ W.host w' = W.host w
    /\ W.port w' = W.port w.
Proof.
  unfold W.stop_receiving, W.thread_join, bind, get, modify, W.emit, W.blocked_for, W.is_alive.
  cbn.
  destruct (W.rcv_thread w) as [th | ] eqn:Ht; cbn.
  - destruct (existsb (Nat.eqb th) (W.alive w)); cbn.
    + destruct j as [d | ]; cbn.
      * destruct (d <=? 2000)%N eqn:Hd; cbn; eexists; repeat split; cbn; auto; try lia.
        apply N.leb_le in Hd. lia.
      * eexists; repeat split; cbn; auto; lia.
    + eexists; repeat split; cbn; auto; lia.
  - eexists; repeat split; cbn; auto; try lia. now rewrite app_nil_r.
Qed.


Lemma wifi_disconnect_outcome (env : W.disconnect_env) (w : W.t) :
  exists w',
    W.disconnect env w = Returned tt w'
    /\ W.is_connected w' = false
    /\ W.socket w' = None
    /\ W.rcv_thread w' = None
    /\ W.stop_receiving_flag w' = true
    /\ W.rcv_buffer w' = [].
Proof.
  unfold W.disconnect.
  unfold bind at 1. cbn [W.log modify].
  unfold bind at 1.
  destruct (wifi_stop_receiving (W.join env)
              (W.set_logger (W.logger w ++ [(DEBUG, WiFi_Disconnecting)]) w))
    as (w1 & -> & Hflag & Hth & _).
  unfold bind at 1, get.
  destruct (W.socket w1) as [sock | ] eqn:Hsock.
  - destruct (W.socket_shutdown env), (W.socket_close env); run_wifi;
      eexists; repeat split; cbn; auto.
  - run_wifi. eexists; repeat split; cbn; auto.
Qed.

(** C4 as the claim states it fails: after a [send] that fails with a write
    error on a connected socket transport, [is_connected] is still true. *)
Lemma failed_send_stays_connected :
  returned (W.send [Byte.x01] (Some "Broken pipe") wifi_connected) = Some false
  /\ W.is_connected (final_state (W.send [Byte.x01] (Some "Broken pipe") wifi_connected)) = true.
Proof. split; reflexivity. Qed.

(** C4, amended: the socket transport becomes Disconnected on an explicit
    [disconnect] (whatever shutdown, close and the join do) and on a failed
    [connect]; an I/O failure in [send] or in the receive path does not
    change the state: a [send] that fails with a write error returns false
    and leaves [is_connected] and the socket handle as they were, and so does
    every call of [_poll_and_receive]. *)
Theorem socket_state_changes (w : W.t) :
  (forall env, exists w',
      W.disconnect env w = Returned tt w'
      /\ W.is_connected w' = false /\ W.socket w' = None)
  /\ (forall host port env,
         match W.connect host port env w with
         | Returned true w' => W.is_connected w' = true
         | Returned false w' => W.is_connected w' = false /\ W.socket w' = None
         | _ => False
         end)
  /\ (forall data msg, exists w',
         W.send data (Some msg) w = Returned false w'
         /\ W.is_connected w' = W.is_connected w
         /\ W.socket w' = W.socket w)
  /\ (forall env, exists r w',
         W._poll_and_receive env w = Returned r w'
         /\ W.is_connected w' = W.is_connected w
         /\ W.socket w' = W.socket w).
Proof.
  repeat split.
  - intros env. destruct (wifi_disconnect_outcome env w) as (w' & H1 & H2 & H3 & _).
    exists w'. auto.
  - intros host port env. pose proof (wifi_connect_outcome host port env w) as H.
    destruct (W.connect host port env w) as [[|] w' | | |]; tauto.
  - intros data msg. apply wifi_send_failure.
  - intros env. apply wifi_poll_keeps_state.
Qed.




(** ** The BLE transport: sending and receiving *)

Lemma ble_send_refused (data : Py.bytes) (env : B.send_env) (s : B.t) :
  B.is_connected s = false \/ B.client s = None \/ B.event_loop s = None
  \/ B._disconnecting s = true ->
  B.send data env s = Returned false s.
Proof.
  intros H. unfold B.send, bind at 1, get.
  destruct H as [H | [H | [H | H]]]; rewrite H; cbn [Py.is_some negb orb];
    rewrite ?orb_true_r; reflexivity.
Qed.

(** C2: on a transport that is Disconnected ([is_connected] false, or the
    socket, the client or the event loop absent), [send] returns false for
    every buffer and leaves the instance, its trace included, untouched: no
    write is attempted and no task is submitted. *)
Theorem send_when_disconnected (w : W.t) (b : B.t) (data : Py.bytes)
  (sendall : option string) (env : B.send_env) :
  W.is_connected w = false \/ W.socket w = None ->
  B.is_connected b = false \/ B.client b = None \/ B.event_loop b = None ->
  W.send data sendall w = Returned false w
  /\ B.send data env b = Returned false b.
Proof.
  intros Hw Hb. split.
  - now apply wifi_send_disconnected.
  - apply ble_send_refused. tauto.
Qed.

Lemma send_when_disconnected_on_new_instances :
  W.send [Byte.x01] None W.init = Returned false W.init
  /\ B.send [Byte.x01] gatt_ready B.init = Returned false B.init.
Proof.
  apply send_when_disconnected; left; reflexivity.
Defined.

(** C3: while the disconnecting guard is set, [send] of the BLE transport
    returns false and leaves the instance and its trace untouched: nothing
    is submitted to the event loop and no GATT write is attempted; the
    coroutine [_async_send] tests the guard again and, when it is set,
    returns false without the write. *)
Theorem send_while_disconnecting (s : B.t) (data : Py.bytes) (env : B.send_env) :
  B._disconnecting s = true ->
  B.send data env s = Returned false s
  /\ B._async_send data env s = B.End (Returned false s).
Proof.
  intros H. split.
  - apply ble_send_refused. tauto.
  - unfold B._async_send, B.co_try_except, B.co_bind, B.lift, get.
    cbn [B.graft]. rewrite H. reflexivity.
Qed.

Lemma send_while_disconnecting_after_connect :
  B.send [Byte.x01] gatt_ready (B.set__disconnecting true ble_connected)
  = Returned false (B.set__disconnecting true ble_connected)
  /\ B._async_send [Byte.x01] gatt_ready (B.set__disconnecting true ble_connected)
     = B.End (Returned false (B.set__disconnecting true ble_connected)).
Proof.
  apply send_while_disconnecting. reflexivity.
Defined.

(** C10: [stop_receiving] of the BLE transport sets [receive_callback] to
    None and changes nothing else (no operation is issued, no time passes);
    the notification handler calls the registered callback with the bytes
    when there is one and does nothing when there is none; so every
    notification that arrives after [stop_receiving] and before a new
    [start_receiving] is dropped. *)
Theorem stop_receiving_drops_notifications (s : B.t) :
  B.stop_receiving s = Returned tt (B.set_receive_callback None s)
  /\ B.trace (B.set_receive_callback None s) = B.trace s
  /\ B.clock (B.set_receive_callback None s) = B.clock s
  /\ (forall sender data raises,
         match B.receive_callback s with
         | Some cb =>
             B.trace (final_state (B._notification_handler sender data raises s))
             = B.trace s ++ [Callback cb data]
         | None => B._notification_handler sender data raises s = Returned tt s
         end)
  /\ (forall ns,
         notifications ns (B.set_receive_callback None s)
         = Returned tt (B.set_receive_callback None s)).
Proof.
  repeat split.
  - intros sender data raises.
    destruct (B.receive_callback s) as [cb | ] eqn:E;
      unfold B._notification_handler, bind, get; rewrite E.
    + destruct raises; reflexivity.
    + reflexivity.
  - induction ns as [| [[sender data] raises] rest IH]; [reflexivity |].
    cbn [notifications]. unfold bind at 1. exact IH.
Qed.

(** ** The BLE transport: tasks on the event loop *)

(** *** Tactics that run the model on an explicit state *)

Ltac run_ble :=
  lazy beta iota zeta delta
    [B.establish B._async_connect B._find_camera B.co_bind B.graft B.co_try_except
     B.rescue B.lift B.co_ret B.await B.bounded B.tick B.abandon B.run_until B.outcome
     B.log B.emit B.sleep B.new_thread B._run_event_loop B.run_coroutine_threadsafe
     B.future_result B.never_run B.thread_join B.future_exception B.first_camera
     B.detection_callback
     modify get bind ret raise try_except final_state returned
     B.set_logger B.set_is_connected B.set_receive_callback B.set_device_address
     B.set_device_name B.set_client B.set_event_loop B.set_ble_thread
     B.set__pending_tasks B.set__disconnecting B.set_trace B.set_clock
     B.set_running_loops B.set_threads_created B.set_loops_created B.set_tasks_abandoned
     B.logger B.is_connected B.receive_callback B.device_address B.device_name B.client
     B.event_loop B.ble_thread B._connect_future B._disconnect_future B._pending_tasks
     B._disconnecting B.trace B.clock B.running_loops B.threads_created B.loops_created
     B.tasks_abandoned
     B.bleak_installed B.loop_ready B.discover B.adverts B.scanner_start B.scanner_stop
     B.client_connect B.client_is_connected B.client_start_notify
     tl_ok undisturbed quiet_trace establish_post link_ok
     is_Exception any_exception Py.is_some negb orb andb fst snd].

Ltac simpl_ble :=
  unfold B.abandon, B.tick;
  cbn [B.set_logger B.set_is_connected B.set_receive_callback B.set_device_address
       B.set_device_name B.set_client B.set_event_loop B.set_ble_thread
       B.set__pending_tasks B.set__disconnecting B.set_trace B.set_clock
       B.set_running_loops B.set_threads_created B.set_loops_created B.set_tasks_abandoned
       B.logger B.is_connected B.receive_callback B.device_address B.device_name B.client
       B.event_loop B.ble_thread B._connect_future B._disconnect_future B._pending_tasks
       B._disconnecting B.trace B.clock B.running_loops B.threads_created B.loops_created
       B.tasks_abandoned].

Ltac simpl_ble_in_all :=
  unfold B.abandon, B.tick in *;
  cbn [B.set_logger B.set_is_connected B.set_receive_callback B.set_device_address
       B.set_device_name B.set_client B.set_event_loop B.set_ble_thread
       B.set__pending_tasks B.set__disconnecting B.set_trace B.set_clock
       B.set_running_loops B.set_threads_created B.set_loops_created B.set_tasks_abandoned
       B.logger B.is_connected B.receive_callback B.device_address B.device_name B.client
       B.event_loop B.ble_thread B._connect_future B._disconnect_future B._pending_tasks
       B._disconnecting B.trace B.clock B.running_loops B.threads_created B.loops_created
       B.tasks_abandoned] in *.

Ltac fold_ble s :=
  fold (B.logger s) (B.is_connected s) (B.receive_callback s) (B.device_address s)
       (B.device_name s) (B.client s) (B.event_loop s) (B.ble_thread s)
       (B._connect_future s) (B._disconnect_future s) (B._pending_tasks s)
       (B._disconnecting s) (B.trace s) (B.clock s) (B.running_loops s)
       (B.threads_created s) (B.loops_created s) (B.tasks_abandoned s).

Ltac solve_quiet :=
  unfold undisturbed, quiet_trace in *;
  repeat match goal with
    | |- _ /\ _ => split
    | |- exists _, _ => eexists
    | H : _ /\ _ |- _ => destruct H
    end;
  rewrite ?filter_app; cbn [filter is_task_cancel app]; rewrite ?app_nil_r;
  try reflexivity; try assumption; try congruence; try lia.

Ltac run_prefix :=
  lazy beta iota zeta delta
    [B.connect B.log B.emit B.sleep B.new_thread B._run_event_loop
     B.run_coroutine_threadsafe B.future_result B.is_running B.tick
     modify get bind ret raise try_except
     B.set_logger B.set_is_connected B.set_receive_callback B.set_device_address
     B.set_device_name B.set_client B.set_event_loop B.set_ble_thread
     B.set__pending_tasks B.set__disconnecting B.set_trace B.set_clock
     B.set_running_loops B.set_threads_created B.set_loops_created B.set_tasks_abandoned
     B.logger B.is_connected B.receive_callback B.device_address B.device_name B.client
     B.event_loop B.ble_thread B._connect_future B._disconnect_future B._pending_tasks
     B._disconnecting B.trace B.clock B.running_loops B.threads_created B.loops_created
     B.tasks_abandoned is_Exception].


(** *** What leaves an instance undisturbed *)

Lemma undisturbed_refl (s : B.t) : undisturbed s s.
Proof. repeat split. Qed.

Lemma emit_undisturbed (s0 s : B.t) (e : event) :
  undisturbed s0 s -> is_task_cancel e = false ->
  undisturbed s0 (B.set_trace (B.trace s ++ [e]) s).
Proof.
  intros H He. unfold undisturbed, quiet_trace in *. run_ble.
  rewrite filter_app. cbn [filter]. rewrite He, app_nil_r. exact H.
Qed.

Lemma tick_undisturbed (s0 s : B.t) (d : millis) :
  undisturbed s0 s -> undisturbed s0 (B.tick d s).
Proof. intros H. run_ble. solve_quiet. Qed.

Lemma log_undisturbed (s0 s : B.t) (r : log_record) :
  undisturbed s0 s -> undisturbed s0 (B.set_logger (B.logger s ++ [r]) s).
Proof. intros H. run_ble. solve_quiet. Qed.

Lemma noted_undisturbed (s0 s : B.t) (d : B.device) :
  undisturbed s0 s -> undisturbed s0 (noted d s).
Proof. intros H. unfold noted. run_ble. solve_quiet. Qed.

Create HintDb undisturbed.

#[local] Hint Resolve undisturbed_refl emit_undisturbed tick_undisturbed log_undisturbed
  noted_undisturbed : undisturbed.

(** *** Rules for timelines *)

Section TimelineLogic.

Context {A : Type} (strict : bool) (s0 : B.t).

Lemma tl_ok_graft {C : Type} (Q : A -> B.t -> Prop)
  (Q' : C -> B.t -> Prop) (k : A -> B.Co C) (tl : B.timeline A) :
  forall c,
    tl_ok strict c s0 Q tl ->
    (forall a s, Q a s -> tl_ok strict (B.clock s) s0 Q' (k a s)) ->
    tl_ok strict c s0 Q' (B.graft tl k).
Proof.
  induction tl as [[a s | e s | s | s] | s d rest IH]; intros c H Hk; cbn in *; trivial.
  - destruct H as [<- H]. now apply Hk.
  - destruct H as (H1 & H2 & H3). split; [| split]; trivial. now apply IH.
Qed.

Lemma tl_ok_bind {C : Type} (Q : A -> B.t -> Prop)
  (Q' : C -> B.t -> Prop) (m : B.Co A) (k : A -> B.Co C) (s : B.t) :
  tl_ok strict (B.clock s) s0 Q (m s) ->
  (forall a s', Q a s' -> tl_ok strict (B.clock s') s0 Q' (k a s')) ->
  tl_ok strict (B.clock s) s0 Q' (B.co_bind m k s).
Proof. intros Hm Hk. unfold B.co_bind. now apply tl_ok_graft with (Q := Q). Qed.

Lemma tl_ok_weaken (strict' : bool) (Q Q' : A -> B.t -> Prop)
  (tl : B.timeline A) :
  forall c,
    (strict' = true -> strict = true) ->
    (forall a s, Q a s -> Q' a s) ->
    tl_ok strict c s0 Q tl -> tl_ok strict' c s0 Q' tl.
Proof.
  induction tl as [[a s | e s | s | s] | s d rest IH]; intros c Hs HQ H; cbn in *; trivial.
  - destruct H; split; auto.
  - destruct H as (H1 & H2 & H3). split; [| split]; trivial.
    destruct strict'; trivial. rewrite Hs in H3; trivial.
  - destruct H as (H1 & H2 & H3). split; [| split]; trivial. now apply IH.
Qed.

Lemma tl_ok_await (Q : A -> B.t -> Prop)
  (e : event) (o : B.timed A) (s : B.t) :
  undisturbed s0 s -> is_task_cancel e = false ->
  (forall d a, o = B.After d (inl a) ->
               Q a (B.tick d (B.set_trace (B.trace s ++ [e]) s))) ->
  tl_ok strict (B.clock s) s0 Q (B.await e o s).
Proof.
  intros H He HQ. pose proof (emit_undisturbed s0 s e H He) as H1.
  unfold B.await. destruct o as [d [a | x] | ]; cbn [tl_ok].
  - split; [reflexivity |]. split; [exact H1 |]. split; [reflexivity |]. now apply HQ.
  - split; [reflexivity |]. split; [exact H1 |]. split; [reflexivity |].
    now apply tick_undisturbed.
  - split; [reflexivity | exact H1].
Qed.

Lemma never_run_ok (s : B.t) (Q : A -> B.t -> Prop) :
  undisturbed s0 s -> tl_ok strict (B.clock s) s0 Q (B.never_run s).
Proof. intros H. cbn. auto. Qed.

Lemma outcome_ok (Q : A -> B.t -> Prop)
  (tl : B.timeline A) :
  forall c, tl_ok strict c s0 Q tl ->
  match B.outcome tl with Returned a s => Q a s | _ => True end.
Proof.
  induction tl as [[a s | e s | s | s] | s d rest IH]; intros c H; cbn in *; trivial.
  - apply H.
  - apply (IH (c + d)%N). apply H.
Qed.

Lemma run_until_ok (Q : A -> B.t -> Prop)
  (budget : option millis) (tl : B.timeline A) :
  forall c b0,
    tl_ok strict c s0 Q tl ->
    match budget with Some b => (c + b = b0)%N | None => True end ->
    match B.run_until budget tl with
    | Returned a s =>
        Q a s /\ (Py.is_some budget = true -> (B.clock s <= b0)%N)
    | Raised e s =>
        is_Exception e = true
        /\ B.is_connected s = B.is_connected s0
        /\ filter is_task_cancel (B.trace s) = filter is_task_cancel (B.trace s0)
        /\ (Py.is_some budget = true -> (B.clock s <= b0)%N)
        /\ (B.tasks_abandoned s = B.tasks_abandoned s0
            \/ (B.tasks_abandoned s = S (B.tasks_abandoned s0)
                /\ Py.is_some budget = true /\ B.clock s = b0))
    | Blocked s => Py.is_some budget = false /\ undisturbed s0 s
    | Out_of_fuel s => strict = false /\ undisturbed s0 s
    end.
Proof.
  revert budget.
  induction tl as [[a s | e s | s | s] | s d rest IH]; intros budget c b0 H Hb;
    cbn [B.run_until tl_ok] in *.
  - destruct H as [Hc HQ]. split; trivial. intros Hne.
    destruct budget; [lia | discriminate].
  - destruct H as (Hc & Hi & Ha & Ht). repeat split; trivial.
    + now destruct e.
    + intros Hne. destruct budget; [lia | discriminate].
    + now left.
  - destruct H as (Hc & Hi & Ha & Ht). destruct budget as [b | ].
    + simpl_ble. split; [reflexivity |]. split; [exact Hi |]. split; [exact Ht |].
      split; [intros _; lia |]. right. split; [now rewrite Ha |]. split; [reflexivity | lia].
    + split; trivial. repeat split; trivial.
  - destruct H as (Hc & Hu & Hs). auto.
  - destruct H as (Hc & (Hi & Ha & Ht) & Hrest). destruct budget as [b | ].
    + destruct (d <=? b)%N eqn:E.
      * apply N.leb_le in E. apply (IH (Some (b - d)%N) (c + d)%N b0); trivial. lia.
      * apply N.leb_gt in E. simpl_ble.
        split; [reflexivity |]. split; [exact Hi |]. split; [exact Ht |].
        split; [intros _; lia |]. right. split; [now rewrite Ha |]. split; [reflexivity | lia].
    + apply (IH None (c + d)%N b0); trivial.
Qed.

End TimelineLogic.

(** How a task ends, step by step. *)

Lemma outcome_graft {A C : Type} (tl : B.timeline A) (k : A -> B.Co C) :
  B.outcome (B.graft tl k) =
  match B.outcome tl with
  | Returned a s => B.outcome (k a s)
  | Raised e s => Raised e s
  | Blocked s => Blocked s
  | Out_of_fuel s => Out_of_fuel s
  end.
Proof.
  induction tl as [[a s | e s | s | s] | s d rest IH]; cbn; trivial.
Qed.

Lemma outcome_bind {A C : Type} (m : B.Co A) (k : A -> B.Co C) (s : B.t) :
  B.outcome (B.co_bind m k s) =
  match B.outcome (m s) with
  | Returned a s' => B.outcome (k a s')
  | Raised e s' => Raised e s'
  | Blocked s' => Blocked s'
  | Out_of_fuel s' => Out_of_fuel s'
  end.
Proof. apply outcome_graft. Qed.

Lemma outcome_await {A : Type} (e : event) (d : millis) (a : A) (s : B.t) :
  B.outcome (B.await e (B.After d (inl a)) s)
  = Returned a (B.tick d (B.set_trace (B.trace s ++ [e]) s)).
Proof. reflexivity. Qed.

(** *** Discovery *)

Lemma advertises_service_listed (adv : B.adv_data) :
  B.advertises_service adv = true <-> service_listed adv.
Proof.
  unfold B.advertises_service, Py.str_in, service_listed.
  rewrite existsb_exists. split.
  - intros (x & Hin & Heq). apply String.eqb_eq in Heq.
    apply in_map_iff in Hin. destruct Hin as (u & Hu & Hin).
    exists u. split; congruence.
  - intros (u & Hin & Heq). exists (Py.lower u). split.
    + now apply in_map.
    + apply String.eqb_eq. congruence.
Qed.

Lemma first_camera_ok (devices : list (B.device * B.adv_data)) (s : B.t) :
  exists r s',
    B.first_camera devices s = Returned r s'
    /\ B.clock s' = B.clock s /\ undisturbed s s'
    /\ B.device_name s' = B.device_name s.
Proof.
  induction devices as [| [d adv] rest IH]; cbn [B.first_camera].
  - exists None, s. repeat split.
  - destruct (B.advertises_service adv).
    + eexists; eexists. run_ble. solve_quiet.
    + exact IH.
Qed.

Lemma first_camera_run (devices : list (B.device * B.adv_data)) (s : B.t) :
  B.first_camera devices s
  = Returned (matching devices) (B.set_logger (B.logger s ++ found (matching devices)) s).
Proof.
  unfold matching.
  induction devices as [| [d adv] rest IH]; cbn [B.first_camera find snd].
  - cbn [found]. rewrite app_nil_r. now destruct s.
  - destruct (B.advertises_service adv); [reflexivity | exact IH].
Qed.

Lemma deliver_some (d : B.device) (sc : bool) (ads : list (B.device * B.adv_data)) (s : B.t) :
  B.deliver (Some d) sc ads s = Returned (Some d) s.
Proof.
  induction ads as [| [d' adv] rest IH]; cbn; trivial.
Qed.

Lemma deliver_none (ads : list (B.device * B.adv_data)) (s : B.t) :
  B.deliver None true ads s =
  Returned (matching ads) (match matching ads with Some d => noted d s | None => s end).
Proof.
  unfold matching.
  induction ads as [| [d adv] rest IH]; cbn [B.deliver find snd]; trivial.
  unfold bind at 1, B.detection_callback.
  destruct (B.advertises_service adv) eqn:E.
  - cbn. apply deliver_some.
  - cbn. apply IH.
Qed.

Lemma slept_0 (s : B.t) : slept 0 s = s.
Proof.
  destruct s; unfold slept, B.set_clock, B.set_trace; cbn.
  f_equal; first [apply app_nil_r | lia].
Qed.

Lemma slept_S (m : nat) (s : B.t) :
  slept m (B.tick 100%N (B.set_trace (B.trace s ++ [Asyncio_sleep 100%N]) s)) = slept (S m) s.
Proof.
  destruct s; unfold slept, B.tick, B.set_clock, B.set_trace;
    cbn -[N.of_nat N.mul N.add].
  f_equal; first [now rewrite <- app_assoc | rewrite Nat2N.inj_succ; lia].
Qed.

Lemma sleeps_app (l1 l2 : list event) : sleeps (l1 ++ l2) = (sleeps l1 + sleeps l2)%nat.
Proof. unfold sleeps. now rewrite filter_app, length_app. Qed.

Lemma sleeps_repeat (m : nat) : sleeps (repeat (Asyncio_sleep 100%N) m) = m.
Proof.
  unfold sleeps. induction m as [| m IH]; cbn; [reflexivity | now rewrite IH].
Qed.

Lemma sleeps_other (e : event) : is_asyncio_sleep e = false -> sleeps [e] = 0%nat.
Proof. unfold sleeps. cbn. now intros ->. Qed.

Lemma notices_S (n : nat) : notices (S n) = notices n ++ notice_of (S n).
Proof.
  unfold notices, notice_of. destruct n as [| n]; [reflexivity |].
  cbn [Nat.sub Nat.ltb Nat.leb]. rewrite Nat.sub_0_r.
  now rewrite seq_S, map_app.
Qed.

Lemma notice_run (i : nat) (s : B.t) :
  (if (1 <? i)%nat then B.log INFO (BLE_Still_scanning i) else ret tt) s
  = Returned tt (notice i s).
Proof. unfold notice. now destruct (1 <? i)%nat. Qed.

Section Discovery.

Variable env : B.connect_env.

Lemma matching_genuine (i : nat) (ph : B.scan_phase) :
  genuine env (matching (B.adverts env i ph)).
Proof.
  unfold genuine, matching.
  destruct (find _ _) as [[d adv] | ] eqn:E; trivial.
  apply find_some in E. destruct E as [Hin Hm]. cbn in Hm.
  exists i, ph, adv. split; trivial. now apply advertises_service_listed.
Qed.

Lemma deliver_ok (i : nat) (ph : B.scan_phase)
  (found : option B.device) (s0 s : B.t) :
  undisturbed s0 s -> genuine env found ->
  exists r s',
    B.deliver found true (B.adverts env i ph) s = Returned r s'
    /\ B.clock s' = B.clock s /\ undisturbed s0 s' /\ genuine env r
    /\ (found <> None -> r = found).
Proof.
  intros H G. destruct found as [d | ].
  - rewrite deliver_some. exists (Some d), s. repeat split; trivial; apply H.
  - rewrite deliver_none. pose proof (matching_genuine i ph) as G'.
    destruct (matching (B.adverts env i ph)) as [d | ].
    + exists (Some d), (noted d s). repeat split; trivial; try congruence;
        now apply noted_undisturbed.
    + exists None, s. repeat split; trivial; try congruence; apply H.
Qed.

Lemma poll_window_ok (n : nat) (start : millis) (s0 : B.t) :
  forall p k found s,
    undisturbed s0 s -> genuine env found ->
    tl_ok false (B.clock s) s0 (fun r s' => undisturbed s0 s' /\ genuine env r)
      (B.poll_window p env n k start found s).
Proof.
  induction p as [| p IH]; intros k found s H G; cbn [B.poll_window];
    destruct (negb (Py.is_some found) && (B.clock s - start <? B.scan_duration)%N).
  - cbn. repeat split; trivial; apply H.
  - cbn. repeat split; trivial; apply H.
  - unfold B.co_bind at 1. cbn [B.await B.graft].
    unfold B.co_bind at 1. unfold B.lift at 1.
    set (s1 := B.tick 100%N (B.set_trace (B.trace s ++ [Asyncio_sleep 100%N]) s)).
    assert (H1 : undisturbed s0 s1) by (subst s1; run_ble; unfold undisturbed, quiet_trace in H; solve_quiet).
    destruct (deliver_ok n (B.Polling k) found s0 s1 H1 G) as (r & s2 & -> & Hc & H2 & G2 & _).
    cbn [B.graft tl_ok].
    split; [reflexivity |]. split; [unfold undisturbed, quiet_trace in *; run_ble; solve_quiet |].
    replace (B.clock s + 100)%N with (B.clock s2) by (rewrite Hc; reflexivity).
    now apply IH.
  - cbn. repeat split; trivial; apply H.
Qed.

Lemma scan_attempts_ok (s0 : B.t) :
  forall fuel c s,
    undisturbed s0 s ->
    tl_ok false (B.clock s) s0
      (fun r s' => undisturbed s0 s' /\ exists d, r = Some d /\ advertised env d)
      (B.scan_attempts fuel env c None s).
Proof.
  induction fuel as [| fuel IH]; intros c s H; cbn [B.scan_attempts].
  - cbn. auto.
  - apply tl_ok_bind with (Q := fun _ s' => undisturbed s0 s').
    { unfold B.lift. destruct (1 <? S c)%nat; cbn [B.log modify tl_ok];
        (split; [reflexivity |]); exact H. }
    intros _ s1 H1.
    apply tl_ok_bind with (Q := fun _ s' => undisturbed s0 s').
    { apply tl_ok_await; auto with undisturbed. }
    intros _ s2 H2.
    apply tl_ok_bind with (Q := fun r s' => undisturbed s0 s' /\ genuine env r).
    { unfold B.lift.
      destruct (deliver_ok (S c) B.Starting None s0 s2 H2 I)
        as (r & s3 & -> & Hc & H3 & G3 & _).
      cbn. auto. }
    intros found s3 [H3 G3].
    apply tl_ok_bind with (Q := fun _ s' => undisturbed s0 s').
    { cbn. auto. }
    intros start s4 H4.
    apply tl_ok_bind with (Q := fun r s' => undisturbed s0 s' /\ genuine env r).
    { now apply poll_window_ok. }
    intros found' s5 [H5 G5].
    apply tl_ok_bind with (Q := fun _ s' => undisturbed s0 s').
    { apply tl_ok_await; auto with undisturbed. }
    intros _ s6 H6.
    apply tl_ok_bind with (Q := fun r s' => undisturbed s0 s' /\ genuine env r).
    { unfold B.lift.
      destruct (deliver_ok (S c) B.Stopping found' s0 s6 H6 G5)
        as (r & s7 & -> & Hc & H7 & G7 & _).
      cbn. auto. }
    intros [d | ] s7 [H7 G7].
    + cbn. split; trivial. split; trivial. exists d. auto.
    + now apply IH.
Qed.

Lemma find_camera_ok (fuel : nat) (timeout : option millis) (s0 s : B.t) :
  undisturbed s0 s ->
  tl_ok (Py.is_some timeout) (B.clock s) s0
    (fun r s' => undisturbed s0 s' /\ forall d, r = Some d -> found_by env timeout d)
    (B._find_camera fuel timeout env s).
Proof.
  intros H. destruct timeout as [t | ]; cbn [B._find_camera Py.is_some found_by].
  - apply tl_ok_bind
      with (Q := fun devices s' => undisturbed s0 s' /\ B.discover env = inl devices).
    { apply tl_ok_await; trivial.
      intros d devices E. destruct (B.discover env) as [ds | [d' e]]; [| discriminate].
      injection E as _ <-. split; [| reflexivity].
      apply tick_undisturbed. now apply emit_undisturbed. }
    intros devices s1 [H1 Hd]. unfold B.lift.
    destruct (first_camera_ok devices s1) as (r & s2 & Hrun & Hc & (Hi & Ha & Ht) & _).
    pose proof (first_camera_run devices s1) as Hr. rewrite Hrun in Hr.
    injection Hr as Hr _. rewrite Hrun.
    cbn [tl_ok]. split; trivial. split.
    + unfold undisturbed, quiet_trace in *. solve_quiet.
    + intros d E. exists devices. split; [exact Hd | congruence].
  - eapply tl_ok_weaken; [| | now apply scan_attempts_ok]; trivial.
    cbn beta. intros r s' [Hu (d & -> & Hadv)]. split; [exact Hu |].
    intros d' E. injection E as <-. exact Hadv.
Qed.

(** The run of the indefinite scan, pass by pass and attempt by attempt. *)

Lemma poll_window_eq (p n k : nat) (start : millis)
  (found : option B.device) (s : B.t) :
  B.poll_window (S p) env n k start found s =
  if negb (Py.is_some found) && (B.clock s - start <? B.scan_duration)%N then
    B.co_bind (B.await (Asyncio_sleep 100%N) (B.After 100%N (inl tt)))
      (fun _ => B.co_bind (B.lift (B.deliver found true (B.adverts env n (B.Polling k))))
         (fun found' => B.poll_window p env n (S k) start found')) s
  else B.End (Returned found s).
Proof. reflexivity. Qed.

Lemma poll_window_found (n : nat) (start : millis) (d : B.device) (s : B.t) :
  forall p k, B.outcome (B.poll_window p env n k start (Some d) s) = Returned (Some d) s.
Proof. intros [|p] k; reflexivity. Qed.

Lemma poll_window_pass (p n j : nat) (start : millis) (s : B.t) :
  (B.clock s - start < B.scan_duration)%N ->
  B.outcome (B.poll_window (S p) env n j start None s) =
  let s1 := B.tick 100%N (B.set_trace (B.trace s ++ [Asyncio_sleep 100%N]) s) in
  match matching (B.adverts env n (B.Polling j)) with
  | Some d => Returned (Some d) (noted d s1)
  | None => B.outcome (B.poll_window p env n (S j) start None s1)
  end.
Proof.
  intros Hlt. rewrite poll_window_eq.
  apply N.ltb_lt in Hlt. rewrite Hlt. cbn [Py.is_some negb andb].
  unfold B.co_bind at 1. cbn [B.await B.graft].
  unfold B.co_bind at 1. unfold B.lift at 1.
  rewrite deliver_none. cbn [B.graft B.outcome].
  destruct (matching _) as [d | ]; [apply poll_window_found | reflexivity].
Qed.

Lemma poll_window_match (n k : nat) (start : millis) (d : B.device) :
  (k < 50)%nat ->
  (forall j, (j < k)%nat -> matching (B.adverts env n (B.Polling j)) = None) ->
  matching (B.adverts env n (B.Polling k)) = Some d ->
  forall m j p s,
    (j + m = k)%nat -> (m < p)%nat ->
    B.clock s = (start + 100 * N.of_nat j)%N ->
    B.outcome (B.poll_window p env n j start None s) = Returned (Some d) (noted d (slept (S m) s)).
Proof.
  intros Hk Hquiet Hmatch.
  induction m as [| m IH]; intros j p s Hj Hp Hclock;
    (destruct p as [| p]; [lia |]);
    (rewrite poll_window_pass by (unfold B.scan_duration; lia)); cbv zeta.
  - replace j with k by lia. rewrite Hmatch. now rewrite <- slept_S, slept_0.
  - rewrite (Hquiet j) by lia. rewrite IH; try lia.
    + now rewrite slept_S.
    + simpl_ble. rewrite Hclock, Nat2N.inj_succ. lia.
Qed.

Lemma poll_window_quiet (n : nat) (start : millis) :
  (forall j, matching (B.adverts env n (B.Polling j)) = None) ->
  forall m j p s,
    (j + m = 50)%nat -> (m <= p)%nat ->
    B.clock s = (start + 100 * N.of_nat j)%N ->
    B.outcome (B.poll_window p env n j start None s) = Returned None (slept m s).
Proof.
  intros Hquiet.
  induction m as [| m IH]; intros j p s Hj Hp Hclock.
  - assert (E : (B.clock s - start <? B.scan_duration)%N = false)
      by (apply N.ltb_ge; unfold B.scan_duration; lia).
    rewrite slept_0.
    destruct p as [| p]; [cbn [B.poll_window] | rewrite poll_window_eq];
      rewrite E; reflexivity.
  - destruct p as [| p]; [lia |].
    rewrite poll_window_pass by (unfold B.scan_duration; lia). cbv zeta.
    rewrite Hquiet, IH; try lia.
    + now rewrite slept_S.
    + simpl_ble. rewrite Hclock, Nat2N.inj_succ. lia.
Qed.

Lemma attempt_begins (f c : nat) (s : B.t) (ds : millis) :
  B.scanner_start env (S c) = B.After ds (inl tt) ->
  matching (B.adverts env (S c) B.Starting) = None ->
  B.outcome (B.scan_attempts (S f) env c None s) =
  let s2 := begin_attempt env (S c) s in
  match B.outcome (B.poll_window 51 env (S c) 0 (B.clock s2) None s2) with
  | Returned found s3 =>
      match B.outcome (B.await Scanner_stop (B.scanner_stop env (S c)) s3) with
      | Returned _ s4 =>
          match B.deliver found true (B.adverts env (S c) B.Stopping) s4 with
          | Returned (Some d) s5 => Returned (Some d) s5
          | Returned None s5 => B.outcome (B.scan_attempts f env (S c) None s5)
          | Raised e s5 => Raised e s5
          | Blocked s5 => Blocked s5
          | Out_of_fuel s5 => Out_of_fuel s5
          end
      | Raised e s4 => Raised e s4
      | Blocked s4 => Blocked s4
      | Out_of_fuel s4 => Out_of_fuel s4
      end
  | Raised e s3 => Raised e s3
  | Blocked s3 => Blocked s3
  | Out_of_fuel s3 => Out_of_fuel s3
  end.
Proof.
  intros Hstart Hq. cbn [B.scan_attempts]. cbv zeta.
  rewrite outcome_bind. unfold B.lift at 1. cbn [B.outcome]. rewrite notice_run.
  rewrite outcome_bind, Hstart, outcome_await.
  rewrite outcome_bind. unfold B.lift at 1. cbn [B.outcome]. rewrite deliver_none, Hq.
  rewrite outcome_bind. unfold B.lift at 1. cbn [B.outcome bind get ret].
  rewrite outcome_bind.
  unfold begin_attempt, duration. rewrite Hstart.
  destruct (B.outcome (B.poll_window 51 _ _ _ _ _ _)) as [found s3 | | |]; trivial.
  rewrite outcome_bind.
  destruct (B.outcome (B.await Scanner_stop _ s3)) as [[] s4 | | |]; trivial.
  rewrite outcome_bind. unfold B.lift at 1. cbn [B.outcome].
  destruct (B.deliver found true _ s4) as [[d | ] s5 | | |]; trivial.
Qed.

Lemma attempt_quiet (f c : nat) (s : B.t) :
  calm env (S c) -> quiet env (S c) ->
  B.outcome (B.scan_attempts (S f) env c None s)
  = B.outcome (B.scan_attempts f env (S c) None (quiet_attempt env (S c) s)).
Proof.
  intros [[ds Hstart] [de Hstop]] Hq.
  rewrite (attempt_begins f c s ds Hstart (Hq B.Starting)). cbv zeta.
  rewrite (poll_window_quiet (S c) (B.clock (begin_attempt env (S c) s))
             (fun j => Hq (B.Polling j)) 50 0 51) by (trivial; lia).
  rewrite Hstop, outcome_await, deliver_none, (Hq B.Stopping).
  unfold quiet_attempt, end_attempt, duration. now rewrite Hstop.
Qed.

Lemma attempt_found (f c k : nat) (d : B.device) (s : B.t) :
  calm env (S c) -> (k < 50)%nat -> first_seen env (S c) k d ->
  B.outcome (B.scan_attempts (S f) env c None s)
  = Returned (Some d) (found_attempt env (S c) k d s).
Proof.
  intros [[ds Hstart] [de Hstop]] Hk (Hq0 & Hq & Hm).
  rewrite (attempt_begins f c s ds Hstart Hq0). cbv zeta.
  rewrite (poll_window_match (S c) k (B.clock (begin_attempt env (S c) s)) d
             Hk Hq Hm k 0 51) by (trivial; lia).
  rewrite Hstop, outcome_await, deliver_some.
  unfold found_attempt, end_attempt, duration. now rewrite Hstop.
Qed.

Lemma scan_quiet_run (s : B.t) :
  forall n f,
    (forall i, (1 <= i <= n)%nat -> calm env i /\ quiet env i) ->
    B.outcome (B.scan_attempts (n + f) env 0 None s)
    = B.outcome (B.scan_attempts f env n None (after_quiet env n s)).
Proof.
  induction n as [| n IH]; intros f H; [reflexivity |].
  replace (S n + f)%nat with (n + S f)%nat by lia.
  rewrite IH by (intros i Hi; apply H; lia).
  cbn [after_quiet]. apply attempt_quiet; apply H; lia.
Qed.

Lemma begin_attempt_facts (i : nat) (s : B.t) :
  B.logger (begin_attempt env i s) = B.logger s ++ notice_of i
  /\ sleeps (B.trace (begin_attempt env i s)) = sleeps (B.trace s)
  /\ B.clock (begin_attempt env i s) = (B.clock s + duration (B.scanner_start env i))%N.
Proof.
  unfold begin_attempt, notice, notice_of.
  destruct (1 <? i)%nat; simpl_ble;
    rewrite sleeps_app, sleeps_other, ?app_nil_r by reflexivity; auto.
Qed.

Lemma quiet_attempt_facts (i : nat) (s : B.t) :
  B.logger (quiet_attempt env i s) = B.logger s ++ notice_of i
  /\ sleeps (B.trace (quiet_attempt env i s)) = (sleeps (B.trace s) + 50)%nat
  /\ B.clock (quiet_attempt env i s)
     = (B.clock s + 5000 + duration (B.scanner_start env i)
        + duration (B.scanner_stop env i))%N.
Proof.
  destruct (begin_attempt_facts i s) as (Hl & Hs & Hc).
  unfold quiet_attempt, end_attempt, slept. simpl_ble.
  rewrite Hl, Hc, !sleeps_app, sleeps_repeat, Hs, sleeps_other by reflexivity.
  change (N.of_nat 50) with 50%N.
  repeat split; lia.
Qed.

Lemma found_attempt_facts (i k : nat) (d : B.device) (s : B.t) :
  B.logger (found_attempt env i k d s)
  = B.logger s ++ notice_of i ++ [(INFO, BLE_Found (B.name d) (B.address d))]
  /\ sleeps (B.trace (found_attempt env i k d s)) = (sleeps (B.trace s) + (k + 1))%nat
  /\ B.clock (found_attempt env i k d s)
     = (B.clock s + 100 * N.of_nat (k + 1) + duration (B.scanner_start env i)
        + duration (B.scanner_stop env i))%N.
Proof.
  destruct (begin_attempt_facts i s) as (Hl & Hs & Hc).
  unfold found_attempt, end_attempt, noted, slept. simpl_ble.
  rewrite Hl, Hc, !sleeps_app, sleeps_repeat, Hs, !sleeps_other by reflexivity.
  replace (k + 1)%nat with (S k) by lia.
  split; [now rewrite <- app_assoc | split; lia].
Qed.

Lemma after_quiet_facts (s : B.t) (n : nat) :
  B.logger (after_quiet env n s) = B.logger s ++ notices n
  /\ sleeps (B.trace (after_quiet env n s)) = (sleeps (B.trace s) + 50 * n)%nat
  /\ B.clock (after_quiet env n s) = (B.clock s + 5000 * N.of_nat n + overhead env n)%N.
Proof.
  induction n as [| n (IHl & IHs & IHc)].
  - cbn. rewrite app_nil_r. repeat split; lia.
  - cbn [after_quiet overhead].
    destruct (quiet_attempt_facts (S n) (after_quiet env n s)) as (Hl & Hs & Hc).
    rewrite Hl, Hs, Hc, IHl, IHs, IHc, notices_S, Nat2N.inj_succ.
    repeat split; try lia. now rewrite app_assoc.
Qed.

End Discovery.

(** *** Connecting and disconnecting *)

Lemma establish_ok (a : string) (st : option millis) (env : B.connect_env) (s0 s : B.t) :
  undisturbed s0 s ->
  tl_ok true (B.clock s) s0 (establish_post s0 a (B.device_name s) env) (B.establish a st env s).
Proof.
  intros H.
  destruct env as [bi lr disc adv ss sp cc cic sn].
  destruct cc as [d [[|] | e] | ];
  unfold B.establish, B.bounded, B.client_connect;
  try destruct (d <=? _)%N;
  destruct cic;
  destruct sn as [d' [[] | e'] | ];
  try destruct e; try destruct e';
  run_ble; unfold undisturbed, quiet_trace in H; solve_quiet.
Qed.

Lemma async_connect_ok (fuel : nat) (addr : option string) (st : option millis)
  (env : B.connect_env) (s0 s : B.t) :
  undisturbed s0 s -> B.device_name s = B.device_name s0 ->
  tl_ok (Py.is_some st) (B.clock s) s0 (connect_post s0 addr st env)
    (B._async_connect fuel addr st env s).
Proof.
  intros H Hn. unfold B._async_connect.
  destruct (Py.truthy_opt_str addr) eqn:E; cbn [negb].
  - destruct addr as [a | ]; [| discriminate].
    eapply tl_ok_weaken; [| | now apply establish_ok]; trivial.
    intros b s' [Hq Hb]; unfold connect_post; split; trivial.
    destruct b; [unfold connected_to; rewrite E | exact Hb].
    destruct Hb as (H1 & H2 & H3 & H4). repeat split; trivial; try apply H4. congruence.
  - apply tl_ok_bind with (Q := fun _ s' => undisturbed s0 s').
    { unfold B.lift. destruct st; cbn [B.log modify tl_ok]; (split; [reflexivity |]); exact H. }
    intros _ s1 H1.
    apply tl_ok_bind
      with (Q := fun r s' => undisturbed s0 s' /\ forall d, r = Some d -> found_by env st d).
    { now apply find_camera_ok. }
    intros [d | ] s2 [H2 Hf].
    + unfold B.co_bind, B.lift, modify. cbn [B.graft].
      eapply tl_ok_weaken;
        [| | apply (establish_ok (B.address d) st env s0 (B.set_device_name (B.name d) s2))];
        trivial.
      intros b s' [Hq Hb]; unfold connect_post; split; trivial.
      destruct b; [unfold connected_to; rewrite E | exact Hb].
      destruct Hb as (H3 & H4 & H5 & H6). repeat split; trivial; try apply H6.
      exists d. auto.
    + cbn. split; trivial. split; apply H2.
Qed.

Lemma ble_connect_outcome (fuel : nat) (addr : option string) (st : option millis)
  (env : B.connect_env) (s : B.t) :
  match B.connect fuel addr st env s with
  | Returned b s' =>
      filter is_task_cancel (B.trace s') = filter is_task_cancel (B.trace s)
      /\ (if b
          then connected_to s addr st env s' /\ B.bleak_installed env = true
               /\ B.tasks_abandoned s' = B.tasks_abandoned s
          else B.is_connected s' = B.is_connected s)
      /\ (forall t, st = Some t -> (B.clock s' <= B.clock s + 100 + (t + 20000))%N)
      /\ (B.tasks_abandoned s' = B.tasks_abandoned s
          \/ (b = false /\ B.tasks_abandoned s' = S (B.tasks_abandoned s)
              /\ exists t, st = Some t /\ B.clock s' = (B.clock s + 100 + (t + 20000))%N))
  | Raised _ _ => False
  | Blocked _ | Out_of_fuel _ => st = None
  end.
Proof.
  destruct (B.bleak_installed env) eqn:Ebi, (B.loop_ready env) eqn:Elr.
  all: destruct s as [lg ic rc da dn cl el bt cf df pt dc tr ck rl tcn lcn ab].
  all: destruct st as [t | ].
  all: run_prefix; rewrite Ebi; run_prefix; rewrite ?Elr; run_prefix.
  all: try destruct el as [l | ]; run_prefix.
  all: try (cbn [existsb]; rewrite Nat.eqb_refl; cbn [orb]).
  all: try destruct (existsb (Nat.eqb l) rl).
  all: try match goal with
    | |- context [B.run_until ?b (?X ?s2)] =>
        let H := fresh "H" in
        let strict := eval cbn in (Py.is_some b) in
        let st := lazymatch goal with |- context [connected_to _ _ ?st _ _] => st end in
        assert (H : tl_ok strict (B.clock s2) (B.set_trace tr s2)
                      (connect_post (B.set_trace tr s2) addr st env) (X s2))
          by (lazymatch X with
              | B._async_connect ?f ?a ?st ?e =>
                  apply (async_connect_ok f a st e (B.set_trace tr s2) s2); [| reflexivity]
              | _ => apply never_run_ok
              end;
              unfold undisturbed, quiet_trace; simpl_ble; solve_quiet);
        (apply (run_until_ok _ _ _ b _ _
                  (match b with Some x => B.clock s2 + x | None => 0 end)%N) in H;
         [| destruct b; reflexivity ]);
        (destruct (B.run_until b (X s2)) as [r s' | e s' | s' | s'];
         [ | destruct e | | ])
    end.
  all: run_prefix.
  all: try match goal with s' : B.t |- _ => fold_ble s' end.
  all: unfold connect_post, quiet_trace, undisturbed in *; simpl_ble_in_all.
  all: try match goal with r : bool |- _ => destruct r end.
  all: repeat match goal with
         | H : _ /\ _ |- _ => destruct H
         | H : Py.is_some (Some _) = true -> _ |- _ => specialize (H eq_refl)
         | H : Py.is_some None = true -> _ |- _ => clear H
         end.
  all: try discriminate.
  all: try reflexivity.
  all: repeat match goal with |- _ /\ _ => split end.
  all: try assumption.
  all: try (rewrite ?filter_app; cbn [filter is_task_cancel app]; rewrite ?app_nil_r;
            first [ assumption | reflexivity ]).
  all: try (intros t0 Ht0; first [ discriminate | injection Ht0 as <-; lia ]).
  all: try (left; first [ assumption | reflexivity | lia ]).
  all: try match goal with
         | H : _ \/ _ |- _ =>
             destruct H as [H | (H & H' & H'')];
             [ left; exact H
             | first [ discriminate
                     | right; split; [reflexivity |]; split; [exact H |];
                       eexists; split; [reflexivity | lia ] ] ]
         end.
Qed.


(** ** The indefinite scan *)

(** C6: the indefinite scan ([scan_timeout = None]) of the BLE transport.
    An advertisement matches when one of its service identifiers equals
    [SERVICE_UUID] up to the case of its letters.  Whatever the radio does,
    a scan that returns returns a device that was advertised with the
    service, never the not-found result.  As long as no advertisement
    matches, every attempt polls for exactly 50 sleeps of 100 ms (5 s) and
    the scan goes on: after [n] such attempts it has not returned, has slept
    [50 * n] times, and has logged the "still scanning" notice for the
    attempts 2 to [n] and not for the first.  When the first match arrives
    during sleep number [k] (counted from 0) of attempt [n + 1], the scan
    stops polling with that sleep ([k + 1] sleeps in the attempt, not 50)
    and returns that device. *)
Theorem indefinite_scan (env : B.connect_env) (s : B.t) :
  (forall adv, B.advertises_service adv = true <-> service_listed adv)
  /\ (forall fuel r s',
         B.outcome (B._find_camera fuel None env s) = Returned r s' ->
         exists d, r = Some d /\ advertised env d)
  /\ (forall n,
         (forall i, (1 <= i <= n)%nat -> calm env i /\ quiet env i) ->
         B.outcome (B._find_camera n None env s) = Out_of_fuel (after_quiet env n s)
         /\ B.logger (after_quiet env n s) = B.logger s ++ notices n
         /\ sleeps (B.trace (after_quiet env n s)) = (sleeps (B.trace s) + 50 * n)%nat
         /\ B.clock (after_quiet env n s)
            = (B.clock s + 5000 * N.of_nat n + overhead env n)%N)
  /\ (forall n k d fuel,
         (forall i, (1 <= i <= S n)%nat -> calm env i) ->
         (forall i, (1 <= i <= n)%nat -> quiet env i) ->
         (k < 50)%nat ->
         first_seen env (S n) k d ->
         (n < fuel)%nat ->
         B.outcome (B._find_camera fuel None env s)
         = Returned (Some d) (found_attempt env (S n) k d (after_quiet env n s))
         /\ B.logger (found_attempt env (S n) k d (after_quiet env n s))
            = B.logger s ++ notices (S n) ++ [(INFO, BLE_Found (B.name d) (B.address d))]
         /\ sleeps (B.trace (found_attempt env (S n) k d (after_quiet env n s)))
            = (sleeps (B.trace s) + 50 * n + (k + 1))%nat
         /\ B.clock (found_attempt env (S n) k d (after_quiet env n s))
            = (B.clock s + 5000 * N.of_nat n + 100 * N.of_nat (k + 1)
               + overhead env (S n))%N).
Proof.
  split; [exact advertises_service_listed |].
  split; [| split].
  - intros fuel r s' H.
    pose proof (outcome_ok false s _ _ (B.clock s)
                  (scan_attempts_ok env s fuel 0 s (undisturbed_refl s))) as Hok.
    cbn [B._find_camera] in H. rewrite H in Hok. apply Hok.
  - intros n H. cbn [B._find_camera].
    split; [| apply after_quiet_facts].
    replace n with (n + 0)%nat at 1 by lia.
    now rewrite scan_quiet_run.
  - intros n k d fuel Hcalm Hquiet Hk Hseen Hfuel. cbn [B._find_camera].
    destruct (found_attempt_facts env (S n) k d (after_quiet env n s)) as (Hl & Hs & Hc).
    destruct (after_quiet_facts env s n) as (Hl' & Hs' & Hc').
    split; [| split; [| split]].
    + replace fuel with (n + S (fuel - S n))%nat by lia.
      rewrite scan_quiet_run by (intros i Hi; split; [apply Hcalm; lia | now apply Hquiet]).
      apply attempt_found; trivial. apply Hcalm. lia.
    + rewrite Hl, Hl', notices_S. now rewrite <- !app_assoc.
    + rewrite Hs, Hs'. lia.
    + rewrite Hc, Hc'. cbn [overhead]. lia.
Qed.

(** The camera that shows up in the 5th sleep of the third attempt is found
    after 105 sleeps. *)
Lemma indefinite_scan_third_window :
  B.outcome (B._find_camera 3 None camera_nearby B.init)
  = Returned (Some camera) (found_attempt camera_nearby 3 4 camera (after_quiet camera_nearby 2 B.init))
  /\ B.logger (found_attempt camera_nearby 3 4 camera (after_quiet camera_nearby 2 B.init))
     = B.logger B.init ++ notices 3 ++ [(INFO, BLE_Found (B.name camera) (B.address camera))]
  /\ sleeps (B.trace (found_attempt camera_nearby 3 4 camera (after_quiet camera_nearby 2 B.init)))
     = (sleeps (B.trace B.init) + 50 * 2 + (4 + 1))%nat
  /\ B.clock (found_attempt camera_nearby 3 4 camera (after_quiet camera_nearby 2 B.init))
     = (B.clock B.init + 5000 * N.of_nat 2 + 100 * N.of_nat (4 + 1)
        + overhead camera_nearby 3)%N.
Proof.
  apply (proj2 (proj2 (proj2 (indefinite_scan camera_nearby B.init)))).
  - intros i _. split; exists 0%N; reflexivity.
  - intros i Hi ph. destruct i as [| [| [| i]]]; try lia; reflexivity.
  - lia.
  - split; [reflexivity |]. split; [| reflexivity].
    intros j Hj. destruct j as [| [| [| [| j]]]]; try lia; reflexivity.
  - lia.
Defined.

(** ** Connecting *)

(** C1 does not hold of the BLE transport: a BLE transport that is
    connected and on which [connect] is called again and fails (the camera
    refuses) gets false, and its [is_connected] is still true.  No path of
    [BLETransport.connect] clears the flag, which [WiFiTransport.connect]
    does in its handler. *)
Lemma failed_ble_connect_stays_connected :
  B.is_connected ble_connected = true
  /\ returned (B.connect 0 (Some "AA:BB:CC:DD:EE:FF") (Some 3000%N) camera_refuses ble_connected)
     = Some false
  /\ B.is_connected
       (final_state
          (B.connect 0 (Some "AA:BB:CC:DD:EE:FF") (Some 3000%N) camera_refuses ble_connected))
     = true.
Proof. repeat split; vm_compute; reflexivity. Qed.

(** The sibling path: on a connected socket transport a [connect] that
    fails returns false and clears [is_connected]. *)
Lemma failed_wifi_connect_disconnects :
  W.is_connected wifi_connected = true
  /\ returned (W.connect W.DEFAULT_HOST W.DEFAULT_PORT wifi_refused wifi_connected) = Some false
  /\ W.is_connected
       (final_state (W.connect W.DEFAULT_HOST W.DEFAULT_PORT wifi_refused wifi_connected))
     = false.
Proof. repeat split; vm_compute; reflexivity. Qed.

(** A [connect] that gives up its wait returns false while its task goes
    on: the camera enables notifications 22 s after it accepted the
    connection, the wait of [connect] ends after the 23 s it allows and
    [connect] returns false on an instance that is not connected, 23.1 s
    after the call; the task, left running on the event loop, sets
    [is_connected] 0.5 s later. *)
Lemma abandoned_connect_task_connects :
  returned (B.connect 0 (Some "AA:BB:CC:DD:EE:FF") (Some 3000%N) (camera_slow 22000%N) B.init)
  = Some false
  /\ B.is_connected
       (final_state
          (B.connect 0 (Some "AA:BB:CC:DD:EE:FF") (Some 3000%N) (camera_slow 22000%N) B.init))
     = false
  /\ B.clock
       (final_state
          (B.connect 0 (Some "AA:BB:CC:DD:EE:FF") (Some 3000%N) (camera_slow 22000%N) B.init))
     = 23100%N
  /\ final_state
       (B.connect 0 (Some "AA:BB:CC:DD:EE:FF") (Some 3000%N) (camera_slow 22000%N) B.init)
     = final_state
         (B.log ERROR (BLE_Connection_failed TimeoutError)
            (final_state
               (B.run_until (Some 23000%N)
                  (B._async_connect 0 (Some "AA:BB:CC:DD:EE:FF") (Some 3000%N)
                     (camera_slow 22000%N)
                     (waiting_for_task Async_connect (Some 23000%N) B.init)))))
  /\ returned
       (B.outcome
          (B._async_connect 0 (Some "AA:BB:CC:DD:EE:FF") (Some 3000%N) (camera_slow 22000%N)
             (waiting_for_task Async_connect (Some 23000%N) B.init)))
     = Some true
  /\ B.is_connected
       (final_state
          (B.outcome
             (B._async_connect 0 (Some "AA:BB:CC:DD:EE:FF") (Some 3000%N) (camera_slow 22000%N)
                (waiting_for_task Async_connect (Some 23000%N) B.init))))
     = true
  /\ B.clock
       (final_state
          (B.outcome
             (B._async_connect 0 (Some "AA:BB:CC:DD:EE:FF") (Some 3000%N) (camera_slow 22000%N)
                (waiting_for_task Async_connect (Some 23000%N) B.init))))
     = 23600%N.
Proof.
  repeat (split; [vm_compute; reflexivity |]). vm_compute. reflexivity.
Qed.

(** What [connect] has done when it returns: it never raises; on the socket
    transport it returns true only if creating the socket, setting its
    timeout and connecting all succeeded, and when it returns false the
    socket handle is cleared and [is_connected] is false; on the BLE
    transport it returns true only if bleak could be imported and the camera
    accepted the connection and the notifications, and when it returns false
    [is_connected] is, at that moment, what it was before the call; without
    a scan time-out the call may also never return. *)
Lemma connect_failure :
  (forall host port env w,
      match W.connect host port env w with
      | Returned true w' =>
          W.is_connected w' = true
          /\ (exists sock, W.socket_socket env = inl sock)
          /\ W.socket_settimeout env = None /\ W.socket_connect env = None
      | Returned false w' => W.is_connected w' = false /\ W.socket w' = None
      | _ => False
      end)
  /\ (forall fuel addr st env s,
         match B.connect fuel addr st env s with
         | Returned true s' =>
             B.is_connected s' = true /\ B.bleak_installed env = true /\ link_ok env
         | Returned false s' => B.is_connected s' = B.is_connected s
         | Raised _ _ => False
         | Blocked _ | Out_of_fuel _ => st = None
         end).
Proof.
  split.
  - intros host port env w. pose proof (wifi_connect_outcome host port env w) as H.
    destruct (W.connect host port env w) as [[|] w' | | |]; trivial.
    destruct H as (H1 & _ & _ & (sock & H2 & _) & H3 & H4). eauto.
  - intros fuel addr st env s. pose proof (ble_connect_outcome fuel addr st env s) as H.
    destruct (B.connect fuel addr st env s) as [[|] s' | | |]; trivial.
    + destruct H as (_ & ((H1 & H2 & _) & H3 & _) & _). auto.
    + apply H.
Qed.

(** C5 as the claim states it fails: with [scan_timeout] = 3 s and a camera
    that never answers the request for notifications, [connect] returns
    false after 23.1 s, more than [scan_timeout + 20] s. *)
Lemma connect_blocks_longer_than_bound :
  returned (B.connect 0 (Some "AA:BB:CC:DD:EE:FF") (Some 3000%N) camera_silent B.init)
  = Some false
  /\ B.clock B.init = 0%N
  /\ B.clock
       (final_state
          (B.connect 0 (Some "AA:BB:CC:DD:EE:FF") (Some 3000%N) camera_silent B.init))
     = 23100%N.
Proof. repeat split; vm_compute; reflexivity. Qed.

Lemma connect_slow_camera (fuel : nat) (d : millis) :
  exists s',
    B.connect fuel (Some "AA:BB:CC:DD:EE:FF") None (camera_slow d) B.init = Returned true s'
    /\ B.clock s' = (1600 + d)%N.
Proof. eexists. split; vm_compute; reflexivity. Qed.

Lemma connect_silent_camera (fuel : nat) :
  exists s',
    B.connect fuel (Some "AA:BB:CC:DD:EE:FF") None camera_silent B.init = Blocked s'.
Proof. eexists. vm_compute. reflexivity. Qed.

(** C5, amended: with a finite [scan_timeout], [connect] of the BLE
    transport sleeps 0.1 s and then waits for the connection task at most
    [scan_timeout + 20] s, so it returns within [scan_timeout + 20.1] s;
    when that wait expires it returns false and the task is left running
    (it is counted as abandoned, and no cancellation is issued); with
    [scan_timeout = None] the wait is never given up: a camera that answers
    after [d] ms makes [connect] return true after more than [d] ms,
    whatever [d] is, and one that never answers makes it block for ever. *)
Theorem connect_wait_bound (fuel : nat) (addr : option string) (env : B.connect_env)
  (s : B.t) :
  (forall t,
      match B.connect fuel addr (Some t) env s with
      | Returned r s' =>
          (B.clock s' <= B.clock s + 100 + (t + 20000))%N
          /\ filter is_task_cancel (B.trace s') = filter is_task_cancel (B.trace s)
          /\ (B.tasks_abandoned s' = B.tasks_abandoned s
              \/ (r = false
                  /\ B.tasks_abandoned s' = S (B.tasks_abandoned s)
                  /\ B.clock s' = (B.clock s + 100 + (t + 20000))%N))
      | _ => False
      end)
  /\ match B.connect fuel addr None env s with
     | Returned r s' =>
         B.tasks_abandoned s' = B.tasks_abandoned s
         /\ filter is_task_cancel (B.trace s') = filter is_task_cancel (B.trace s)
     | Raised _ _ => False
     | Blocked _ | Out_of_fuel _ => True
     end
  /\ (forall d, exists s',
         B.connect fuel (Some "AA:BB:CC:DD:EE:FF") None (camera_slow d) B.init
         = Returned true s'
         /\ B.clock s' = (1600 + d)%N)
  /\ (exists s',
         B.connect fuel (Some "AA:BB:CC:DD:EE:FF") None camera_silent B.init = Blocked s').
Proof.
  split; [| split; [| split]].
  - intros t. pose proof (ble_connect_outcome fuel addr (Some t) env s) as H.
    destruct (B.connect fuel addr (Some t) env s) as [r s' | | |]; try discriminate; trivial.
    destruct H as (Hc & _ & Hclock & Hab). split; [now apply Hclock |]. split; trivial.
    destruct Hab as [Hab | (Hr & Hab & t' & Ht & Hck)]; [now left | right].
    injection Ht as <-. auto.
  - pose proof (ble_connect_outcome fuel addr None env s) as H.
    destruct (B.connect fuel addr None env s) as [r s' | | |]; trivial.
    destruct H as (Hc & _ & _ & Hab). split; trivial.
    destruct Hab as [Hab | (_ & _ & t' & Ht & _)]; [trivial | discriminate].
  - intros d. apply connect_slow_camera.
  - apply connect_silent_camera.
Qed.

(** ** [connection_info] *)




(** * Further properties of the code *)

(** ** The factory *)

Lemma in_all_ascii (c : ascii) : In c all_ascii.
Proof.
  unfold all_ascii. rewrite <- (ascii_nat_embedding c). apply in_map.
  apply in_seq. pose proof (nat_ascii_bounded c). lia.
Qed.

Lemma lower_ascii_letter (c k : ascii) :
  is_capital k = false -> Ascii.eqb (Py.lower_ascii c) k = same_letter c k.
Proof.
  assert (H : forallb (fun c => forallb (fun k =>
                 is_capital k || Bool.eqb (Ascii.eqb (Py.lower_ascii c) k) (same_letter c k))
                 all_ascii) all_ascii = true) by (vm_compute; reflexivity).
  rewrite forallb_forall in H. specialize (H c (in_all_ascii c)).
  rewrite forallb_forall in H. specialize (H k (in_all_ascii k)).
  intros Hk. rewrite Hk in H. cbn [orb] in H. now apply Bool.eqb_prop.
Qed.

Lemma lower_ascii_no_capital (c : ascii) : is_capital (Py.lower_ascii c) = false.
Proof.
  assert (H : forallb (fun c => negb (is_capital (Py.lower_ascii c))) all_ascii = true)
    by (vm_compute; reflexivity).
  rewrite forallb_forall in H. specialize (H c (in_all_ascii c)).
  now apply negb_true_iff.
Qed.

Lemma spells_lower (t : string) :
  forall word, no_capital word = true -> spells t word = String.eqb (Py.lower t) word.
Proof.
  induction t as [| c t IH]; intros [| k word] Hw; cbn [spells Py.lower String.eqb]; trivial.
  cbn [no_capital] in Hw. apply andb_prop in Hw. destruct Hw as [Hk Hw].
  apply negb_true_iff in Hk.
  now rewrite (lower_ascii_letter c k Hk), (IH word Hw).
Qed.

Lemma lower_no_capital (t : string) : no_capital (Py.lower t) = true.
Proof.
  induction t as [| c t IH]; cbn [Py.lower no_capital]; [reflexivity |].
  now rewrite lower_ascii_no_capital, IH.
Qed.

(** X1: on a transport type of ASCII characters, [create_transport] decides
    by the letters and not by their case.  It returns a new socket transport
    exactly when the type spells "wifi" in small or capital letters, a new
    BLE transport exactly when it spells "ble", and otherwise raises
    [ValueError] with a message that quotes the type with its capital
    letters made small, not the type as it was given. *)
Theorem create_transport_ignores_case (t : string) :
  isascii t = true ->
  match F.create_transport t with
  | inl (F.WiFi w) => spells t "wifi" = true /\ w = W.init
  | inl (F.BLE b) => spells t "ble" = true /\ b = B.init
  | inr (F.ValueError msg) =>
      spells t "wifi" = false /\ spells t "ble" = false
      /\ exists low,
           msg = ("Unsupported transport type: " ++ low)%string
           /\ spells t low = true /\ no_capital low = true
  end.
Proof.
  intros _. unfold F.create_transport.
  rewrite <- (spells_lower t "wifi"), <- (spells_lower t "ble") by reflexivity.
  destruct (spells t "wifi") eqn:E1; [now split |].
  destruct (spells t "ble") eqn:E2; [now split |].
  split; [reflexivity |]. split; [reflexivity |].
  exists (Py.lower t). split; [reflexivity |].
  split; [| apply lower_no_capital].
  rewrite spells_lower by apply lower_no_capital. apply String.eqb_refl.
Qed.

Lemma create_transport_ignores_case_of_WiFi :
  match F.create_transport "WiFi" with
  | inl (F.WiFi w) => spells "WiFi" "wifi" = true /\ w = W.init
  | inl (F.BLE b) => spells "WiFi" "ble" = true /\ b = B.init
  | inr (F.ValueError msg) =>
      spells "WiFi" "wifi" = false /\ spells "WiFi" "ble" = false
      /\ exists low,
           msg = ("Unsupported transport type: " ++ low)%string
           /\ spells "WiFi" low = true /\ no_capital low = true
  end.
Proof.
  apply (create_transport_ignores_case "WiFi"). reflexivity.
Defined.

(** ** The socket transport, method by method *)

(** Runs a method body on an explicit state, down to the record of its
    fields. *)
Ltac run_w :=
  lazy beta iota zeta delta
    [W.connect W.disconnect W.send W.start_receiving W.stop_receiving W._poll_and_receive
     W._poll_and_receive_pass W.call W.pass_of
     W.receive_thread W.new_socket W.new_thread W.thread_start W.thread_join W.is_alive
     W.attempt W.emit W.log W.blocked_for
     modify get bind ret raise try_except final_state returned
     W.set_logger W.set_is_connected W.set_receive_callback W.set_host W.set_port
     W.set_socket W.set_rcv_thread W.set_rcv_buffer W.set_stop_receiving_flag
     W.set_trace W.set_clock W.set_alive W.set_threads_created
     W.logger W.is_connected W.receive_callback W.host W.port W.socket W.rcv_thread
     W.rcv_buffer W.stop_receiving_flag W.trace W.clock W.alive W.threads_created
     W.socket_socket W.socket_settimeout W.socket_connect
     W.join W.socket_shutdown W.socket_close
     W.poll W.recv W.callback_raises W.events W.received W.callback_exn
     W.SOCKET_TIMEOUT_SEC
     is_Exception any_exception Py.is_some Py.truthy_bytes negb orb andb fst snd].

Lemma same_fields_refl (w : W.t) : same_fields w w.
Proof. reflexivity. Qed.

Lemma same_fields_trans (w w1 w2 : W.t) :
  same_fields w w1 -> same_fields w1 w2 -> same_fields w w2.
Proof. unfold same_fields. congruence. Qed.

Lemma same_fields_eq (w w' : W.t) :
  same_fields w w' ->
  W.is_connected w' = W.is_connected w /\ W.socket w' = W.socket w
  /\ W.receive_callback w' = W.receive_callback w
  /\ W.stop_receiving_flag w' = W.stop_receiving_flag w.
Proof.
  intros H. repeat split.
  - exact (f_equal W.is_connected H).
  - exact (f_equal W.socket H).
  - exact (f_equal W.receive_callback H).
  - exact (f_equal W.stop_receiving_flag H).
Qed.

(** X2: [send] of the socket transport always returns, whatever [sendall]
    raises.  It returns true exactly when the instance holds a socket, is
    connected and [sendall] does not raise.  When the instance holds a socket and is connected the
    whole buffer is handed to [sendall], once; otherwise nothing is asked of
    the socket.  A [sendall] that raises is logged as an error; apart from
    the log no field of the instance changes. *)
Theorem wifi_send_outcome (data : Py.bytes) (sendall : option string) (w : W.t) :
  exists w',
    W.send data sendall w
    = Returned (Py.is_some (W.socket w) && W.is_connected w && negb (Py.is_some sendall)) w'
    /\ same_fields w w'
    /\ W.trace w'
       = W.trace w ++ match W.socket w with
                      | Some sock => if W.is_connected w then [Socket_sendall sock data] else []
                      | None => []
                      end
    /\ W.logger w'
       = W.logger w ++ match W.socket w, sendall with
                       | Some _, Some msg =>
                           if W.is_connected w
                           then [(ERROR, WiFi_Send_failed (Error msg))]
                           else []
                       | _, _ => []
                       end.
Proof.
  destruct w as [lg ic rc h p [sock | ] rt rb fl tr ck al tc];
    [destruct ic, sendall as [msg | ] |];
    unfold W.send; run_wifi; eexists;
    (split; [reflexivity |]); (split; [reflexivity |]);
    cbn; rewrite ?app_nil_r; split; reflexivity.
Qed.

(** X3: [connect] of the socket transport always returns, whatever the
    socket raises, and returns true exactly when the socket could be
    created, given its timeout and connected.  The timeout of 5 s is set on the new socket before the
    connection is attempted, and each of the three operations is attempted
    only when the one before it succeeded.  [connect] never shuts down or
    closes a socket, so a handle the instance held before is dropped as it
    is.  The host and the port are stored whether the connection succeeds or
    not, and the receive thread, the registered callback and the stop flag
    are left as they were. *)
Theorem wifi_connect_sequence (host : string) (port : Z) (env : W.connect_env) (w : W.t) :
  exists b w',
    W.connect host port env w = Returned b w'
    /\ (b = true <-> reachable env)
    /\ W.trace w' = W.trace w ++ connect_ops host port env
    /\ (forall e, In e (connect_ops host port env) -> is_socket_release e = false)
    /\ W.host w' = Some host /\ W.port w' = Some port
    /\ W.rcv_thread w' = W.rcv_thread w /\ W.alive w' = W.alive w
    /\ W.receive_callback w' = W.receive_callback w
    /\ W.stop_receiving_flag w' = W.stop_receiving_flag w.
Proof.
  assert (Hops : forall e, In e (connect_ops host port env) -> is_socket_release e = false).
  { unfold connect_ops.
    destruct (W.socket_socket env) as [sock | msg], (W.socket_settimeout env) as [m | ];
      cbn [In]; intros e He;
      repeat (destruct He as [<- | He]; [reflexivity |]); contradiction. }
  revert Hops. unfold connect_ops, reachable.
  destruct w as [lg ic rc h p so rt rb fl tr ck al tc].
  destruct env as [[sock | msg] [m1 | ] [m2 | ]]; intros Hops;
    unfold W.connect, W.new_socket; run_wifi.
  all: eexists; eexists; (split; [reflexivity |]).
  all: cbn.
  all: (split; [split; [intros E | intros (E1 & E2 & E3)]; try discriminate; eauto |]).
  all: try (destruct E1 as [x E1]; discriminate).
  all: rewrite <- ?app_assoc; cbn.
  all: repeat split; trivial.
Qed.

(** X4: [disconnect] of the socket transport always returns, whatever the
    shutdown and the close raise.  It first joins
    the receive thread, if one is tracked, waiting at most 2 s, then shuts
    the socket down, if one is held, and closes it; the close is attempted
    only when the shutdown did not raise.  The host, the port and the
    registered callback are kept.  A second [disconnect] asks nothing more
    of the operating system and does not wait. *)
Theorem wifi_disconnect_sequence (env : W.disconnect_env) (w : W.t) :
  exists w',
    W.disconnect env w = Returned tt w'
    /\ W.trace w'
       = W.trace w
         ++ match W.rcv_thread w with Some th => [Thread_join th 2000%N] | None => [] end
         ++ match W.socket w with Some sock => release_ops sock env | None => [] end
    /\ (W.clock w <= W.clock w' <= W.clock w + 2000)%N
    /\ W.host w' = W.host w /\ W.port w' = W.port w
    /\ W.receive_callback w' = W.receive_callback w
    /\ (forall env2, exists w'',
           W.disconnect env2 w' = Returned tt w''
           /\ W.trace w'' = W.trace w' /\ W.clock w'' = W.clock w').
Proof.
  destruct w as [lg ic rc h p so rt rb fl tr ck al tc].
  destruct env as [j sd cl].
  unfold release_ops.
  destruct rt as [th | ], so as [sock | ], sd as [m1 | ], cl as [m2 | ];
    run_w.
  all: try (destruct (existsb (Nat.eqb th) al); run_w).
  all: try (destruct j as [d | ]; run_w).
  all: try (destruct (N.leb_spec d 2000); run_w).
  all: eexists; (split; [reflexivity |]).
  all: run_w.
  all: rewrite <- ?app_assoc, ?app_nil_r; cbn [app].
  all: (split; [reflexivity |]).
  all: (split; [lia |]).
  all: repeat (split; [reflexivity |]).
  all: intros env2; eexists; (split; [reflexivity |]); run_w; split; reflexivity.
Qed.

(** *** Receiving *)

Lemma wifi_poll_pass (env : W.poll_env) (w : W.t) (sock : fd) :
  W.socket w = Some sock ->
  exists r w',
    W._poll_and_receive env w = Returned r w'
    /\ same_fields w w'
    /\ filter is_socket_poll (W.trace w')
       = filter is_socket_poll (W.trace w) ++ [Socket_poll sock 100%N]
    /\ filter is_callback (W.trace w')
       = filter is_callback (W.trace w)
         ++ match W.receive_callback w, chunk sock env with
            | Some cb, Some d => [Callback cb d]
            | _, _ => []
            end
    /\ (r = true ->
        exists evs d,
          W.poll env = inl evs /\ existsb (W.readable sock) evs = true
          /\ W.recv env = inl d)
    /\ (peer_closed sock env ->
        r = true /\ W.logger w' = W.logger w
        /\ W.trace w' = W.trace w ++ closed_pass sock).
Proof.
  destruct w as [lg ic rc h p so rt rb fl tr ck al tc]. cbn [W.socket].
  intros ->.
  unfold chunk, peer_closed, closed_pass, same_fields.
  destruct env as [[evs | msg] [data | msg'] craise]; run_w.
  all: try destruct (existsb (W.readable sock) evs) eqn:Er; run_w.
  all: try destruct rc as [cb | ]; run_w.
  all: try destruct data as [| b data]; run_w.
  all: try destruct craise as [m | ]; run_w.
  all: eexists; eexists; (split; [reflexivity |]); run_w.
  all: (split; [reflexivity |]).
  all: rewrite ?filter_app; cbn [filter is_socket_poll is_callback app]; rewrite ?app_nil_r.
  all: rewrite <- ?app_assoc; cbn [app].
  all: (split; [reflexivity |]).
  all: (split; [reflexivity |]).
  all: (split; [intros E; try discriminate; eauto |]).
  all: intros (evs0 & E1 & E2 & E3); try discriminate.
  all: try (injection E1 as <-); try congruence.
  all: repeat split; reflexivity.
Qed.

Lemma wifi_loop_run (sock : fd) (envs : list W.poll_env) :
  forall w,
    W.stop_receiving_flag w = false -> W.socket w = Some sock ->
    exists w',
      W._receive_loop envs w = Out_of_fuel w'
      /\ same_fields w w'
      /\ filter is_socket_poll (W.trace w')
         = filter is_socket_poll (W.trace w) ++ map (fun _ => Socket_poll sock 100%N) envs
      /\ filter is_callback (W.trace w')
         = filter is_callback (W.trace w)
           ++ match W.receive_callback w with
              | Some cb => map (Callback cb) (chunks sock envs)
              | None => []
              end
      /\ (Forall (peer_closed sock) envs ->
          W.logger w' = W.logger w
          /\ W.trace w' = W.trace w ++ flat_map (fun _ => closed_pass sock) envs).
Proof.
  induction envs as [| env rest IH]; intros w Hflag Hsock.
  - exists w. cbn [W._receive_loop]. unfold bind, get. rewrite Hflag, Hsock.
    cbn [negb andb Py.is_some map chunks flat_map]. rewrite !app_nil_r.
    split; [reflexivity |]. split; [apply same_fields_refl |].
    destruct (W.receive_callback w); cbn [map]; rewrite ?app_nil_r; auto.
  - destruct (wifi_poll_pass env w sock Hsock) as (r & w1 & Hrun & Hsame & Hpoll & Hcb & _ & Hclosed).
    destruct (same_fields_eq w w1 Hsame) as (_ & Hs1 & Hc1 & Hf1).
    set (w2 := if negb r then W.set_trace (W.trace w1 ++ [Sleep 100%N]) w1 else w1).
    assert (Hsame2 : same_fields w1 w2) by (subst w2; destruct r; reflexivity).
    destruct (same_fields_eq w1 w2 Hsame2) as (_ & Hs2 & Hc2 & Hf2).
    destruct (IH w2) as (w' & Hloop & Hsame' & Hpoll' & Hcb' & Hclosed'); [congruence | congruence |].
    exists w'.
    assert (Ht2 : forall f, f (Sleep 100%N) = false -> filter f (W.trace w2) = filter f (W.trace w1)).
    { intros f Hf. subst w2. destruct r; cbn [negb]; trivial.
      cbn [W.set_trace W.trace]. rewrite filter_app. cbn [filter]. rewrite Hf. apply app_nil_r. }
    split.
    { cbn [W._receive_loop]. unfold bind at 1, get. rewrite Hflag, Hsock.
      cbn [negb andb Py.is_some]. unfold bind at 1. rewrite Hrun.
      unfold bind at 1. subst w2. destruct r; exact Hloop. }
    split; [eapply same_fields_trans; [exact Hsame |]; eapply same_fields_trans; eauto |].
    split; [rewrite Hpoll', Ht2, Hpoll by reflexivity; cbn [map]; now rewrite <- app_assoc |].
    split.
    { rewrite Hcb', Ht2, Hcb by reflexivity. rewrite Hc2, Hc1.
      destruct (W.receive_callback w) as [cb | ]; [| now rewrite !app_nil_r].
      unfold chunks. cbn [flat_map].
      destruct (chunk sock env) as [d | ]; cbn [app map]; rewrite <- ?app_assoc, ?app_nil_r;
        reflexivity. }
    intros Hall. inversion Hall as [| e l He Hl]; subst.
    destruct (Hclosed He) as (-> & Hlog & Htr). cbn [negb] in *. subst w2.
    destruct (Hclosed' Hl) as (Hlog' & Htr').
    split; [congruence |]. rewrite Htr', Htr. cbn [flat_map]. now rewrite <- app_assoc.
Qed.

Lemma poll_and_receive_pass_of (env : W.poll_env) (w : W.t) :
  W._poll_and_receive_pass (W.pass_of env) w = W._poll_and_receive env w.
Proof.
  destruct w as [lg ic rc h p so rt rb fl tr ck al tc].
  destruct env as [[evs | msg] [data | msg'] craise], so as [sock | ]; run_w; try reflexivity.
  all: try destruct (existsb (W.readable sock) evs) eqn:Er; run_w; try reflexivity.
  all: try destruct rc as [cb | ]; run_w; try reflexivity.
  all: try destruct data as [| b data]; run_w; try reflexivity.
  all: try destruct craise as [m | ]; run_w; reflexivity.
Qed.

Lemma receive_loop_passes_of (envs : list W.poll_env) :
  forall w, W._receive_loop_passes (map W.pass_of envs) w = W._receive_loop envs w.
Proof.
  induction envs as [| env rest IH]; intros w; [reflexivity |].
  cbn [map W._receive_loop_passes W._receive_loop]. unfold bind, get. cbn beta.
  destruct (negb (W.stop_receiving_flag w) && Py.is_some (W.socket w)); [| reflexivity].
  rewrite poll_and_receive_pass_of.
  destruct (W._poll_and_receive env w) as [r w1 | | |]; try reflexivity.
  destruct ((if negb r then W.emit (Sleep 100%N) else ret tt) w1); try reflexivity.
  apply IH.
Qed.

Lemma wifi_pass (env : W.pass_env) (w : W.t) (sock : fd) :
  W.socket w = Some sock ->
  exists w',
    final_state (W._poll_and_receive_pass env w) = w'
    /\ same_fields w w'
    /\ filter is_socket_poll (W.trace w')
       = filter is_socket_poll (W.trace w) ++ [Socket_poll sock 100%N]
    /\ filter is_callback (W.trace w')
       = filter is_callback (W.trace w)
         ++ match W.receive_callback w, pass_chunk sock env with
            | Some cb, Some d => [Callback cb d]
            | _, _ => []
            end
    /\ match W._poll_and_receive_pass env w with
       | Returned r _ =>
           r = true ->
           exists evs d,
             W.events env = inl evs /\ existsb (W.readable sock) evs = true
             /\ W.received env = inl d
       | Raised e _ =>
           is_Exception e = false /\ W.callback_exn env = Some e
           /\ W.logger w' = W.logger w
           /\ exists cb d, W.receive_callback w = Some cb /\ pass_chunk sock env = Some d
       | _ => False
       end
    /\ (forall cb d e,
           W.receive_callback w = Some cb -> pass_chunk sock env = Some d ->
           W.callback_exn env = Some e -> is_Exception e = false ->
           W._poll_and_receive_pass env w = Raised e w').
Proof.
  destruct w as [lg ic rc h p so rt rb fl tr ck al tc]. cbn [W.socket].
  intros ->.
  unfold pass_chunk, same_fields.
  destruct env as [[evs | msg] [data | msg'] craise]; run_w.
  all: try destruct (existsb (W.readable sock) evs) eqn:Er; run_w.
  all: try destruct rc as [cb | ]; run_w.
  all: try destruct data as [| b data]; run_w.
  all: try destruct craise as [[] | ]; run_w.
  all: eexists; (split; [reflexivity |]); run_w.
  all: (split; [reflexivity |]).
  all: rewrite ?filter_app; cbn [filter is_socket_poll is_callback app]; rewrite ?app_nil_r.
  all: rewrite <- ?app_assoc; cbn [app].
  all: (split; [reflexivity |]).
  all: (split; [reflexivity |]).
  all: (split; [ try (intros E; try discriminate; eauto; fail);
                 try (repeat split; eauto; fail) |]).
  all: intros cb0 d0 e0 E1 E2 E3 E4; try discriminate.
  all: try (injection E3 as <-); try discriminate.
  all: try reflexivity.
Qed.

Lemma wifi_passes (sock : fd) (envs : list W.pass_env) :
  forallb raises_exceptions_only envs = true ->
  forall w,
    W.stop_receiving_flag w = false -> W.socket w = Some sock ->
    (exists w',
        W._receive_loop_passes envs w = Out_of_fuel w'
        /\ same_fields w w'
        /\ filter is_socket_poll (W.trace w')
           = filter is_socket_poll (W.trace w) ++ map (fun _ => Socket_poll sock 100%N) envs)
    /\ (forall env rest cb d e,
           W.receive_callback w = Some cb -> pass_chunk sock env = Some d ->
           W.callback_exn env = Some e -> is_Exception e = false ->
           exists w',
             W._receive_loop_passes (envs ++ env :: rest) w = Raised e w'
             /\ same_fields w w'
             /\ filter is_socket_poll (W.trace w')
                = filter is_socket_poll (W.trace w)
                  ++ map (fun _ => Socket_poll sock 100%N) (envs ++ [env])).
Proof.
  induction envs as [| env0 envs IH]; intros Hall w Hflag Hsock.
  - split.
    + exists w. cbn [W._receive_loop_passes]. unfold bind, get. rewrite Hflag, Hsock.
      cbn [negb andb Py.is_some map]. rewrite app_nil_r.
      split; [reflexivity |]. split; [apply same_fields_refl | reflexivity].
    + intros env rest cb d e Hcb Hd He Hex.
      destruct (wifi_pass env w sock Hsock) as (w' & _ & Hsame & Hpoll & _ & _ & Hesc).
      exists w'. cbn [app W._receive_loop_passes]. unfold bind, get. rewrite Hflag, Hsock.
      cbn [negb andb Py.is_some]. rewrite (Hesc cb d e Hcb Hd He Hex).
      split; [reflexivity |]. split; [exact Hsame | exact Hpoll].
  - cbn [forallb] in Hall. apply andb_prop in Hall. destruct Hall as [H0 Hall].
    destruct (wifi_pass env0 w sock Hsock) as (w1 & Hfin & Hsame & Hpoll & _ & Hres & _).
    destruct (W._poll_and_receive_pass env0 w) as [r w1' | e w1' | |] eqn:Hrun;
      [| | contradiction | contradiction].
    2: { destruct Hres as (Hex & He & _). unfold raises_exceptions_only in H0.
         rewrite He, Hex in H0. discriminate. }
    cbn [final_state] in Hfin. subst w1'.
    destruct (same_fields_eq w w1 Hsame) as (_ & Hs1 & Hc1 & Hf1).
    set (w2 := if negb r then W.set_trace (W.trace w1 ++ [Sleep 100%N]) w1 else w1).
    assert (Hsame2 : same_fields w1 w2) by (subst w2; destruct r; reflexivity).
    destruct (same_fields_eq w1 w2 Hsame2) as (_ & Hs2 & Hc2 & Hf2).
    assert (Ht2 : filter is_socket_poll (W.trace w2) = filter is_socket_poll (W.trace w1)).
    { subst w2. destruct r; cbn [negb]; trivial.
      cbn [W.set_trace W.trace]. rewrite filter_app. cbn [filter is_socket_poll].
      apply app_nil_r. }
    assert (Hstep : forall rest, W._receive_loop_passes (env0 :: rest) w
                                 = W._receive_loop_passes rest w2).
    { intros rest. cbn [W._receive_loop_passes]. unfold bind at 1, get. rewrite Hflag, Hsock.
      cbn [negb andb Py.is_some]. unfold bind at 1. rewrite Hrun.
      unfold bind at 1. subst w2. now destruct r. }
    destruct (IH Hall w2) as [(w' & Hloop & Hsame' & Hpoll') Hesc]; [congruence | congruence |].
    split.
    + exists w'. rewrite Hstep. split; [exact Hloop |].
      split; [eapply same_fields_trans; [exact Hsame |]; eapply same_fields_trans; eauto |].
      rewrite Hpoll', Ht2, Hpoll. cbn [map]. now rewrite <- app_assoc.
    + intros env rest cb d e Hcb Hd He Hex.
      destruct (Hesc env rest cb d e) as (w'' & Hloop' & Hsame'' & Hpoll''); trivial;
        [congruence |].
      exists w''. cbn [app]. rewrite Hstep. split; [exact Hloop' |].
      split; [eapply same_fields_trans; [exact Hsame |]; eapply same_fields_trans; eauto |].
      rewrite Hpoll'', Ht2, Hpoll. cbn [map app]. now rewrite <- app_assoc.
Qed.

(** X5: one call of [_poll_and_receive] ends in one of two ways.  It
    returns, whatever the poll and the read raise, when the callback returns
    or raises an [Exception].  It raises only when the callback, called with
    bytes read from the socket, raises an exception that is no [Exception]:
    that exception goes through, and nothing is logged.  Either way no field
    of the instance other than the log and the trace has changed, so the
    instance is as connected as before, and the registered callback is
    called at most once, when bytes were read from the instance's own socket
    and there is at least one of them, with exactly those bytes.  The call
    returns true only when the socket was reported readable and the read
    returned. *)
Theorem poll_and_receive_outcome (env : W.pass_env) (w : W.t) :
  same_fields w (final_state (W._poll_and_receive_pass env w))
  /\ filter is_callback (W.trace (final_state (W._poll_and_receive_pass env w)))
     = filter is_callback (W.trace w)
       ++ match W.socket w, W.receive_callback w with
          | Some sock, Some cb =>
              match pass_chunk sock env with Some d => [Callback cb d] | None => [] end
          | _, _ => []
          end
  /\ match W._poll_and_receive_pass env w with
     | Returned r _ =>
         r = true ->
         exists sock evs d,
           W.socket w = Some sock /\ W.events env = inl evs
           /\ existsb (W.readable sock) evs = true /\ W.received env = inl d
     | Raised e w' =>
         is_Exception e = false /\ W.callback_exn env = Some e
         /\ W.logger w' = W.logger w
         /\ exists sock cb d,
              W.socket w = Some sock /\ W.receive_callback w = Some cb
              /\ pass_chunk sock env = Some d
     | Blocked _ | Out_of_fuel _ => False
     end
  /\ (raises_exceptions_only env = true ->
      exists r w', W._poll_and_receive_pass env w = Returned r w')
  /\ (forall env0 : W.poll_env,
         exists r w',
           W._poll_and_receive env0 w = Returned r w'
           /\ W._poll_and_receive_pass (W.pass_of env0) w = Returned r w').
Proof.
  assert (Hmain :
    same_fields w (final_state (W._poll_and_receive_pass env w))
    /\ filter is_callback (W.trace (final_state (W._poll_and_receive_pass env w)))
       = filter is_callback (W.trace w)
         ++ match W.socket w, W.receive_callback w with
            | Some sock, Some cb =>
                match pass_chunk sock env with Some d => [Callback cb d] | None => [] end
            | _, _ => []
            end
    /\ match W._poll_and_receive_pass env w with
       | Returned r _ =>
           r = true ->
           exists sock evs d,
             W.socket w = Some sock /\ W.events env = inl evs
             /\ existsb (W.readable sock) evs = true /\ W.received env = inl d
       | Raised e w' =>
           is_Exception e = false /\ W.callback_exn env = Some e
           /\ W.logger w' = W.logger w
           /\ exists sock cb d,
                W.socket w = Some sock /\ W.receive_callback w = Some cb
                /\ pass_chunk sock env = Some d
       | Blocked _ | Out_of_fuel _ => False
       end).
  { destruct (W.socket w) as [sock | ] eqn:Hsock.
    - destruct (wifi_pass env w sock Hsock) as (w' & Hfin & Hsame & _ & Hcb & Hres & _).
      rewrite Hfin. split; [exact Hsame |]. split.
      + rewrite Hcb. now destruct (W.receive_callback w), (pass_chunk sock env).
      + destruct (W._poll_and_receive_pass env w) as [r w1 | e w1 | |]; trivial.
        * intros E. destruct (Hres E) as (evs & d & H). exists sock, evs, d. tauto.
        * cbn [final_state] in Hfin. subst w1.
          destruct Hres as (H1 & H2 & H3 & cb & d & H4 & H5).
          repeat (split; trivial). exists sock, cb, d. tauto.
    - unfold W._poll_and_receive_pass, bind, get. rewrite Hsock. cbn [ret final_state].
      split; [reflexivity |]. split; [now rewrite app_nil_r | discriminate]. }
  destruct Hmain as (H1 & H2 & H3).
  split; [exact H1 |]. split; [exact H2 |]. split; [exact H3 |].
  assert (Hret : raises_exceptions_only env = true ->
                 exists r w', W._poll_and_receive_pass env w = Returned r w').
  { intros Hok. destruct (W._poll_and_receive_pass env w) as [r w1 | e w1 | |];
      [eauto | | contradiction | contradiction].
    destruct H3 as (Hex & He & _). unfold raises_exceptions_only in Hok.
    rewrite He, Hex in Hok. discriminate. }
  split; [exact Hret |].
  intros env0. rewrite <- poll_and_receive_pass_of.
  clear H1 H2 H3 Hret.
  destruct w as [lg ic rc h p so rt rb fl tr ck al tc].
  destruct env0 as [[evs | msg] [data | msg'] craise], so as [sock | ]; run_w.
  all: try destruct (existsb (W.readable sock) evs) eqn:Er; run_w.
  all: try destruct rc as [cb | ]; run_w.
  all: try destruct data as [| b data]; run_w.
  all: try destruct craise as [m | ]; run_w.
  all: eexists; eexists; split; reflexivity.
Qed.

(** X6: once it runs on an instance with a socket and the stop flag clear,
    the receive loop does not end by itself as long as the callback raises
    nothing but [Exception]s: whatever the polls and the reads do
    (time-outs, errors), after any number of passes it is still running, has
    polled the socket once per pass with a bound of 100 ms, and has left
    every field but the log and the trace as it was; the instance is still
    connected if it was.  A callback that raises an exception that is no
    [Exception] ends the loop, and with it the receive thread, with that
    exception in the pass that called it; the instance is left connected,
    with its socket and the stop flag clear. *)
Theorem receive_loop_keeps_running (envs : list W.pass_env) (w : W.t) (sock : fd) :
  W.stop_receiving_flag w = false -> W.socket w = Some sock ->
  forallb raises_exceptions_only envs = true ->
  (exists w',
      W._receive_loop_passes envs w = Out_of_fuel w'
      /\ same_fields w w'
      /\ W.is_connected w' = W.is_connected w
      /\ W.socket w' = Some sock
      /\ filter is_socket_poll (W.trace w')
         = filter is_socket_poll (W.trace w) ++ map (fun _ => Socket_poll sock 100%N) envs)
  /\ (forall env rest cb d e,
         W.receive_callback w = Some cb -> pass_chunk sock env = Some d ->
         W.callback_exn env = Some e -> is_Exception e = false ->
         exists w',
           W._receive_loop_passes (envs ++ env :: rest) w = Raised e w'
           /\ same_fields w w'
           /\ W.is_connected w' = W.is_connected w
           /\ W.socket w' = Some sock
           /\ W.stop_receiving_flag w' = false
           /\ filter is_socket_poll (W.trace w')
              = filter is_socket_poll (W.trace w)
                ++ map (fun _ => Socket_poll sock 100%N) (envs ++ [env])).
Proof.
  intros Hflag Hsock Hall.
  destruct (wifi_passes sock envs Hall w Hflag Hsock) as [(w' & Hrun & Hsame & Hpoll) Hesc].
  split.
  - destruct (same_fields_eq w w' Hsame) as (Hc & Hs & _).
    exists w'. split; [exact Hrun |]. split; [exact Hsame |].
    split; [exact Hc |]. split; [congruence | exact Hpoll].
  - intros env rest cb d e Hcb Hd He Hex.
    destruct (Hesc env rest cb d e Hcb Hd He Hex) as (w'' & Hrun' & Hsame' & Hpoll').
    destruct (same_fields_eq w w'' Hsame') as (Hc & Hs & _ & Hf).
    exists w''. split; [exact Hrun' |]. split; [exact Hsame' |].
    split; [exact Hc |]. split; [congruence |]. split; [congruence | exact Hpoll'].
Qed.

Lemma receive_loop_keeps_running_on_errors :
  (exists w',
      W._receive_loop_passes (map W.pass_of [nothing_to_read; read_fails; data_ready [Byte.x01]])
        wifi_receiving
      = Out_of_fuel w'
      /\ same_fields wifi_receiving w'
      /\ W.is_connected w' = W.is_connected wifi_receiving
      /\ W.socket w' = Some 7%Z
      /\ filter is_socket_poll (W.trace w')
         = filter is_socket_poll (W.trace wifi_receiving)
           ++ map (fun _ => Socket_poll 7%Z 100%N)
                (map W.pass_of [nothing_to_read; read_fails; data_ready [Byte.x01]]))
  /\ (exists w',
         W._receive_loop_passes
           (map W.pass_of [nothing_to_read; read_fails; data_ready [Byte.x01]]
            ++ callback_interrupted [Byte.x02] :: [W.pass_of (data_ready [Byte.x03])])
           wifi_receiving
         = Raised CancelledError w'
         /\ same_fields wifi_receiving w'
         /\ W.is_connected w' = W.is_connected wifi_receiving
         /\ W.socket w' = Some 7%Z
         /\ W.stop_receiving_flag w' = false
         /\ filter is_socket_poll (W.trace w')
            = filter is_socket_poll (W.trace wifi_receiving)
              ++ map (fun _ => Socket_poll 7%Z 100%N)
                   (map W.pass_of [nothing_to_read; read_fails; data_ready [Byte.x01]]
                    ++ [callback_interrupted [Byte.x02]])).
Proof.
  destruct (receive_loop_keeps_running
              (map W.pass_of [nothing_to_read; read_fails; data_ready [Byte.x01]])
              wifi_receiving 7%Z eq_refl eq_refl eq_refl) as [H1 H2].
  split; [exact H1 |].
  apply (H2 (callback_interrupted [Byte.x02]) [W.pass_of (data_ready [Byte.x03])]
            1 [Byte.x02] CancelledError); reflexivity.
Defined.

(** X7: the receive loop hands the registered callback the bytes it reads,
    in the order of the passes, one call per read of at least one byte, and
    nothing else. *)
Theorem receive_loop_delivers_in_order (envs : list W.poll_env) (w : W.t) (sock : fd)
  (cb : callback) :
  W.stop_receiving_flag w = false -> W.socket w = Some sock ->
  W.receive_callback w = Some cb ->
  filter is_callback (W.trace (final_state (W._receive_loop envs w)))
  = filter is_callback (W.trace w) ++ map (Callback cb) (chunks sock envs).
Proof.
  intros Hflag Hsock Hcb.
  destruct (wifi_loop_run sock envs w Hflag Hsock) as (w' & -> & _ & _ & H & _).
  cbn [final_state]. now rewrite H, Hcb.
Qed.

Lemma receive_loop_delivers_two_chunks :
  filter is_callback
    (W.trace (final_state
       (W._receive_loop
          [data_ready [Byte.x01; Byte.x02]; nothing_to_read; data_ready []; data_ready [Byte.x03]]
          wifi_receiving)))
  = filter is_callback (W.trace wifi_receiving)
    ++ map (Callback 1)
         (chunks 7%Z
            [data_ready [Byte.x01; Byte.x02]; nothing_to_read; data_ready []; data_ready [Byte.x03]]).
Proof.
  apply receive_loop_delivers_in_order; reflexivity.
Defined.

(** X8: a peer that has closed the connection (the socket is readable and
    the read returns no bytes) is not noticed: every pass polls, reads and
    counts as a pass that received data, so the loop goes on without the
    100 ms sleep, calls no callback, logs nothing, and the instance remains
    connected with its socket. *)
Theorem closed_peer_is_polled_on (envs : list W.poll_env) (w : W.t) (sock : fd) :
  W.stop_receiving_flag w = false -> W.socket w = Some sock ->
  Forall (peer_closed sock) envs ->
  exists w',
    W._receive_loop envs w = Out_of_fuel w'
    /\ W.trace w' = W.trace w ++ flat_map (fun _ => closed_pass sock) envs
    /\ W.logger w' = W.logger w
    /\ W.is_connected w' = W.is_connected w
    /\ W.socket w' = Some sock.
Proof.
  intros Hflag Hsock Hall.
  destruct (wifi_loop_run sock envs w Hflag Hsock) as (w' & Hrun & Hsame & _ & _ & Hclosed).
  destruct (same_fields_eq w w' Hsame) as (Hc & Hs & _).
  destruct (Hclosed Hall) as [Hlog Htr].
  exists w'. split; [exact Hrun |]. split; [exact Htr |]. split; [exact Hlog |].
  split; [exact Hc | congruence].
Qed.

Lemma closed_peer_is_polled_on_three_times :
  exists w',
    W._receive_loop [data_ready []; data_ready []; data_ready []] wifi_receiving
    = Out_of_fuel w'
    /\ W.trace w'
       = W.trace wifi_receiving
         ++ flat_map (fun _ => closed_pass 7%Z) [data_ready []; data_ready []; data_ready []]
    /\ W.logger w' = W.logger wifi_receiving
    /\ W.is_connected w' = W.is_connected wifi_receiving
    /\ W.socket w' = Some 7%Z.
Proof.
  apply closed_peer_is_polled_on; try reflexivity.
  repeat constructor; exists [(7%Z, 1%Z)]; repeat split.
Defined.

(** *** Starting and stopping the receive thread *)

Lemma existsb_filter_out (th : nat) (l : list nat) :
  existsb (Nat.eqb th) (filter (fun x => negb (Nat.eqb th x)) l) = false.
Proof.
  induction l as [| x l IH]; cbn [filter existsb]; [reflexivity |].
  destruct (Nat.eqb th x) eqn:E; cbn [negb existsb]; [exact IH |].
  now rewrite E, IH.
Qed.

(** X9: the order of [start_receiving] and [connect] matters on the socket
    transport.  On an instance without a socket, [start_receiving] starts a
    receive thread whose loop, tested before a socket is stored, ends at
    once without a single poll.  A [connect] made after that starts no
    thread, so whether it succeeds or not no receive loop is running when it
    returns. *)
Theorem start_receiving_before_connect (w : W.t) (cb : callback) (envs : list W.poll_env)
  (host : string) (port : Z) (env : W.connect_env) :
  W.socket w = None -> receive_loop_running w = false ->
  exists w1 w2 b w3,
    W.start_receiving cb w = Returned tt w1
    /\ W.receive_thread (W.threads_created w) envs w1 = Returned tt w2
    /\ W.trace w2 = W.trace w ++ [Thread_start (W.threads_created w)]
    /\ W.connect host port env w2 = Returned b w3
    /\ receive_loop_running w3 = false
    /\ filter is_thread_start (W.trace w3) = filter is_thread_start (W.trace w2).
Proof.
  destruct w as [lg ic rc h p so rt rb fl tr ck al tc].
  unfold receive_loop_running. cbn [W.socket W.rcv_thread W.threads_created W.trace].
  intros -> Halive.
  assert (Hstart : match rt with Some th => existsb (Nat.eqb th) al | None => false end = false)
    by (destruct rt; exact Halive).
  clear Halive.
  destruct env as [[sock | msg] [m1 | ] [m2 | ]].
  all: eexists; eexists; eexists; eexists.
  all: (split; [run_w; rewrite Hstart; reflexivity |]).
  all: (split; [unfold W.receive_thread; unfold bind at 1;
                destruct envs; cbn [W._receive_loop]; run_w; reflexivity |]).
  all: (split; [reflexivity |]).
  all: (split; [run_w; reflexivity |]).
  all: run_w; cbn [filter negb Nat.eqb]; rewrite ?Nat.eqb_refl; cbn [negb].
  all: split; [apply existsb_filter_out |].
  all: rewrite ?filter_app; cbn [filter is_thread_start]; rewrite ?app_nil_r; reflexivity.
Qed.

Lemma start_receiving_before_connect_on_new_instance :
  exists w1 w2 b w3,
    W.start_receiving 1 W.init = Returned tt w1
    /\ W.receive_thread (W.threads_created W.init) [data_ready [Byte.x01]] w1 = Returned tt w2
    /\ W.trace w2 = W.trace W.init ++ [Thread_start (W.threads_created W.init)]
    /\ W.connect W.DEFAULT_HOST W.DEFAULT_PORT wifi_reachable w2 = Returned b w3
    /\ receive_loop_running w3 = false
    /\ filter is_thread_start (W.trace w3) = filter is_thread_start (W.trace w2).
Proof.
  apply start_receiving_before_connect; reflexivity.
Defined.

(** X10: [stop_receiving] forgets the receive thread even when the thread
    is still running once the 2 s of the join have passed.  A
    [start_receiving] that follows starts a second thread next to it and
    clears the stop flag, which is the flag the first thread tests: both
    threads are alive and neither is told to stop. *)
Theorem stop_then_start_with_running_thread (w : W.t) (th : thread_id)
  (j : W.join_outcome) (cb : callback) :
  W.rcv_thread w = Some th -> W.is_alive th w = true -> outlives_join j = true ->
  exists w1 w2,
    W.stop_receiving j w = Returned tt w1
    /\ W.start_receiving cb w1 = Returned tt w2
    /\ W.trace w2 = W.trace w ++ [Thread_join th 2000%N; Thread_start (W.threads_created w)]
    /\ W.alive w2 = W.threads_created w :: W.alive w
    /\ W.is_alive th w2 = true
    /\ W.stop_receiving_flag w2 = false.
Proof.
  destruct w as [lg ic rc h p so rt rb fl tr ck al tc].
  unfold W.is_alive. cbn [W.rcv_thread W.alive W.trace W.threads_created].
  intros -> Halive Hj.
  assert (Hd : forall d, j = W.Thread_exits d -> (d <=? 2000)%N = false).
  { intros d ->. cbn in Hj. apply N.ltb_lt in Hj. apply N.leb_gt. exact Hj. }
  destruct j as [d | ]; [specialize (Hd d eq_refl) |]; run_w; rewrite Halive, ?Hd; run_w.
  all: eexists; eexists; (split; [reflexivity |]); run_w.
  all: (split; [reflexivity |]).
  all: rewrite <- ?app_assoc; cbn [app existsb].
  all: rewrite Halive, orb_true_r; repeat split; reflexivity.
Qed.

Lemma stop_then_start_with_running_thread_on_busy_callback :
  exists w1 w2,
    W.stop_receiving W.Thread_keeps_running wifi_receiving = Returned tt w1
    /\ W.start_receiving 2 w1 = Returned tt w2
    /\ W.trace w2
       = W.trace wifi_receiving
         ++ [Thread_join 0 2000%N; Thread_start (W.threads_created wifi_receiving)]
    /\ W.alive w2 = W.threads_created wifi_receiving :: W.alive wifi_receiving
    /\ W.is_alive 0 w2 = true
    /\ W.stop_receiving_flag w2 = false.
Proof.
  apply stop_then_start_with_running_thread; reflexivity.
Defined.

(** ** The BLE transport, method by method *)

(** Runs a method body or a task on an explicit state, down to the record of
    its fields. *)
Ltac run_b :=
  lazy beta iota zeta delta
    [B.connect B.disconnect B.send B._async_send B._async_disconnect B.cancel_tasks
     B.loop_stop B.call_soon_threadsafe B.start_receiving B.stop_receiving
     B._notification_handler
     B.establish B._async_connect B._find_camera B.co_bind B.graft B.co_try_except
     B.rescue B.lift B.co_ret B.await B.bounded B.tick B.abandon B.run_until B.outcome
     B.log B.emit B.sleep B.new_thread B._run_event_loop B.run_coroutine_threadsafe
     B.future_result B.never_run B.thread_join B.future_exception B.is_running
     modify get bind ret raise try_except final_state returned
     B.set_logger B.set_is_connected B.set_receive_callback B.set_device_address
     B.set_device_name B.set_client B.set_event_loop B.set_ble_thread
     B.set__pending_tasks B.set__disconnecting B.set_trace B.set_clock
     B.set_running_loops B.set_threads_created B.set_loops_created B.set_tasks_abandoned
     B.logger B.is_connected B.receive_callback B.device_address B.device_name B.client
     B.event_loop B.ble_thread B._connect_future B._disconnect_future B._pending_tasks
     B._disconnecting B.trace B.clock B.running_loops B.threads_created B.loops_created
     B.tasks_abandoned
     B.bleak_installed B.loop_ready B.discover B.adverts B.scanner_start B.scanner_stop
     B.client_connect B.client_is_connected B.client_start_notify
     B.link_is_connected B.client_stop_notify B.client_disconnect B.join
     B.link_up B.write_gatt_char B.link_up_after
     is_Exception any_exception Py.is_some negb orb andb fst snd].

(** X11: [send] of the BLE transport always returns, whatever the write
    does, and within the 2 s it waits for the write task.  It returns true exactly when the guard
    lets it through with the event loop running, the link is up and the
    camera acknowledges the write within those 2 s; the write then went to
    the WRITE characteristic with the bytes given.  Whatever happens,
    [is_connected] is left as it was.  When the wait expires the task is
    left running, not cancelled, and [send] has blocked for exactly 2 s. *)
Theorem ble_send_outcome (data : Py.bytes) (env : B.send_env) (s : B.t) :
  exists b s',
    B.send data env s = Returned b s'
    /\ (b = true <-> can_send s = true /\ write_in_time env)
    /\ (B.clock s <= B.clock s' <= B.clock s + 2000)%N
    /\ B.is_connected s' = B.is_connected s
    /\ (b = true -> B.trace s' = B.trace s ++ send_ops data s)
    /\ (B.tasks_abandoned s' = B.tasks_abandoned s
        \/ (b = false /\ B.tasks_abandoned s' = S (B.tasks_abandoned s)
            /\ B.clock s' = (B.clock s + 2000)%N)).
Proof.
  destruct s as [lg ic rc da dn cl el bt cf df pt dc tr ck rl tcn lcn ab].
  destruct env as [lu wr lua].
  unfold can_send, write_in_time, send_ops.
  destruct cl as [c | ], ic, el as [l | ], dc; run_b.
  all: repeat (match goal with
               | |- context [existsb (Nat.eqb ?l) ?rl] =>
                   destruct (existsb (Nat.eqb l) rl) eqn:Erun
               | |- context [(?d <=? 2000)%N] => destruct (N.leb_spec d 2000)
               | |- context [if ?b then _ else _] => is_var b; destruct b
               | |- context [match ?x with B.After _ _ => _ | B.Never => _ end] =>
                   is_var x; destruct x as [d [[] | e] | ]
               | |- context [match ?e with ImportError => _ | _ => _ end] =>
                   is_var e; destruct e
               end; run_b).
  all: eexists; eexists; (split; [reflexivity |]); run_b.
  all: (split;
        [split;
         [intros E; try discriminate; repeat split; eauto
         | intros (E1 & E2 & d0 & E3 & E4); try discriminate;
           try (injection E3 as <-; lia) ] |]).
  all: (split; [lia |]).
  all: (split; [reflexivity |]).
  all: (split; [intros E; try discriminate; rewrite <- ?app_assoc; reflexivity |]).
  all: first [left; reflexivity | right; repeat split; reflexivity].
Qed.


(** X13: [disconnect] keeps the client and the handle of the stopped event
    loop, so a [disconnect] on an instance whose loop has stopped submits
    the disconnect task to a loop that will never run it, waits the whole
    5 s for it and gives the task up; with the 0.1 s sleep the call takes
    exactly 5.1 s. *)
Theorem second_disconnect_waits (env : B.disconnect_env) (s : B.t) (l : loop_id)
  (c : B.bleak_client) :
  B.event_loop s = Some l -> B.client s = Some c ->
  B.is_running l s = false -> B.ble_thread s = None ->
  exists s',
    B.disconnect env s = Returned tt s'
    /\ B.clock s' = (B.clock s + 5100)%N
    /\ B.tasks_abandoned s' = S (B.tasks_abandoned s)
    /\ B.trace s' = B.trace s ++ second_disconnect_ops l.
Proof.
  destruct s as [lg ic rc da dn cl el bt cf df pt dc tr ck rl tcn lcn ab].
  unfold B.is_running, second_disconnect_ops.
  cbn [B.event_loop B.client B.ble_thread B.running_loops B.clock B.trace B.tasks_abandoned].
  intros -> -> Hrun ->.
  run_b. rewrite Hrun. run_b. rewrite Hrun. run_b. rewrite ?Hrun. run_b.
  eexists. split; [reflexivity |]. run_b.
  split; [lia |]. split; [reflexivity |]. now rewrite <- !app_assoc.
Qed.

Lemma second_disconnect_waits_after_disconnect :
  exists s',
    B.disconnect link_closes ble_disconnected = Returned tt s'
    /\ B.clock s' = (B.clock ble_disconnected + 5100)%N
    /\ B.tasks_abandoned s' = S (B.tasks_abandoned ble_disconnected)
    /\ B.trace s' = B.trace ble_disconnected ++ second_disconnect_ops 0.
Proof.
  apply (second_disconnect_waits link_closes ble_disconnected 0
           {| B.client_address := "AA:BB:CC:DD:EE:FF"; B.client_timeout := 20000%N |});
    vm_compute; reflexivity.
Defined.

(** *** Scanning and connecting *)

Lemma matching_first (l1 l2 : list (B.device * B.adv_data)) (d : B.device) (adv : B.adv_data) :
  (forall d' adv', In (d', adv') l1 -> ~ service_listed adv') ->
  service_listed adv ->
  matching (l1 ++ (d, adv) :: l2) = Some d.
Proof.
  intros Hno Hyes. unfold matching.
  induction l1 as [| [d' adv'] l1 IH]; cbn [app find snd].
  - apply advertises_service_listed in Hyes. now rewrite Hyes.
  - destruct (B.advertises_service adv') eqn:E.
    + apply advertises_service_listed in E. exfalso. apply (Hno d' adv'); [now left | exact E].
    + apply IH. intros d'' adv'' Hin. apply (Hno d'' adv''). now right.
Qed.

Lemma matching_none (devices : list (B.device * B.adv_data)) :
  (forall d adv, In (d, adv) devices -> ~ service_listed adv) ->
  matching devices = None.
Proof.
  intros Hno. unfold matching.
  destruct (find _ devices) as [[d adv] | ] eqn:E; [| reflexivity].
  apply find_some in E. destruct E as [Hin Hm]. cbn [snd] in Hm.
  apply advertises_service_listed in Hm. exfalso. now apply (Hno d adv).
Qed.

(** X14: the scan with a time bound does nothing but await the discovery.
    When the discovery returns, which it does when the bound has passed, the
    scan returns the device of the first advertisement, in the order of
    discovery, that lists the service identifier (up to the case of its
    letters) and logs it, or the not-found result when no advertisement
    lists it, and then logs nothing.  When the discovery raises, the scan
    raises the same exception at the moment the discovery raises it,
    whether or not the bound has passed, and logs nothing. *)
Theorem timed_scan_returns_first_match (fuel : nat) (t : millis) (env : B.connect_env)
  (s : B.t) :
  match B.discover env with
  | inl devices =>
      exists s',
        B.outcome (B._find_camera fuel (Some t) env s) = Returned (matching devices) s'
        /\ B.clock s' = (B.clock s + t)%N
        /\ B.trace s' = B.trace s ++ [Scanner_discover t]
        /\ B.logger s' = B.logger s ++ found (matching devices)
        /\ (forall l1 d adv l2,
               devices = l1 ++ (d, adv) :: l2 ->
               (forall d' adv', In (d', adv') l1 -> ~ service_listed adv') ->
               service_listed adv ->
               matching devices = Some d)
        /\ ((forall d adv, In (d, adv) devices -> ~ service_listed adv) ->
            matching devices = None)
  | inr (d, e) =>
      exists s',
        B.outcome (B._find_camera fuel (Some t) env s) = Raised e s'
        /\ B.clock s' = (B.clock s + d)%N
        /\ B.trace s' = B.trace s ++ [Scanner_discover t]
        /\ B.logger s' = B.logger s
  end.
Proof.
  destruct (B.discover env) as [devices | [d e]] eqn:E.
  - cbn [B._find_camera]. rewrite outcome_bind, E, outcome_await.
    unfold B.lift. cbn [B.outcome]. rewrite first_camera_run.
    eexists. split; [reflexivity |].
    repeat (split; [reflexivity |]).
    split.
    + intros l1 d adv l2 -> Hno Hyes. now apply matching_first.
    + apply matching_none.
  - cbn [B._find_camera]. unfold B.co_bind, B.await. rewrite E. cbn [B.graft B.outcome].
    eexists. split; [reflexivity |]. repeat split.
Qed.

(** X15: with a scan time bound [t], no address (or an empty one) and no
    camera among the devices discovered, [connect] returns false after
    exactly [t] plus the 0.1 s it sleeps.  No client is created, the stored
    address is left as it was and nothing is abandoned; the event loop that
    [connect] started is still running. *)
Theorem connect_finds_no_camera (fuel : nat) (addr : option string) (t : millis)
  (env : B.connect_env) (s : B.t) (devices : list (B.device * B.adv_data)) :
  Py.truthy_opt_str addr = false ->
  B.bleak_installed env = true -> B.loop_ready env = true ->
  B.discover env = inl devices -> matching devices = None ->
  exists s',
    B.connect fuel addr (Some t) env s = Returned false s'
    /\ B.clock s' = (B.clock s + 100 + t)%N
    /\ B.trace s' = B.trace s ++ connect_prefix (Some t) s ++ [Scanner_discover t]
    /\ B.logger s' = B.logger s ++ [(INFO, BLE_Scanning t); (ERROR, BLE_No_camera_found)]
    /\ B.is_connected s' = B.is_connected s
    /\ B.client s' = B.client s /\ B.device_address s' = B.device_address s
    /\ B.event_loop s' = Some (B.loops_created s)
    /\ B.is_running (B.loops_created s) s' = true
    /\ B.tasks_abandoned s' = B.tasks_abandoned s.
Proof.
  intros Haddr Hbi Hlr Hdisc Hmatch.
  assert (Et : (t <=? t + 20000)%N = true) by (apply N.leb_le; lia).
  destruct s as [lg ic rc da dn cl el bt cf df pt dc tr ck rl tcn lcn ab].
  destruct env as [bi lr disc adv ss sp cc cic sn].
  cbn [B.bleak_installed B.loop_ready B.discover] in Hbi, Hlr, Hdisc. subst bi lr disc.
  unfold connect_prefix.
  run_b. cbn [existsb]. rewrite Nat.eqb_refl. run_b. rewrite Haddr. run_b.
  rewrite Et. run_b. rewrite first_camera_run, Hmatch. run_b.
  eexists. split; [reflexivity |]. run_b. cbn [found existsb]. rewrite Nat.eqb_refl.
  rewrite <- !app_assoc. cbn [app orb].
  repeat split; try reflexivity.
Qed.

Lemma connect_finds_no_camera_near_headset :
  exists s',
    B.connect 0 None (Some 3000%N) no_camera B.init = Returned false s'
    /\ B.clock s' = (B.clock B.init + 100 + 3000)%N
    /\ B.trace s' = B.trace B.init ++ connect_prefix (Some 3000%N) B.init ++ [Scanner_discover 3000%N]
    /\ B.logger s'
       = B.logger B.init ++ [(INFO, BLE_Scanning 3000%N); (ERROR, BLE_No_camera_found)]
    /\ B.is_connected s' = B.is_connected B.init
    /\ B.client s' = B.client B.init /\ B.device_address s' = B.device_address B.init
    /\ B.event_loop s' = Some (B.loops_created B.init)
    /\ B.is_running (B.loops_created B.init) s' = true
    /\ B.tasks_abandoned s' = B.tasks_abandoned B.init.
Proof.
  apply (connect_finds_no_camera 0 None 3000%N no_camera B.init [(headset, headset_adv)]);
    reflexivity.
Defined.

(** X16: [connect] to a given, non-empty address succeeds when the camera
    answers in time: it returns true after the 0.1 s sleep, the time the
    connection takes and the time the request for notifications takes.  No
    scan is made; the client is created for that address with a time bound
    of 20 s (one hour when there is no scan time bound); notifications are
    requested on the READ characteristic after the connection is up, and
    only then is the instance Connected.  The callback registered before is
    still registered. *)
Theorem connect_to_address_succeeds (fuel : nat) (a : string) (st : option millis)
  (env : B.connect_env) (s : B.t) (d1 d2 : millis) :
  Py.truthy_str a = true -> accepts env d1 d2 -> in_time st d1 d2 ->
  exists s',
    B.connect fuel (Some a) st env s = Returned true s'
    /\ B.clock s' = (B.clock s + 100 + d1 + d2)%N
    /\ B.trace s' = B.trace s ++ connect_prefix st s ++ link_ops a st
    /\ B.is_connected s' = true
    /\ B.device_address s' = Some a /\ B.device_name s' = B.device_name s
    /\ B.client s' = Some (client_for a st)
    /\ B.receive_callback s' = B.receive_callback s
    /\ B.tasks_abandoned s' = B.tasks_abandoned s.
Proof.
  intros Ha (Hbi & Hlr & (c & Hcc & Hc) & Hsn) Htime.
  destruct s as [lg ic rc da dn cl el bt cf df pt dc tr ck rl tcn lcn ab].
  destruct env as [bi lr disc adv ss sp cc cic sn].
  cbn [B.bleak_installed B.loop_ready B.client_connect B.client_start_notify
       B.client_is_connected] in Hbi, Hlr, Hcc, Hsn, Hc.
  subst bi lr cc sn.
  unfold connect_prefix, link_ops, client_for, in_time in *.
  assert (Hc' : (if c then true else cic) = true) by exact Hc. clear Hc.
  destruct st as [t | ].
  - destruct Htime as [H1 H2].
    assert (E1 : (d1 <=? 20000)%N = true) by (apply N.leb_le; lia).
    assert (E2 : (d1 <=? t + 20000)%N = true) by (apply N.leb_le; lia).
    assert (E3 : (d2 <=? t + 20000 - d1)%N = true) by (apply N.leb_le; lia).
    run_b. cbn [existsb]. rewrite Nat.eqb_refl. run_b.
    cbn [Py.truthy_opt_str]. rewrite Ha. run_b. rewrite E1. run_b. rewrite E2. run_b.
    rewrite Hc'. run_b. rewrite E3. run_b.
    eexists. split; [reflexivity |]. run_b. rewrite <- !app_assoc. cbn [app].
    repeat split; reflexivity.
  - assert (E1 : (d1 <=? 3600000)%N = true) by (apply N.leb_le; exact Htime).
    run_b. cbn [existsb]. rewrite Nat.eqb_refl. run_b.
    cbn [Py.truthy_opt_str]. rewrite Ha. run_b. rewrite E1. run_b.
    rewrite Hc'. run_b.
    eexists. split; [reflexivity |]. run_b. rewrite <- !app_assoc. cbn [app].
    repeat split; reflexivity.
Qed.

Lemma connect_to_address_succeeds_with_camera_nearby :
  exists s',
    B.connect 0 (Some "AA:BB:CC:DD:EE:FF") (Some 3000%N) camera_nearby B.init
    = Returned true s'
    /\ B.clock s' = (B.clock B.init + 100 + 1500 + 10)%N
    /\ B.trace s'
       = B.trace B.init ++ connect_prefix (Some 3000%N) B.init
         ++ link_ops "AA:BB:CC:DD:EE:FF" (Some 3000%N)
    /\ B.is_connected s' = true
    /\ B.device_address s' = Some "AA:BB:CC:DD:EE:FF"
    /\ B.device_name s' = B.device_name B.init
    /\ B.client s' = Some (client_for "AA:BB:CC:DD:EE:FF" (Some 3000%N))
    /\ B.receive_callback s' = B.receive_callback B.init
    /\ B.tasks_abandoned s' = B.tasks_abandoned B.init.
Proof.
  apply connect_to_address_succeeds.
  - reflexivity.
  - split; [reflexivity |]. split; [reflexivity |].
    split; [exists true; split; reflexivity | reflexivity].
  - cbn. lia.
Defined.

(** X17: [connect] without an address and with a scan time bound [t]
    succeeds when the scan discovers a camera and the camera then connects
    and enables notifications within 20 s in all: the time of the scan
    counts against the bound of [t + 20] s.  The instance stores the address
    and the name of the device found and is Connected after 0.1 s, [t] and
    the time the camera took. *)
Theorem connect_after_scan_succeeds (fuel : nat) (addr : option string) (t : millis)
  (env : B.connect_env) (s : B.t) (devices : list (B.device * B.adv_data))
  (d : B.device) (d1 d2 : millis) :
  Py.truthy_opt_str addr = false -> accepts env d1 d2 ->
  B.discover env = inl devices -> matching devices = Some d ->
  (d1 + d2 <= 20000)%N ->
  exists s',
    B.connect fuel addr (Some t) env s = Returned true s'
    /\ B.clock s' = (B.clock s + 100 + t + d1 + d2)%N
    /\ B.trace s'
       = B.trace s ++ connect_prefix (Some t) s ++ [Scanner_discover t]
         ++ link_ops (B.address d) (Some t)
    /\ B.is_connected s' = true
    /\ B.device_address s' = Some (B.address d) /\ B.device_name s' = B.name d
    /\ B.client s' = Some (client_for (B.address d) (Some t))
    /\ B.tasks_abandoned s' = B.tasks_abandoned s.
Proof.
  intros Haddr (Hbi & Hlr & (c & Hcc & Hc) & Hsn) Hdisc Hmatch Htime.
  destruct s as [lg ic rc da dn cl el bt cf df pt dc tr ck rl tcn lcn ab].
  destruct env as [bi lr disc adv ss sp cc cic sn].
  cbn [B.bleak_installed B.loop_ready B.client_connect B.client_start_notify
       B.client_is_connected B.discover] in Hbi, Hlr, Hcc, Hsn, Hc, Hdisc.
  subst bi lr cc sn disc.
  unfold connect_prefix, link_ops, client_for.
  assert (Hc' : (if c then true else cic) = true) by exact Hc. clear Hc.
  assert (E0 : (t <=? t + 20000)%N = true) by (apply N.leb_le; lia).
  assert (E1 : (d1 <=? 20000)%N = true) by (apply N.leb_le; lia).
  assert (E2 : (d1 <=? t + 20000 - t)%N = true) by (apply N.leb_le; lia).
  assert (E3 : (d2 <=? t + 20000 - t - d1)%N = true) by (apply N.leb_le; lia).
  run_b. cbn [existsb]. rewrite Nat.eqb_refl. run_b. rewrite Haddr. run_b.
  rewrite E0. run_b. rewrite first_camera_run, Hmatch. run_b.
  rewrite E1. run_b. rewrite E2. run_b. rewrite Hc'. run_b. rewrite E3. run_b.
  eexists. split; [reflexivity |]. run_b. rewrite <- !app_assoc. cbn [app].
  repeat split; reflexivity.
Qed.

Lemma connect_after_scan_succeeds_with_camera_nearby :
  exists s',
    B.connect 0 None (Some 3000%N) camera_nearby B.init = Returned true s'
    /\ B.clock s' = (B.clock B.init + 100 + 3000 + 1500 + 10)%N
    /\ B.trace s'
       = B.trace B.init ++ connect_prefix (Some 3000%N) B.init ++ [Scanner_discover 3000%N]
         ++ link_ops (B.address camera) (Some 3000%N)
    /\ B.is_connected s' = true
    /\ B.device_address s' = Some (B.address camera) /\ B.device_name s' = B.name camera
    /\ B.client s' = Some (client_for (B.address camera) (Some 3000%N))
    /\ B.tasks_abandoned s' = B.tasks_abandoned B.init.
Proof.
  apply (connect_after_scan_succeeds 0 None 3000%N camera_nearby B.init
           [(camera, camera_adv)] camera 1500%N 10%N).
  - reflexivity.
  - split; [reflexivity |]. split; [reflexivity |].
    split; [exists true; split; reflexivity | reflexivity].
  - reflexivity.
  - reflexivity.
  - lia.
Defined.

(** X18: without the bleak library [connect] returns false at once: the
    failed import is logged as an error and nothing else happens (no thread,
    no event loop, no wait, no field written). *)
Theorem connect_without_bleak (fuel : nat) (addr : option string) (st : option millis)
  (env : B.connect_env) (s : B.t) :
  B.bleak_installed env = false ->
  B.connect fuel addr st env s
  = Returned false
      (B.set_logger (B.logger s ++ [(ERROR, BLE_not_installed)])
         (B.set_trace (B.trace s ++ [Import_bleak]) s)).
Proof.
  intros Hbi. unfold B.connect, try_except, bind at 1, B.emit, modify.
  unfold bind at 1. rewrite Hbi. reflexivity.
Qed.

Lemma connect_without_bleak_on_new_instance :
  B.connect 0 None None bleak_missing B.init
  = Returned false
      (B.set_logger (B.logger B.init ++ [(ERROR, BLE_not_installed)])
         (B.set_trace (B.trace B.init ++ [Import_bleak]) B.init)).
Proof.
  apply connect_without_bleak. reflexivity.
Defined.

(** X19: the 0.1 s sleep is all [connect] waits for the event loop.  When
    the loop thread has not stored its loop by then, and the instance holds
    no loop from before, the task cannot be submitted: [connect] logs the
    failure and returns false after those 0.1 s, with the thread it started
    still tracked. *)
Theorem connect_before_loop_is_up (fuel : nat) (addr : option string) (st : option millis)
  (env : B.connect_env) (s : B.t) :
  B.bleak_installed env = true -> B.loop_ready env = false -> B.event_loop s = None ->
  exists s' msg,
    B.connect fuel addr st env s = Returned false s'
    /\ B.clock s' = (B.clock s + 100)%N
    /\ B.trace s' = B.trace s ++ [Import_bleak; Thread_start (B.threads_created s); Sleep 100%N]
    /\ B.logger s' = B.logger s ++ [(ERROR, BLE_Connection_failed (Error msg))]
    /\ B.ble_thread s' = Some (B.threads_created s)
    /\ B.is_connected s' = B.is_connected s.
Proof.
  intros Hbi Hlr Hel.
  destruct s as [lg ic rc da dn cl el bt cf df pt dc tr ck rl tcn lcn ab].
  destruct env as [bi lr disc adv ss sp cc cic sn].
  cbn [B.bleak_installed B.loop_ready B.event_loop] in Hbi, Hlr, Hel. subst bi lr el.
  run_b. eexists; eexists. split; [reflexivity |]. run_b.
  rewrite <- !app_assoc. cbn [app]. repeat split; reflexivity.
Qed.

Lemma connect_before_loop_is_up_on_new_instance :
  exists s' msg,
    B.connect 0 None None loop_late B.init = Returned false s'
    /\ B.clock s' = (B.clock B.init + 100)%N
    /\ B.trace s'
       = B.trace B.init ++ [Import_bleak; Thread_start (B.threads_created B.init); Sleep 100%N]
    /\ B.logger s' = B.logger B.init ++ [(ERROR, BLE_Connection_failed (Error msg))]
    /\ B.ble_thread s' = Some (B.threads_created B.init)
    /\ B.is_connected s' = B.is_connected B.init.
Proof.
  apply connect_before_loop_is_up; reflexivity.
Defined.

(** *** Notifications *)

(** X20: with a callback registered, and as long as the callback returns,
    the notification handler passes every notification on to it, in the
    order of arrival, with the bytes as they came (an empty payload too) and
    whatever the sender; it changes nothing in the instance.  An exception of the callback is not caught: it is
    raised to the caller of the handler. *)
Theorem notifications_reach_callback (ns : list (nat * Py.bytes * option string))
  (s : B.t) (cb : callback) :
  B.receive_callback s = Some cb ->
  (Forall (fun n => snd n = None) ns ->
   notifications ns s
   = Returned tt
       (B.set_trace (B.trace s ++ map (fun n => Callback cb (snd (fst n))) ns) s))
  /\ (forall sender data msg,
         B._notification_handler sender data (Some msg) s
         = Raised (Error msg) (B.set_trace (B.trace s ++ [Callback cb data]) s)).
Proof.
  intros Hcb. split.
  - revert s Hcb. induction ns as [| [[sender data] raises] rest IH]; intros s Hcb Hall.
    + cbn [notifications map]. rewrite app_nil_r. now destruct s.
    + inversion Hall as [| n l Hn Hl]; subst. cbn [snd] in Hn. subst raises.
      cbn [notifications map fst snd]. unfold bind at 1, B._notification_handler.
      unfold bind at 1, get. rewrite Hcb. unfold bind, B.emit, modify, ret.
      rewrite IH; [| exact Hcb | exact Hl].
      destruct s. cbn [B.set_trace B.trace]. now rewrite <- app_assoc.
  - intros sender data msg. unfold B._notification_handler, bind at 1, get.
    rewrite Hcb. reflexivity.
Qed.

Lemma notifications_reach_callback_of_new_instance :
  notifications [(0%nat, [Byte.x01; Byte.x02], @None string); (0%nat, [], @None string)]
    (B.set_receive_callback (Some 1%nat) B.init)
  = Returned tt
      (B.set_trace
         (B.trace (B.set_receive_callback (Some 1%nat) B.init)
          ++ map (fun n => Callback 1%nat (snd (fst n)))
               [(0%nat, [Byte.x01; Byte.x02], @None string); (0%nat, [], @None string)])
         (B.set_receive_callback (Some 1%nat) B.init))
  /\ (forall sender data msg,
         B._notification_handler sender data (Some msg)
           (B.set_receive_callback (Some 1%nat) B.init)
         = Raised (Error msg)
             (B.set_trace
                (B.trace (B.set_receive_callback (Some 1%nat) B.init) ++ [Callback 1%nat data])
                (B.set_receive_callback (Some 1%nat) B.init))).
Proof.
  destruct (notifications_reach_callback
              [(0%nat, [Byte.x01; Byte.x02], @None string); (0%nat, [], @None string)]
              (B.set_receive_callback (Some 1%nat) B.init) 1%nat eq_refl) as [H1 H2].
  split; [apply H1; repeat constructor | exact H2].
Defined.

(** *** The tasks of [disconnect] and [send] *)

(** X21: the disconnect task lets no exception of the client out: it
    returns, or it is still waiting for the client.  When the instance has a
    client
    and the link is up it asks the client to stop the notifications on the
    READ characteristic and then to disconnect; the disconnection is asked
    for only when stopping the notifications did not fail.  Otherwise it
    asks for nothing. *)
Theorem async_disconnect_sequence (env : B.disconnect_env) (s : B.t) :
  match B.outcome (B._async_disconnect env s) with
  | Returned _ s' | Blocked s' =>
      B.trace s'
      = B.trace s ++ (if Py.is_some (B.client s) && B.link_is_connected env
                      then unlink_ops env else [])
      /\ B.is_connected s' = B.is_connected s
      /\ B.client s' = B.client s
  | _ => False
  end.
Proof.
  destruct s as [lg ic rc da dn cl el bt cf df pt dc tr ck rl tcn lcn ab].
  destruct env as [lk sn cd jn]. unfold unlink_ops.
  destruct cl as [c | ], lk, sn as [d1 [[] | e1] | ], cd as [d2 [[] | e2] | ]; run_b;
    rewrite <- ?app_assoc, ?app_nil_r; cbn [app]; repeat split; reflexivity.
Qed.

(** X22: what [send] of the BLE transport has logged when it returns.  A
    refused send, a send on a link that is down, a write that succeeds and a
    write that was cancelled log nothing.  A write that fails within the 2 s
    is logged with its exception when the link is still up afterwards, and
    not at all when it is down.  A write that is not over after 2 s, or a
    loop that is not running, is logged as a time-out. *)
Theorem ble_send_log (data : Py.bytes) (env : B.send_env) (s : B.t) :
  B.logger (final_state (B.send data env s))
  = B.logger s
    ++ match B.client s, B.event_loop s with
       | Some _, Some l =>
           if B.is_connected s && negb (B._disconnecting s) then
             if B.is_running l s then send_log env
             else [(ERROR, BLE_Send_timeout_or_error)]
           else []
       | _, _ => []
       end.
Proof.
  destruct s as [lg ic rc da dn cl el bt cf df pt dc tr ck rl tcn lcn ab].
  destruct env as [lu wr lua]. unfold send_log.
  destruct cl as [c | ], ic, el as [l | ], dc; run_b; rewrite ?app_nil_r; try reflexivity.
  all: repeat (match goal with
               | |- context [existsb (Nat.eqb ?l) ?rl] =>
                   destruct (existsb (Nat.eqb l) rl) eqn:Erun
               | |- context [(?d <=? 2000)%N] => destruct (d <=? 2000)%N
               | |- context [if ?b then _ else _] => is_var b; destruct b
               | |- context [match ?x with B.After _ _ => _ | B.Never => _ end] =>
                   is_var x; destruct x as [d [[] | e] | ]
               | |- context [match ?e with ImportError => _ | _ => _ end] =>
                   is_var e; destruct e
               end; run_b).
  all: rewrite ?app_nil_r; reflexivity.
Qed.

(** ** What the tasks leave alone *)

Ltac solve_kept :=
  unfold kept, untouched in *; simpl_ble;
  first [assumption | reflexivity | congruence].

Section Kept.

Context {A : Type} (R : B.t -> Prop).

Lemma tl_all_graft {C : Type} (k : A -> B.Co C) (tl : B.timeline A) :
  tl_all R tl ->
  (forall a s, R s -> tl_all R (k a s)) ->
  tl_all R (B.graft tl k).
Proof.
  intros H Hk. induction tl as [[a s | e s | s | s] | s d rest IH]; cbn in *; auto.
  split; [apply H | apply IH, H].
Qed.

Lemma tl_all_bind {C : Type} (m : B.Co A) (k : A -> B.Co C) (s : B.t) :
  tl_all R (m s) ->
  (forall a s', R s' -> tl_all R (k a s')) ->
  tl_all R (B.co_bind m k s).
Proof. apply tl_all_graft. Qed.

Lemma run_until_all (budget : option millis) (tl : B.timeline A) :
  (forall b s, R s -> R (B.abandon (B.tick b s))) ->
  tl_all R tl ->
  R (final_state (B.run_until budget tl)).
Proof.
  intros Hab. revert budget.
  induction tl as [[a s | e s | s | s] | s d rest IH]; intros budget H; cbn in *; auto.
  - destruct budget; cbn; auto.
  - destruct budget as [b | ]; [destruct (d <=? b)%N |]; cbn; try apply IH; try apply H.
    apply Hab, H.
Qed.

End Kept.

Lemma kept_await {A : Type} (s0 s : B.t) (e : event) (o : B.timed A) :
  kept s0 s -> tl_all (kept s0) (B.await e o s).
Proof.
  intros H. unfold B.await. destruct o as [d [a | x] | ]; cbn [tl_all final_state];
    repeat split; solve_kept.
Qed.

Lemma kept_deliver (s0 s : B.t) (found : option B.device) (ads : list (B.device * B.adv_data)) :
  kept s0 s ->
  exists r s', B.deliver found true ads s = Returned r s' /\ kept s0 s'.
Proof.
  intros H. destruct found as [d | ].
  - rewrite deliver_some. eauto.
  - rewrite deliver_none. destruct (matching ads) as [d | ]; eexists; eexists;
      (split; [reflexivity |]); unfold noted; solve_kept.
Qed.

Lemma kept_poll_window (env : B.connect_env) (n : nat) (start : millis) (s0 : B.t) :
  forall p k found s,
    kept s0 s -> tl_all (kept s0) (B.poll_window p env n k start found s).
Proof.
  induction p as [| p IH]; intros k found s H; cbn [B.poll_window];
    destruct (negb (Py.is_some found) && (B.clock s - start <? B.scan_duration)%N);
    try exact H.
  apply tl_all_bind; [now apply kept_await |].
  intros _ s1 H1. apply tl_all_bind.
  - unfold B.lift. destruct (kept_deliver s0 s1 found (B.adverts env n (B.Polling k)) H1)
      as (r & s2 & -> & H2). exact H2.
  - intros found' s2 H2. now apply IH.
Qed.

Lemma kept_scan_attempts (env : B.connect_env) (s0 : B.t) :
  forall fuel c s,
    kept s0 s -> tl_all (kept s0) (B.scan_attempts fuel env c None s).
Proof.
  induction fuel as [| fuel IH]; intros c s H; cbn [B.scan_attempts]; [exact H |].
  apply tl_all_bind.
  { unfold B.lift. destruct (1 <? S c)%nat; exact H. }
  intros _ s1 H1. apply tl_all_bind; [now apply kept_await |].
  intros _ s2 H2. apply tl_all_bind.
  { unfold B.lift. destruct (kept_deliver s0 s2 None (B.adverts env (S c) B.Starting) H2)
      as (r & s3 & -> & H3). exact H3. }
  intros found s3 H3. apply tl_all_bind; [exact H3 |].
  intros start s4 H4. apply tl_all_bind; [now apply kept_poll_window |].
  intros found' s5 H5. apply tl_all_bind; [now apply kept_await |].
  intros _ s6 H6. apply tl_all_bind.
  { unfold B.lift. destruct (kept_deliver s0 s6 found' (B.adverts env (S c) B.Stopping) H6)
      as (r & s7 & -> & H7). exact H7. }
  intros [d | ] s7 H7; [exact H7 | now apply IH].
Qed.

Lemma kept_find_camera (fuel : nat) (timeout : option millis) (env : B.connect_env)
  (s0 s : B.t) :
  kept s0 s -> tl_all (kept s0) (B._find_camera fuel timeout env s).
Proof.
  intros H. destruct timeout as [t | ]; cbn [B._find_camera].
  - apply tl_all_bind; [now apply kept_await |].
    intros devices s1 H1. unfold B.lift. rewrite first_camera_run.
    cbn [tl_all final_state]. solve_kept.
  - now apply kept_scan_attempts.
Qed.

Lemma kept_establish (a : string) (st : option millis) (env : B.connect_env) (s0 s : B.t) :
  kept s0 s -> tl_all (kept s0) (B.establish a st env s).
Proof.
  intros H.
  destruct env as [bi lr disc adv ss sp cc cic sn].
  destruct cc as [d [[|] | e] | ];
  unfold B.establish, B.bounded, B.client_connect;
  try destruct (d <=? _)%N;
  destruct cic;
  destruct sn as [d' [[] | e'] | ];
  try destruct e; try destruct e';
  run_b; cbn [tl_all final_state]; repeat split; solve_kept.
Qed.

Lemma kept_async_connect (fuel : nat) (addr : option string) (st : option millis)
  (env : B.connect_env) (s0 s : B.t) :
  kept s0 s -> tl_all (kept s0) (B._async_connect fuel addr st env s).
Proof.
  intros H. unfold B._async_connect.
  destruct (negb (Py.truthy_opt_str addr)); [| now apply kept_establish].
  apply tl_all_bind.
  { unfold B.lift. destruct st; exact H. }
  intros _ s1 H1. apply tl_all_bind; [now apply kept_find_camera |].
  intros [d | ] s2 H2.
  - unfold B.co_bind, B.lift, modify. cbn [B.graft]. apply kept_establish. solve_kept.
  - exact H2.
Qed.

Lemma kept_connect (fuel : nat) (addr : option string) (st : option millis)
  (env : B.connect_env) (s : B.t) :
  kept s (final_state (B.connect fuel addr st env s)).
Proof.
  destruct (B.bleak_installed env) eqn:Ebi, (B.loop_ready env) eqn:Elr.
  all: destruct s as [lg ic rc da dn cl el bt cf df pt dc tr ck rl tcn lcn ab].
  all: destruct st as [t | ].
  all: run_prefix; rewrite Ebi; run_prefix; rewrite ?Elr; run_prefix.
  all: try destruct el as [l | ]; run_prefix.
  all: try (cbn [existsb]; rewrite Nat.eqb_refl; cbn [orb]).
  all: try destruct (existsb (Nat.eqb l) rl).
  all: try match goal with
    | |- context [B.run_until ?b (?X ?s2)] =>
        let H := fresh "H" in
        assert (H : kept (B.set_trace tr s2) (final_state (B.run_until b (X s2))))
          by (apply run_until_all;
              [ intros b0 s0 Hk; solve_kept
              | lazymatch X with
                | B._async_connect ?f ?a ?st ?e => apply (kept_async_connect f a st e)
                | _ => unfold B.never_run; cbn [tl_all final_state]
                end; reflexivity ]);
        (destruct (B.run_until b (X s2)) as [r s' | e s' | s' | s'];
         [ | destruct e | | ])
    end.
  all: cbn [final_state] in *; run_prefix.
  all: solve_kept.
Qed.

Lemma kept_fields (s0 s : B.t) :
  kept s0 s ->
  B.receive_callback s = B.receive_callback s0
  /\ B._pending_tasks s = B._pending_tasks s0
  /\ B._connect_future s = B._connect_future s0
  /\ B._disconnect_future s = B._disconnect_future s0
  /\ B._disconnecting s = B._disconnecting s0.
Proof.
  intros H. repeat split.
  - exact (f_equal B.receive_callback H).
  - exact (f_equal B._pending_tasks H).
  - exact (f_equal B._connect_future H).
  - exact (f_equal B._disconnect_future H).
  - exact (f_equal B._disconnecting H).
Qed.

Lemma ble_send_quiet (data : Py.bytes) (env : B.send_env) (s : B.t) :
  exists b s',
    B.send data env s = Returned b s'
    /\ kept s s'
    /\ filter is_task_cancel (B.trace s') = filter is_task_cancel (B.trace s).
Proof.
  destruct s as [lg ic rc da dn cl el bt cf df pt dc tr ck rl tcn lcn ab].
  destruct env as [lu wr lua].
  destruct cl as [c | ], ic, el as [l | ], dc; run_b.
  all: repeat (match goal with
               | |- context [existsb (Nat.eqb ?l) ?rl] =>
                   destruct (existsb (Nat.eqb l) rl) eqn:Erun
               | |- context [(?d <=? 2000)%N] => destruct (N.leb_spec d 2000)
               | |- context [if ?b then _ else _] => is_var b; destruct b
               | |- context [match ?x with B.After _ _ => _ | B.Never => _ end] =>
                   is_var x; destruct x as [d [[] | e] | ]
               | |- context [match ?e with ImportError => _ | _ => _ end] =>
                   is_var e; destruct e
               end; run_b).
  all: eexists; eexists; (split; [reflexivity |]); run_b.
  all: (split; [reflexivity |]).
  all: rewrite ?filter_app; cbn [filter is_task_cancel]; rewrite ?app_nil_r; reflexivity.
Qed.

Lemma ble_disconnect_quiet (env : B.disconnect_env) (s : B.t) :
  exists s',
    B.disconnect env s = Returned tt s'
    /\ B.receive_callback s' = B.receive_callback s
    /\ B._connect_future s' = B._connect_future s
    /\ B._disconnect_future s' = B._disconnect_future s
    /\ (B._pending_tasks s = [] ->
        B._pending_tasks s' = []
        /\ filter is_task_cancel (B.trace s') = filter is_task_cancel (B.trace s)).
Proof.
  destruct s as [lg ic rc da dn cl el bt cf df pt dc tr ck rl tcn lcn ab].
  destruct env as [lk sn cd jn].
  destruct el as [l | ], cl as [c | ], bt as [th | ]; run_b.
  all: repeat (match goal with
               | H : existsb (Nat.eqb ?l) ?rl = _ |- context [existsb (Nat.eqb ?l) ?rl] =>
                   rewrite H
               | |- context [existsb (Nat.eqb ?l) ?rl] =>
                   destruct (existsb (Nat.eqb l) rl) eqn:Erun
               | |- context [(?d <=? ?b)%N] => destruct (N.leb_spec d b)
               | |- context [if ?b then _ else _] => is_var b; destruct b
               | |- context [match ?x with B.After _ _ => _ | B.Never => _ end] =>
                   is_var x; destruct x as [? [[] | ?] | ]
               | |- context [match ?x with B.Thread_exits _ => _ | B.Thread_keeps_running => _ end] =>
                   is_var x; destruct x as [? | ]
               end; run_b).
  all: eexists; (split; [reflexivity |]); run_b.
  all: do 3 (split; [reflexivity |]).
  all: intros ->; split; [reflexivity |].
  all: cbn [map]; rewrite ?filter_app; cbn [filter is_task_cancel]; rewrite ?app_nil_r;
       reflexivity.
Qed.

(** X23: on the BLE transport only [start_receiving] and [stop_receiving]
    write the callback: [connect], however it ends, [send] and [disconnect]
    leave the registered callback as it was.  So a callback registered
    before [connect] is the one that is called for a notification that
    arrives after it. *)
Theorem ble_callback_is_kept (s : B.t) :
  (forall fuel addr st env,
      B.receive_callback (final_state (B.connect fuel addr st env s)) = B.receive_callback s)
  /\ (forall data env,
         B.receive_callback (final_state (B.send data env s)) = B.receive_callback s)
  /\ (forall env,
         B.receive_callback (final_state (B.disconnect env s)) = B.receive_callback s)
  /\ (forall cb fuel addr st env sender data,
         let s1 := final_state (B.start_receiving cb s) in
         let s2 := final_state (B.connect fuel addr st env s1) in
         B._notification_handler sender data None s2
         = Returned tt (B.set_trace (B.trace s2 ++ [Callback cb data]) s2)).
Proof.
  split; [| split; [| split]].
  - intros fuel addr st env. apply (kept_fields s _ (kept_connect fuel addr st env s)).
  - intros data env. destruct (ble_send_quiet data env s) as (b & s' & -> & H & _).
    apply (kept_fields s s' H).
  - intros env. destruct (ble_disconnect_quiet env s) as (s' & -> & H & _). exact H.
  - intros cb fuel addr st env sender data s1 s2.
    assert (H : B.receive_callback s2 = Some cb).
    { subst s2. rewrite (proj1 (kept_fields _ _ (kept_connect fuel addr st env s1))).
      reflexivity. }
    unfold B._notification_handler, bind at 1, get. rewrite H. reflexivity.
Qed.

(** X24: nothing is ever added to [_pending_tasks], and [_connect_future]
    and [_disconnect_future] are never assigned: on an instance that
    [__init__] built, after any sequence of calls of [connect],
    [disconnect], [send], [start_receiving], [stop_receiving] and of the
    notification handler, the set is empty and the two futures are None.
    So the cancel step of [disconnect] finds nothing to cancel: no task has
    ever been cancelled, the tasks that a timed-out wait left running
    included. *)
Theorem no_task_is_ever_cancelled (s : B.t) :
  reached s -> no_task_tracked s.
Proof.
  unfold no_task_tracked.
  induction 1 as [| fuel addr st env s b s' _ IH Hrun | env s s' _ IH Hrun
                  | data env s b s' _ IH Hrun | cb s s' _ IH Hrun | s s' _ IH Hrun
                  | sender data raises s _ IH].
  - repeat split.
  - destruct IH as (H1 & H2 & H3 & H4).
    pose proof (kept_fields s _ (kept_connect fuel addr st env s)) as (_ & K1 & K2 & K3 & _).
    pose proof (ble_connect_outcome fuel addr st env s) as Hc.
    rewrite Hrun in *. cbn [final_state] in *. destruct Hc as (Hc & _).
    repeat split; congruence.
  - destruct IH as (H1 & H2 & H3 & H4).
    destruct (ble_disconnect_quiet env s) as (s1 & Hrun' & _ & K2 & K3 & K).
    rewrite Hrun in Hrun'. injection Hrun' as <-. destruct (K H1) as [K1 K4].
    repeat split; congruence.
  - destruct IH as (H1 & H2 & H3 & H4).
    destruct (ble_send_quiet data env s) as (b' & s1 & Hrun' & K & K4).
    rewrite Hrun in Hrun'. injection Hrun' as <- <-.
    destruct (kept_fields s s' K) as (_ & K1 & K2 & K3 & _).
    repeat split; congruence.
  - injection Hrun as <-. exact IH.
  - injection Hrun as <-. exact IH.
  - destruct IH as (H1 & H2 & H3 & H4).
    destruct s as [lg ic rc da dn cl el bt cf df pt dc tr ck rl tcn lcn ab].
    cbn [B._pending_tasks B._connect_future B._disconnect_future B.trace] in H1, H2, H3, H4.
    destruct rc as [cb | ]; [destruct raises |]; run_b;
      rewrite ?filter_app, ?H4; repeat split; assumption.
Qed.

Lemma no_task_is_ever_cancelled_after_disconnect :
  no_task_tracked ble_disconnected.
Proof.
  apply no_task_is_ever_cancelled.
  apply (reach_disconnect link_closes ble_connected); [| vm_compute; reflexivity].
  apply (reach_connect 0 (Some "AA:BB:CC:DD:EE:FF") (Some 3000%N) camera_nearby B.init true);
    [apply reach_init | vm_compute; reflexivity].
Defined.
